(** * BizIP dashboard: the search, expansion, financial-statement and report
      components of the React frontend, embedded and verified.

    The embedding follows [SearchComponent] (search lanes, result
    transformers, company rows, report modal) and [FinancialStatements]
    (the tabbed statement modal).  JSON payloads are kept as untyped
    JavaScript values, because every fallback in the source is decided by
    JavaScript truthiness ([x || fallback]) and every crash by a property
    read on [null] or [undefined], a method that is not there, or a
    conversion that throws.  A component is modelled by the element tree
    its render function returns, reduced to the parts that carry data
    (class names, texts, keys, conditional children); what React does
    with the values in that tree is modelled by the mounting predicates. *)

From Stdlib Require Import ZArith NArith Ascii.
From stdpp Require Import gmap strings list fin_maps.

#[local] Set Warnings "-register-all".
#[local] Open Scope N_scope.

(* ===================================================================== *)
(** ** JavaScript values *)
(* ===================================================================== *)

(** A JavaScript string is a sequence of UTF-16 code units. *)
Abbreviation jsstring := (list N).

(** The values [JSON.parse] can yield, plus [undefined] (the result of
    reading a missing property).  Numbers are the integers: the code only
    tests a number for truthiness and passes it on. *)
Inductive JsVal : Type :=
  | JUndefined
  | JNull
  | JBool (b : bool)
  | JNum (n : Z)
  | JStr (s : jsstring)
  | JArr (l : list JsVal)
  | JObj (o : gmap string JsVal).

(** An ASCII literal of the source as code units. *)
Fixpoint lit (s : string) : jsstring :=
  match s with
  | EmptyString => []
  | String a s' => N_of_ascii a :: lit s'
  end.
#[global] Arguments lit : simpl never.

(** An object literal [{ k1: v1, ..., kn: vn }]. *)
Definition obj (fields : list (string * JsVal)) : JsVal :=
  JObj (list_to_map fields).

(** [ToBoolean]. *)
Definition truthy (v : JsVal) : bool :=
  match v with
  | JUndefined | JNull => false
  | JBool b => b
  | JNum n => negb (n =? 0)%Z
  | JStr s => match s with [] => false | _ :: _ => true end
  | JArr _ | JObj _ => true
  end.

(** [a || b] on values. *)
Definition or_else (a b : JsVal) : JsVal := if truthy a then a else b.

Definition nullish (v : JsVal) : bool :=
  match v with JUndefined | JNull => true | _ => false end.

(** [v.k] for a data property [k]: a [TypeError] ([None]) on [null] and
    [undefined]; the own property of an object, [undefined] when it has
    none; [length] of an array or a string; [undefined] otherwise (the
    code reads no inherited property as data). *)
Definition getProp (v : JsVal) (k : string) : option JsVal :=
  match v with
  | JUndefined | JNull => None
  | JObj o => Some (default JUndefined (o !! k))
  | JArr l => Some (if bool_decide (k = "length"%string)
                    then JNum (Z.of_nat (length l)) else JUndefined)
  | JStr s => Some (if bool_decide (k = "length"%string)
                    then JNum (Z.of_nat (length s)) else JUndefined)
  | JBool _ | JNum _ => Some JUndefined
  end.

(** [v === 'literal']. *)
Definition strictEqStr (v : JsVal) (s : jsstring) : bool :=
  match v with
  | JStr t => bool_decide (t = s)
  | _ => false
  end.

(** What the host's built-ins do where the model does not compute it:
    [String.prototype.toLowerCase] (Unicode case mapping), and the
    comparison [v > 0] for a string or array [v] once it is converted
    (number parsing and floating-point rounding). *)
Class JsRuntime := {
  toLowerCase : jsstring -> jsstring;
  coercedGtZero : JsVal -> bool
}.

(** [ToPrimitive] and [ToString] on a parsed value return, rather than
    throw a [TypeError].  A parsed object holds no function: an own
    [toString] property shadows the inherited method with a value that
    cannot be called, and [valueOf] yields no primitive either (an own
    one cannot be called, the inherited one returns the object), so no
    method is left to convert with.  Without an own [toString] an object
    converts to "[object Object]".  An array converts through [join],
    which converts every item other than [null] and [undefined]. *)
Fixpoint coercible (v : JsVal) : bool :=
  match v with
  | JObj o => bool_decide (o !! "toString"%string = None)
  | JArr l => forallb coercible l
  | _ => true
  end.

(** [v > 0]; [None] when converting [v] to a primitive throws.  An object
    that converts compares as "[object Object]", which is no number. *)
Definition gtZero {rt : JsRuntime} (v : JsVal) : option bool :=
  match v with
  | JNum n => Some (0 <? n)%Z
  | JBool b => Some b
  | JUndefined | JNull => Some false
  | JStr _ => Some (coercedGtZero v)
  | JArr _ => if coercible v then Some (coercedGtZero v) else None
  | JObj _ => if coercible v then Some false else None
  end.

(* ===================================================================== *)
(** ** String built-ins *)
(* ===================================================================== *)

(** WhiteSpace and LineTerminator code points of ECMAScript, the set
    [String.prototype.trim] strips. *)
Definition isWhiteSpace (c : N) : bool :=
  (c =? 9) || (c =? 10) || (c =? 11) || (c =? 12) || (c =? 13) || (c =? 32)
  || (c =? 160) || (c =? 5760) || ((8192 <=? c) && (c <=? 8202))
  || (c =? 8232) || (c =? 8233) || (c =? 8239) || (c =? 8287)
  || (c =? 12288) || (c =? 65279).

Fixpoint trimStart (s : jsstring) : jsstring :=
  match s with
  | [] => []
  | c :: s' => if isWhiteSpace c then trimStart s' else s
  end.

Definition trimEnd (s : jsstring) : jsstring := rev (trimStart (rev s)).

Definition trim (s : jsstring) : jsstring := trimEnd (trimStart s).

(** [s.split('\n')]: the segments between line feeds; one segment, the
    empty one, for the empty string. *)
Fixpoint split_lines (s : jsstring) : list jsstring :=
  match s with
  | [] => [[]]
  | c :: s' =>
      if c =? 10 then [] :: split_lines s'
      else match split_lines s' with
           | seg :: segs => (c :: seg) :: segs
           | [] => [[c]]
           end
  end.

Fixpoint startsWith (s p : jsstring) : bool :=
  match p, s with
  | [], _ => true
  | _ :: _, [] => false
  | a :: p', b :: s' => (a =? b) && startsWith s' p'
  end.

(** [s.includes(p)]. *)
Fixpoint includes (s p : jsstring) : bool :=
  startsWith s p ||
  match s with
  | [] => false
  | _ :: s' => includes s' p
  end.

(** The bullet marker U+2022. *)
Definition bullet : jsstring := [8226].

(** A runtime for running the scenarios below, whose strings are ASCII
    and in which no [length] is a string or an array: ASCII letters are
    lowered, and no string or array is taken to exceed zero. *)
Definition asciiLower (c : N) : N :=
  if (65 <=? c) && (c <=? 90) then c + 32 else c.

Definition asciiRuntime : JsRuntime :=
  {| toLowerCase := map asciiLower; coercedGtZero := fun _ => false |}.

(* ===================================================================== *)
(** ** SearchComponent: the result transformers *)
(* ===================================================================== *)

Definition strs (l : list string) : JsVal := JArr (map (fun s => JStr (lit s)) l).

(** The guard [xs && xs.length > 0] followed by [xs.forEach(...)]: the
    entries the callback is run on.  A non-empty string, or an object
    whose [length] compares greater than zero, passes the guard and has
    no [forEach] to call: a [TypeError].  So is an object whose [length]
    cannot be compared. *)
Definition forEachEntries {rt : JsRuntime} (xs : JsVal) : option (list JsVal) :=
  if truthy xs then
    match xs with
    | JArr l => if (0 <? Z.of_nat (length l))%Z then Some l else Some []
    | JStr _ => None
    | JObj o =>
        above ← gtZero (default JUndefined (o !! "length"%string));
        if above : bool then None else Some []
    | _ => Some []
    end
  else Some [].

(** The object pushed for one entry of [data.companies]. *)
Definition companyRecord (company : JsVal) : option JsVal :=
  name ← getProp company "name";
  linkedin_url ← getProp company "linkedin_url";
  industry ← getProp company "industry";
  estimated_revenue ← getProp company "estimated_revenue";
  employee_count ← getProp company "employee_count";
  recent_news ← getProp company "recent_news";
  data_sources ← getProp company "data_sources";
  edgar_data ← getProp company "edgar_data";
  edgar_status ← getProp company "edgar_status";
  linkedin_status ← getProp company "linkedin_status";
  companyresearch_status ← getProp company "companyresearch_status";
  ceo ← getProp company "ceo";
  ticker ← getProp company "ticker";
  Some (obj [
    ("name", name);
    ("title", JStr (lit "Company"));
    ("company", name);
    ("estimated_net_worth", JStr (lit "Company Data Available"));
    ("linkedin_url", or_else linkedin_url (JStr (lit "#")));
    ("company_info", obj [
       ("industry", or_else industry (JStr (lit "Unknown")));
       ("revenue", or_else estimated_revenue (JStr (lit "Unknown")));
       ("employees", or_else employee_count (JStr (lit "Unknown")))]);
    ("financial_opportunities",
       strs ["Business Succession Planning"; "Tax Optimization";
             "Employee Benefit Plans"]);
    ("conversation_starters",
       strs ["Recent company developments";
             "Industry trends and market position";
             "Technology investments and innovation"]);
    ("planning_needs",
       strs ["Estate Planning"; "Retirement Planning"; "Risk Management"]);
    ("recent_news", or_else recent_news (JArr []));
    ("data_sources", or_else data_sources (JArr []));
    ("edgar_data", or_else edgar_data JNull);
    ("edgar_status", or_else edgar_status JNull);
    ("linkedin_status", or_else linkedin_status JNull);
    ("companyresearch_status", or_else companyresearch_status JNull);
    ("ceo_name", or_else ceo JNull);
    ("ticker", or_else ticker JNull)]).

(** The object pushed for one entry of [data.individuals]. *)
Definition personRecord (individual : JsVal) : option JsVal :=
  name ← getProp individual "name";
  title ← getProp individual "title";
  company ← getProp individual "company";
  estimated_net_worth ← getProp individual "estimated_net_worth";
  linkedin_url ← getProp individual "linkedin_url";
  data_sources ← getProp individual "data_sources";
  Some (obj [
    ("name", name);
    ("title", or_else title (JStr (lit "Business Executive")));
    ("company", or_else company (JStr (lit "Various")));
    ("estimated_net_worth",
       or_else estimated_net_worth (JStr (lit "Confidential")));
    ("linkedin_url", or_else linkedin_url (JStr (lit "#")));
    ("company_info", obj [
       ("industry", JStr (lit "Technology"));
       ("revenue", JStr (lit "Confidential"));
       ("employees", JStr (lit "N/A"))]);
    ("financial_opportunities",
       strs ["Personal Wealth Management"; "Tax Planning";
             "Investment Advisory"]);
    ("conversation_starters",
       strs ["Recent business developments"; "Industry leadership insights";
             "Strategic planning opportunities"]);
    ("planning_needs",
       strs ["Estate Planning"; "Retirement Planning"; "Risk Management"]);
    ("recent_news", JArr []);
    ("data_sources", or_else data_sources (JArr []))]).

(** [transformedResults] of [handleCompanySearch] for the parsed body
    [data] of an ok response; [None] when building it throws. *)
Definition transformCompanies {rt : JsRuntime} (data : JsVal) : option (list JsVal) :=
  companies ← getProp data "companies";
  entries ← forEachEntries companies;
  mapM companyRecord entries.

(** [transformedResults] of [handlePersonSearch]. *)
Definition transformIndividuals {rt : JsRuntime} (data : JsVal) : option (list JsVal) :=
  individuals ← getProp data "individuals";
  entries ← forEachEntries individuals;
  mapM personRecord entries.

(* ===================================================================== *)
(** ** SearchComponent: state and event handlers *)
(* ===================================================================== *)

(** The [useState] cells of [SearchComponent].  An error cell holds a
    value: the server's [error] field is stored as it comes. *)
Record State := mkState {
  companyQuery : jsstring;
  personQuery : jsstring;
  companyResults : list JsVal;
  personResults : list JsVal;
  companyLoading : bool;
  personLoading : bool;
  companyError : JsVal;
  personError : JsVal;
  selectedCompany : JsVal;
  showFinancialStatements : bool;
  expandedCompanyIndex : option nat;
  reportData : JsVal;
  reportLoading : bool;
  reportError : JsVal;
  showReport : bool
}.

Definition initialState : State :=
  mkState [] [] [] [] false false (JStr []) (JStr []) JNull false None
          JNull false (JStr []) false.

Definition setCompanyQuery (x : jsstring) (st : State) : State :=
  let 'mkState _ b c d e f g h i j k l m n o := st in
  mkState x b c d e f g h i j k l m n o.
Definition setPersonQuery (x : jsstring) (st : State) : State :=
  let 'mkState a _ c d e f g h i j k l m n o := st in
  mkState a x c d e f g h i j k l m n o.
Definition setCompanyResults (x : list JsVal) (st : State) : State :=
  let 'mkState a b _ d e f g h i j k l m n o := st in
  mkState a b x d e f g h i j k l m n o.
Definition setPersonResults (x : list JsVal) (st : State) : State :=
  let 'mkState a b c _ e f g h i j k l m n o := st in
  mkState a b c x e f g h i j k l m n o.
Definition setCompanyLoading (x : bool) (st : State) : State :=
  let 'mkState a b c d _ f g h i j k l m n o := st in
  mkState a b c d x f g h i j k l m n o.
Definition setPersonLoading (x : bool) (st : State) : State :=
  let 'mkState a b c d e _ g h i j k l m n o := st in
  mkState a b c d e x g h i j k l m n o.
Definition setCompanyError (x : JsVal) (st : State) : State :=
  let 'mkState a b c d e f _ h i j k l m n o := st in
  mkState a b c d e f x h i j k l m n o.
Definition setPersonError (x : JsVal) (st : State) : State :=
  let 'mkState a b c d e f g _ i j k l m n o := st in
  mkState a b c d e f g x i j k l m n o.
Definition setSelectedCompany (x : JsVal) (st : State) : State :=
  let 'mkState a b c d e f g h _ j k l m n o := st in
  mkState a b c d e f g h x j k l m n o.
Definition setShowFinancialStatements (x : bool) (st : State) : State :=
  let 'mkState a b c d e f g h i _ k l m n o := st in
  mkState a b c d e f g h i x k l m n o.
Definition setExpandedCompanyIndex (x : option nat) (st : State) : State :=
  let 'mkState a b c d e f g h i j _ l m n o := st in
  mkState a b c d e f g h i j x l m n o.
Definition setReportData (x : JsVal) (st : State) : State :=
  let 'mkState a b c d e f g h i j k _ m n o := st in
  mkState a b c d e f g h i j k x m n o.
Definition setReportLoading (x : bool) (st : State) : State :=
  let 'mkState a b c d e f g h i j k l _ n o := st in
  mkState a b c d e f g h i j k l x n o.
Definition setReportError (x : JsVal) (st : State) : State :=
  let 'mkState a b c d e f g h i j k l m _ o := st in
  mkState a b c d e f g h i j k l m x o.
Definition setShowReport (x : bool) (st : State) : State :=
  let 'mkState a b c d e f g h i j k l m n _ := st in
  mkState a b c d e f g h i j k l m n x.

(** A [fetch] call: the URL and the object passed to [JSON.stringify]. *)
Record Request := mkRequest { url : jsstring; body : JsVal }.

(** How an awaited [fetch(...)] followed by [response.json()] ends:
    either promise rejects, or both resolve with [response.ok] and the
    parsed body. *)
Inductive FetchResult :=
  | Rejected
  | Resolved (ok : bool) (data : JsVal).

Definition searchUrl : jsstring :=
  lit "http://127.0.0.1:5000/api/opportunities/search".
Definition reportUrl : jsstring :=
  lit "http://127.0.0.1:5000/api/opportunities/generate-report".
Definition connectFailure : JsVal :=
  JStr (lit "Failed to connect to server. Make sure the backend is running.").

(** [handleCompanySearch] up to its [await]: the state after the
    synchronous setters and the requests handed to [fetch]. *)
Definition handleCompanySearch (st : State) : State * list Request :=
  if negb (truthy (JStr (trim (companyQuery st)))) then
    (setCompanyError (JStr (lit "Please enter a company name")) st, [])
  else
    (setCompanyError (JStr []) (setCompanyLoading true st),
     [mkRequest searchUrl
        (obj [("query", JStr (companyQuery st));
              ("search_type", JStr (lit "company"))])]).

(** [handleCompanySearch] from its [await] on: the [try] body after the
    response, [catch] for anything thrown, then [finally]. *)
Definition handleCompanySearch_resume {rt : JsRuntime}
    (r : FetchResult) (st : State) : State :=
  let st' :=
    match r with
    | Rejected => setCompanyError connectFailure st
    | Resolved true data =>
        match transformCompanies data with
        | Some transformedResults => setCompanyResults transformedResults st
        | None => setCompanyError connectFailure st
        end
    | Resolved false data =>
        match getProp data "error" with
        | Some e =>
            setCompanyError (or_else e (JStr (lit "Company search failed"))) st
        | None => setCompanyError connectFailure st
        end
    end in
  setCompanyLoading false st'.

Definition handlePersonSearch (st : State) : State * list Request :=
  if negb (truthy (JStr (trim (personQuery st)))) then
    (setPersonError (JStr (lit "Please enter a person name")) st, [])
  else
    (setPersonError (JStr []) (setPersonLoading true st),
     [mkRequest searchUrl
        (obj [("query", JStr (personQuery st));
              ("search_type", JStr (lit "person"))])]).

Definition handlePersonSearch_resume {rt : JsRuntime}
    (r : FetchResult) (st : State) : State :=
  let st' :=
    match r with
    | Rejected => setPersonError connectFailure st
    | Resolved true data =>
        match transformIndividuals data with
        | Some transformedResults => setPersonResults transformedResults st
        | None => setPersonError connectFailure st
        end
    | Resolved false data =>
        match getProp data "error" with
        | Some e =>
            setPersonError (or_else e (JStr (lit "Person search failed"))) st
        | None => setPersonError connectFailure st
        end
    end in
  setPersonLoading false st'.

(** [handleKeyDown(event, searchType)] with [key = event.key]. *)
Definition handleKeyDown (key searchType : jsstring) (st : State)
    : State * list Request :=
  if bool_decide (key = lit "Enter") then
    if bool_decide (searchType = lit "company") then handleCompanySearch st
    else handlePersonSearch st
  else (st, []).

Definition generateReport (personName companyName : JsVal) (st : State)
    : State * list Request :=
  (setReportError (JStr []) (setReportLoading true st),
   [mkRequest reportUrl
      (obj [("person_name", personName); ("company_name", companyName)])]).

Definition generateReport_resume (r : FetchResult) (st : State) : State :=
  let st' :=
    match r with
    | Rejected => setReportError connectFailure st
    | Resolved true data => setShowReport true (setReportData data st)
    | Resolved false data =>
        match getProp data "error" with
        | Some e =>
            setReportError (or_else e (JStr (lit "Report generation failed"))) st
        | None => setReportError connectFailure st
        end
    end in
  setReportLoading false st'.

(** The [onClick] of the company row rendered at [index]. *)
Definition toggleCompanyRow (index : nat) (st : State) : State :=
  let isExpanded := bool_decide (expandedCompanyIndex st = Some index) in
  setExpandedCompanyIndex (if isExpanded then None else Some index) st.

(* ===================================================================== *)
(** ** SearchComponent: render functions *)
(* ===================================================================== *)

(** [xs.map(...)] and [xs.join(...)] exist on arrays only. *)
Definition arrayOf (xs : JsVal) : option (list JsVal) :=
  match xs with
  | JArr l => Some l
  | _ => None
  end.

(** [s.toLowerCase()] is a method of strings only. *)
Definition lowered {rt : JsRuntime} (v : JsVal) : option jsstring :=
  match v with
  | JStr s => Some (toLowerCase s)
  | _ => None
  end.

(** [executives.find(e => e.title && e.title.toLowerCase().includes('ceo'))]:
    the first match, if any. *)
Fixpoint findCEO {rt : JsRuntime} (executives : list JsVal) : option (option JsVal) :=
  match executives with
  | [] => Some None
  | e :: rest =>
      title ← getProp e "title";
      hit ← (if truthy title
             then low ← lowered title; Some (includes low (lit "ceo"))
             else Some false);
      if hit : bool then Some (Some e) else findCEO rest
  end.

Definition getCEOName {rt : JsRuntime} (result : JsVal) : option JsVal :=
  ceo_name ← getProp result "ceo_name";
  if truthy ceo_name then Some ceo_name
  else
    executives ← getProp result "executives";
    let fallback := Some (JStr (lit "Unknown")) in
    match executives with
    | JArr l =>
        found ← findCEO l;
        match found with
        | Some ceo => if truthy ceo then getProp ceo "name" else fallback
        | None => fallback
        end
    | _ => fallback
    end.

(** The banner of [renderStatusMessage]: its class and the two texts. *)
Record StatusMessage := mkStatusMessage {
  sm_className : jsstring;
  sm_type : jsstring;
  sm_status : jsstring
}.

(** The keyword test of [renderStatusMessage]. *)
Definition isErrorStatus (low : jsstring) : bool :=
  includes low (lit "error") || includes low (lit "failed")
  || includes low (lit "not found") || includes low (lit "forbidden").

Definition renderStatusMessage {rt : JsRuntime} (status : JsVal) (type : jsstring)
    : option (option StatusMessage) :=
  if negb (truthy status) then Some None
  else
    match status with
    | JStr s =>
        let isError := isErrorStatus (toLowerCase s) in
        Some (Some (mkStatusMessage
          (lit "status-message " ++ (if isError then lit "error" else lit "warning"))
          type s))
    | _ => None
    end.

(** [cond && <element>] as a child: the element when [cond] is truthy. *)
Definition whenTruthy {A} (cond : JsVal) (child : A) : option A :=
  if truthy cond then Some child else None.

(** The [company-info] block: industry, revenue, employees. *)
Definition companyInfoBlock (result : JsVal) : option (option (JsVal * JsVal * JsVal)) :=
  company_info ← getProp result "company_info";
  if truthy company_info then
    industry ← getProp company_info "industry";
    revenue ← getProp company_info "revenue";
    employees ← getProp company_info "employees";
    Some (Some (industry, revenue, employees))
  else Some None.

(** [result.company && result.company !== 'Various']. *)
Definition showsFinancialsButton (result : JsVal) : option bool :=
  company ← getProp result "company";
  Some (truthy company && negb (strictEqStr company (lit "Various"))).

(** The [company-profile-expanded] block of an expanded row. *)
Record CompanyProfile := mkCompanyProfile {
  profile_name : JsVal;
  profile_ticker : option JsVal;
  profile_title : JsVal;
  profile_statuses : list (option StatusMessage);
  profile_company : JsVal;
  profile_net_worth : JsVal;
  profile_linkedin_href : JsVal;
  profile_company_info : option (JsVal * JsVal * JsVal);
  profile_financials_button : bool
}.

(** One child of the list [renderCompanyRows] returns. *)
Record CompanyRow := mkCompanyRow {
  row_key : nat;
  row_className : jsstring;
  row_name : JsVal;
  row_ticker : option JsVal;
  row_ceo : JsVal;
  row_error_indicator : bool;
  row_profile : option CompanyProfile
}.

Definition companyProfile {rt : JsRuntime} (result : JsVal) : option CompanyProfile :=
  name ← getProp result "name";
  ticker ← getProp result "ticker";
  title ← getProp result "title";
  edgar_status ← getProp result "edgar_status";
  linkedin_status ← getProp result "linkedin_status";
  companyresearch_status ← getProp result "companyresearch_status";
  m1 ← renderStatusMessage edgar_status (lit "SEC EDGAR");
  m2 ← renderStatusMessage linkedin_status (lit "LinkedIn");
  m3 ← renderStatusMessage companyresearch_status (lit "Company Research");
  company ← getProp result "company";
  estimated_net_worth ← getProp result "estimated_net_worth";
  linkedin_url ← getProp result "linkedin_url";
  info ← companyInfoBlock result;
  button ← showsFinancialsButton result;
  Some (mkCompanyProfile name (whenTruthy ticker ticker) title [m1; m2; m3]
          company estimated_net_worth linkedin_url info button).

(** [hasErrors] of a row. *)
Definition hasErrors (result : JsVal) : option JsVal :=
  edgar_status ← getProp result "edgar_status";
  linkedin_status ← getProp result "linkedin_status";
  companyresearch_status ← getProp result "companyresearch_status";
  Some (or_else (or_else edgar_status linkedin_status) companyresearch_status).

(** The callback of [.map((result, index) => ...)] in [renderCompanyRows]. *)
Definition companyRow {rt : JsRuntime} (expanded : option nat)
    (result : JsVal) (index : nat) : option CompanyRow :=
  let isExpanded := bool_decide (expanded = Some index) in
  errs ← hasErrors result;
  name ← getProp result "name";
  ticker ← getProp result "ticker";
  ceo ← getCEOName result;
  profile ← (if isExpanded then Some <$> companyProfile result else Some None);
  Some (mkCompanyRow index
          (lit "company-row" ++ (if isExpanded then lit " expanded" else [])
             ++ (if truthy errs then lit " has-errors" else []))
          name (whenTruthy ticker ticker) ceo (truthy errs) profile).

(** [.filter(result => result.title === 'Company')]. *)
Fixpoint filterCompanyTitle (results : list JsVal) : option (list JsVal) :=
  match results with
  | [] => Some []
  | result :: rest =>
      title ← getProp result "title";
      kept ← filterCompanyTitle rest;
      Some (if strictEqStr title (lit "Company") then result :: kept else kept)
  end.

(** [.map(f)] with the index passed to the callback, from [index] on. *)
Fixpoint mapWithIndex {A} (f : JsVal -> nat -> option A)
    (results : list JsVal) (index : nat) : option (list A) :=
  match results with
  | [] => Some []
  | result :: rest =>
      x ← f result index;
      xs ← mapWithIndex f rest (S index);
      Some (x :: xs)
  end.

Definition renderCompanyRows {rt : JsRuntime} (st : State) : option (list CompanyRow) :=
  rows ← filterCompanyTitle (companyResults st);
  mapWithIndex (companyRow (expandedCompanyIndex st)) rows 0%nat.

(** One card of [renderIndividualResults]. *)
Record PersonCard := mkPersonCard {
  card_key : nat;
  card_name : JsVal;
  card_title : JsVal;
  card_company : JsVal;
  card_net_worth : JsVal;
  card_linkedin_href : JsVal;
  card_linkedin_note : option JsVal;
  card_company_info : option (JsVal * JsVal * JsVal);
  card_opportunities : list JsVal;
  card_starters : list JsVal;
  card_needs : list JsVal;
  card_news : list (JsVal * JsVal * JsVal);
  card_report_disabled : bool;
  card_financials_button : bool
}.

(** One [<li>] of the recent-news list: title, date, source. *)
Definition newsItem (news : JsVal) : option (JsVal * JsVal * JsVal) :=
  title ← getProp news "title";
  date ← getProp news "date";
  source ← getProp news "source";
  Some (title, date, source).

Definition personCard {rt : JsRuntime} (loading : bool)
    (result : JsVal) (index : nat) : option PersonCard :=
  name ← getProp result "name";
  title ← getProp result "title";
  company ← getProp result "company";
  estimated_net_worth ← getProp result "estimated_net_worth";
  linkedin_url ← getProp result "linkedin_url";
  linkedin_note ← getProp result "linkedin_note";
  info ← companyInfoBlock result;
  opportunities ← getProp result "financial_opportunities" ≫= arrayOf;
  starters ← getProp result "conversation_starters" ≫= arrayOf;
  needs ← getProp result "planning_needs" ≫= arrayOf;
  recent_news ← getProp result "recent_news";
  entries ← forEachEntries recent_news;
  news ← mapM newsItem entries;
  button ← showsFinancialsButton result;
  Some (mkPersonCard index name title company estimated_net_worth linkedin_url
          (whenTruthy linkedin_note linkedin_note) info
          opportunities starters needs news loading button).

Definition renderIndividualResults {rt : JsRuntime} (st : State)
    : option (list PersonCard) :=
  mapWithIndex (personCard (reportLoading st)) (personResults st) 0%nat.

(** A child of the [llm-message] block. *)
Inductive Block :=
  | BulletPoint (key : nat) (text : jsstring)
  | Paragraph (key : nat) (text : jsstring).

(** The callback of [.map((paragraph, index) => ...)] in [renderReport]:
    [None] is the [null] returned for a blank line. *)
Definition reportLine (paragraph : jsstring) (index : nat) : option Block :=
  if bool_decide (trim paragraph = []) then None
  else if startsWith paragraph bullet then Some (BulletPoint index paragraph)
  else Some (Paragraph index paragraph).

(** The [response-text] block: the message built from the lines, or the
    placeholder shown when [llm_response] is falsy. *)
Inductive ResponseText :=
  | LlmMessage (children : list (option Block))
  | LoadingMessage (text : jsstring).

Definition responseText (llm_response : JsVal) : option ResponseText :=
  if truthy llm_response then
    match llm_response with
    | JStr s => Some (LlmMessage (imap (fun i p => reportLine p i) (split_lines s)))
    | _ => None
    end
  else Some (LoadingMessage (lit "Generating AI analysis...")).

(** What React puts on screen for an array of children: the non-null ones. *)
Definition displayed {A} (children : list (option A)) : list A :=
  omap id children.

(** The report modal: the response text and the footer's inputs (the raw
    [report_generated] value, before [Date] formatting, and the sources
    that are joined with commas). *)
Record ReportModal := mkReportModal {
  modal_response : ResponseText;
  modal_generated : JsVal;
  modal_sources : list JsVal
}.

(** [new Date(v)] converts [v] to a primitive before it parses it, and
    [xs.join(', ')] converts every item of [xs] to a string: each throws
    when the conversion does. *)
Definition newDate (v : JsVal) : option JsVal :=
  if coercible v then Some v else None.

Definition join (xs : list JsVal) : option (list JsVal) :=
  if forallb coercible xs then Some xs else None.

Definition renderReport (st : State) : option (option ReportModal) :=
  if negb (truthy (reportData st)) then Some None
  else
    llm_response ← getProp (reportData st) "llm_response";
    text ← responseText llm_response;
    report_generated ← getProp (reportData st) "report_generated";
    generated ← newDate report_generated;
    data_sources ← getProp (reportData st) "data_sources";
    sources ← arrayOf data_sources;
    joined ← join sources;
    Some (Some (mkReportModal text generated joined)).

(** The close button of the report modal. *)
Definition closeReport (st : State) : State :=
  setReportData JNull (setShowReport false st).

(* ===================================================================== *)
(** ** FinancialStatements *)
(* ===================================================================== *)

Record TabButton := mkTabButton {
  tab_className : jsstring;
  tab_label : jsstring;
  tab_target : jsstring
}.

(** What [renderTable(data, title)] shows: the title and the rows. *)
Record Table := mkTable {
  table_title : jsstring;
  table_rows : list (jsstring * JsVal)
}.

Inductive FinancialView :=
  | NoFinancialData (heading : JsVal) (notice : list jsstring)
  | Statements (heading : JsVal) (filing_date : JsVal)
      (tab_buttons : list TabButton) (tab_content : list (option Table))
      (metrics : list (jsstring * JsVal)).

Definition na : JsVal := JStr (lit "N/A").

Definition tabButton (activeTab target label : jsstring) : TabButton :=
  mkTabButton
    (lit "tab-button " ++ (if bool_decide (activeTab = target) then lit "active" else []))
    label target.

Definition renderTable (data : list (jsstring * JsVal)) (title : jsstring) : Table :=
  mkTable title data.

(** [activeTab === target && renderTable(data, title)]. *)
Definition tabPanel (activeTab target title : jsstring)
    (data : list (jsstring * JsVal)) : option Table :=
  if bool_decide (activeTab = target) then Some (renderTable data title) else None.

(** The component function, for its props' [company] and the current
    [activeTab]; [None] when rendering throws. *)
Definition FinancialStatements (company : JsVal) (activeTab : jsstring)
    : option FinancialView :=
  let noData :=
    (* company?.name || 'Company' *)
    let name := default JUndefined (getProp company "name") in
    Some (NoFinancialData (or_else name (JStr (lit "Company")))
            [lit "No financial data available for this company.";
             lit "Financial statements are only available for publicly traded companies with SEC filings."]) in
  if negb (truthy company) then noData
  else
    edgar_data ← getProp company "edgar_data";
    if negb (truthy edgar_data) then noData
    else
      financialData ← getProp edgar_data "financial_statements";
      revenue ← getProp financialData "revenue";
      net_income ← getProp financialData "net_income";
      cash_and_equivalents ← getProp financialData "cash_and_equivalents";
      total_assets ← getProp financialData "total_assets";
      debt ← getProp financialData "debt";
      total_liabilities ← getProp financialData "total_liabilities";
      filing_date ← getProp financialData "filing_date";
      name ← getProp company "name";
      let incomeStatementData := [
        (lit "Revenue", or_else revenue na);
        (lit "Cost of Revenue", na);
        (lit "Gross Profit", na);
        (lit "Operating Expenses", na);
        (lit "Operating Income", na);
        (lit "Interest Expense", na);
        (lit "Income Tax Expense", na);
        (lit "Net Income", or_else net_income na)] in
      let balanceSheetData := [
        (lit "Cash and Cash Equivalents", or_else cash_and_equivalents na);
        (lit "Short-term Investments", na);
        (lit "Accounts Receivable", na);
        (lit "Inventory", na);
        (lit "Total Current Assets", na);
        (lit "Property, Plant & Equipment", na);
        (lit "Intangible Assets", na);
        (lit "Total Assets", or_else total_assets na);
        (lit "Accounts Payable", na);
        (lit "Short-term Debt", na);
        (lit "Total Current Liabilities", na);
        (lit "Long-term Debt", or_else debt na);
        (lit "Total Liabilities", or_else total_liabilities na);
        (lit "Total Shareholders' Equity", na)] in
      let cashFlowData := [
        (lit "Net Income", or_else net_income na);
        (lit "Depreciation & Amortization", na);
        (lit "Changes in Working Capital", na);
        (lit "Operating Cash Flow", na);
        (lit "Capital Expenditures", na);
        (lit "Investing Cash Flow", na);
        (lit "Debt Issuance/Repayment", na);
        (lit "Dividends Paid", na);
        (lit "Financing Cash Flow", na);
        (lit "Net Change in Cash", na)] in
      let equityData := [
        (lit "Common Stock", na);
        (lit "Additional Paid-in Capital", na);
        (lit "Retained Earnings", na);
        (lit "Treasury Stock", na);
        (lit "Accumulated Other Comprehensive Income", na);
        (lit "Total Shareholders' Equity", na)] in
      Some (Statements name (or_else filing_date na)
        [tabButton activeTab (lit "income") (lit "Income Statement");
         tabButton activeTab (lit "balance") (lit "Balance Sheet");
         tabButton activeTab (lit "cashflow") (lit "Cash Flow Statement");
         tabButton activeTab (lit "equity") (lit "Shareholders' Equity")]
        [tabPanel activeTab (lit "income") (lit "Income Statement")
           incomeStatementData;
         tabPanel activeTab (lit "balance") (lit "Balance Sheet")
           balanceSheetData;
         tabPanel activeTab (lit "cashflow") (lit "Cash Flow Statement")
           cashFlowData;
         tabPanel activeTab (lit "equity")
           (lit "Statement of Shareholders' Equity") equityData]
        [(lit "Revenue:", or_else revenue na);
         (lit "Net Income:", or_else net_income na);
         (lit "Total Assets:", or_else total_assets na);
         (lit "Total Debt:", or_else debt na);
         (lit "Cash & Equivalents:", or_else cash_and_equivalents na)]).

(** The initial value of the [activeTab] cell. *)
Definition initialTab : jsstring := lit "income".

(** The values [activeTab] can hold: the initial one, and the target of
    any tab button of a rendered statements view, once clicked. *)
Inductive tabReachable : jsstring -> Prop :=
  | tab_initial : tabReachable initialTab
  | tab_clicked company activeTab heading filing buttons content metrics b :
      tabReachable activeTab ->
      FinancialStatements company activeTab
        = Some (Statements heading filing buttons content metrics) ->
      b ∈ buttons ->
      tabReachable (tab_target b).

Definition isActive (b : TabButton) : bool :=
  bool_decide (tab_className b = lit "tab-button active").

(* ===================================================================== *)
(** ** React: from the element tree to the screen *)
(* ===================================================================== *)

(** A value in child position, [{v}].  React renders a string or a number
    as text, [null], [undefined] and the booleans as nothing, an array
    item by item, and refuses any other object ("Objects are not valid as
    a React child"), which fails the render. *)
Fixpoint validChild (v : JsVal) : bool :=
  match v with
  | JObj _ => false
  | JArr l => forallb validChild l
  | _ => true
  end.

(** A value given to the [href] attribute: the attribute is dropped for
    [null], [undefined] and the booleans and set to ['' + v] otherwise,
    which fails the render when the conversion throws. *)
Definition validAttribute (v : JsVal) : bool := coercible v.


(** [cond && <element>{v}</element>]: the child inside, if the element is
    there. *)
Definition childIfAny (c : option JsVal) : bool := from_option validChild true c.

Definition infoMounts (info : option (JsVal * JsVal * JsVal)) : bool :=
  match info with
  | Some (industry, revenue, employees) =>
      validChild industry && validChild revenue && validChild employees
  | None => true
  end.

(** React accepts every value the profile block of a row holds. *)
Definition profileMounts (p : CompanyProfile) : bool :=
  validChild (profile_name p) && childIfAny (profile_ticker p)
  && validChild (profile_title p)
  && validChild (profile_company p) && validChild (profile_net_worth p)
  && validAttribute (profile_linkedin_href p)
  && infoMounts (profile_company_info p).

(** React accepts every value a company row holds. *)
Definition rowMounts (row : CompanyRow) : bool :=
  validChild (row_name row) && childIfAny (row_ticker row)
  && validChild (row_ceo row)
  && from_option profileMounts true (row_profile row).

(** React accepts every value a person card holds. *)
Definition cardMounts (card : PersonCard) : bool :=
  validChild (card_name card) && validChild (card_title card)
  && validChild (card_company card) && validChild (card_net_worth card)
  && validAttribute (card_linkedin_href card)
  && childIfAny (card_linkedin_note card)
  && infoMounts (card_company_info card)
  && forallb validChild (card_opportunities card)
  && forallb validChild (card_starters card)
  && forallb validChild (card_needs card)
  && forallb (fun '(title, date, source) =>
                validChild title && validChild date && validChild source)
             (card_news card).

(* ===================================================================== *)
(** ** The component in its environment *)
(* ===================================================================== *)

(** Which handler awaits a request. *)
Inductive Continuation := CompanySearchK | PersonSearchK | ReportK.

(** The component's state and the requests in flight, oldest first.  The
    code keeps no handle on a request: a response is tied to its request
    only by the closure that awaits it. *)
Record World := mkWorld {
  ui : State;
  inflight : list (Continuation * Request)
}.

Definition initialWorld : World := mkWorld initialState [].

Inductive Event :=
  | ChangeCompanyQuery (value : jsstring)
  | ChangePersonQuery (value : jsstring)
  | KeyDownCompany (key : jsstring)
  | KeyDownPerson (key : jsstring)
  | ClickSearchCompanies
  | ClickSearchPeople
  | ClickCompanyRow (index : nat)
  | ClickCompanyFinancials (index : nat)
  | ClickPersonFinancials (index : nat)
  | ClickCloseFinancials
  | ClickGenerateReport (index : nat)
  | ClickCloseReport
  | Settle (i : nat) (r : FetchResult).

(** A handler run in a world: its requests join the ones in flight. *)
Definition issue (k : Continuation) (w : World)
    (out : State * list Request) : World :=
  mkWorld (fst out) (inflight w ++ map (pair k) (snd out)).

Definition resume {rt : JsRuntime} (k : Continuation) (r : FetchResult)
    (st : State) : State :=
  match k with
  | CompanySearchK => handleCompanySearch_resume r st
  | PersonSearchK => handlePersonSearch_resume r st
  | ReportK => generateReport_resume r st
  end.

(** The rows on screen: [companyResults.length > 0 && renderCompanyRows()]. *)
Definition visibleCompanyRows {rt : JsRuntime} (st : State) : option (list CompanyRow) :=
  match companyResults st with
  | [] => Some []
  | _ :: _ => renderCompanyRows st
  end.

(** The company row on screen at [index], when it is expanded: the
    record it was rendered from and its profile block. *)
Definition expandedProfileAt {rt : JsRuntime} (st : State) (index : nat)
    : option (JsVal * CompanyProfile) :=
  results ← filterCompanyTitle (companyResults st);
  result ← results !! index;
  rows ← visibleCompanyRows st;
  row ← rows !! index;
  profile ← row_profile row;
  Some (result, profile).

(** The person card on screen at [index] and the record behind it:
    [personResults.length > 0 && renderIndividualResults()]. *)
Definition personCardAt {rt : JsRuntime} (st : State) (index : nat)
    : option (JsVal * PersonCard) :=
  result ← personResults st !! index;
  cards ← renderIndividualResults st;
  card ← cards !! index;
  Some (result, card).

(** One event, handed to the handler the component wires to it.  A
    disabled button takes no click; a click on a row, card or modal that
    is not on screen, or the settling of a request that is not in flight,
    changes nothing.  The query fields and search buttons are taken to be
    on screen: a state whose render throws has no screen left, and no
    property below is about events after that. *)
Definition step {rt : JsRuntime} (w : World) (e : Event) : World :=
  let st := ui w in
  let same (st' : State) := mkWorld st' (inflight w) in
  match e with
  | ChangeCompanyQuery value => same (setCompanyQuery value st)
  | ChangePersonQuery value => same (setPersonQuery value st)
  | KeyDownCompany key =>
      issue CompanySearchK w (handleKeyDown key (lit "company") st)
  | KeyDownPerson key =>
      issue PersonSearchK w (handleKeyDown key (lit "person") st)
  | ClickSearchCompanies =>
      if companyLoading st then w
      else issue CompanySearchK w (handleCompanySearch st)
  | ClickSearchPeople =>
      if personLoading st then w
      else issue PersonSearchK w (handlePersonSearch st)
  | ClickCompanyRow index =>
      match visibleCompanyRows st with
      | Some rows =>
          if bool_decide (index < length rows)%nat
          then same (toggleCompanyRow index st) else w
      | None => w
      end
  | ClickCompanyFinancials index =>
      match expandedProfileAt st index with
      | Some (result, profile) =>
          if profile_financials_button profile
          then same (setShowFinancialStatements true (setSelectedCompany result st))
          else w
      | None => w
      end
  | ClickPersonFinancials index =>
      match personCardAt st index with
      | Some (result, card) =>
          if card_financials_button card
          then same (setShowFinancialStatements true (setSelectedCompany result st))
          else w
      | None => w
      end
  | ClickCloseFinancials =>
      if truthy (selectedCompany st) && showFinancialStatements st
      then same (setSelectedCompany JNull (setShowFinancialStatements false st))
      else w
  | ClickGenerateReport index =>
      match personCardAt st index with
      | Some (_, card) =>
          if card_report_disabled card then w
          else issue ReportK w (generateReport (card_name card) (card_company card) st)
      | None => w
      end
  | ClickCloseReport =>
      match (if showReport st then renderReport st else Some None) with
      | Some (Some _) => same (closeReport st)
      | _ => w
      end
  | Settle i r =>
      match inflight w !! i with
      | Some (k, _) => mkWorld (resume k r st) (delete i (inflight w))
      | None => w
      end
  end.

Definition run {rt : JsRuntime} (w : World) (es : list Event) : World :=
  foldl step w es.

(** A backend for experiments: a company search is answered with one
    company named after the query. *)
Definition echoServer (rq : Request) : FetchResult :=
  match getProp (body rq) "query" with
  | Some q => Resolved true (obj [("companies", JArr [obj [("name", q)]])])
  | None => Rejected
  end.

(* ===================================================================== *)
(** ** Vocabulary of the properties *)
(* ===================================================================== *)

(** A line that [trim] empties: every code unit is white space. *)
Definition blank (s : jsstring) : bool := forallb isWhiteSpace s.

(** The inverse of [split_lines]: the segments with a line feed between. *)
Fixpoint join_lines (segs : list jsstring) : jsstring :=
  match segs with
  | [] => []
  | [seg] => seg
  | seg :: rest => seg ++ 10 :: join_lines rest
  end.

Definition isBulletPoint (b : Block) : bool :=
  match b with BulletPoint _ _ => true | Paragraph _ _ => false end.

Definition blockText (b : Block) : jsstring :=
  match b with BulletPoint _ t | Paragraph _ t => t end.

Definition blockKey (b : Block) : nat :=
  match b with BulletPoint k _ | Paragraph k _ => k end.

(** [r.k1.k2...] on a record. *)
Definition readPath (r : JsVal) (path : list string) : option JsVal :=
  foldl (fun v k => v ≫= fun x => getProp x k) (Some r) path.

(** For each optional field of a company entry: where its value lands in
    the record, and what stands in when it is missing. *)
Definition companyFallbacks : list (string * list string * JsVal) :=
  [("linkedin_url", ["linkedin_url"], JStr (lit "#"));
   ("industry", ["company_info"; "industry"], JStr (lit "Unknown"));
   ("estimated_revenue", ["company_info"; "revenue"], JStr (lit "Unknown"));
   ("employee_count", ["company_info"; "employees"], JStr (lit "Unknown"));
   ("recent_news", ["recent_news"], JArr []);
   ("data_sources", ["data_sources"], JArr []);
   ("edgar_data", ["edgar_data"], JNull);
   ("edgar_status", ["edgar_status"], JNull);
   ("linkedin_status", ["linkedin_status"], JNull);
   ("companyresearch_status", ["companyresearch_status"], JNull);
   ("ceo", ["ceo_name"], JNull);
   ("ticker", ["ticker"], JNull)]%string.

(** The same for an individual entry. *)
Definition personFallbacks : list (string * list string * JsVal) :=
  [("title", ["title"], JStr (lit "Business Executive"));
   ("company", ["company"], JStr (lit "Various"));
   ("estimated_net_worth", ["estimated_net_worth"], JStr (lit "Confidential"));
   ("linkedin_url", ["linkedin_url"], JStr (lit "#"));
   ("data_sources", ["data_sources"], JArr [])]%string.

(** A record honours a fallback table for an entry: a field the entry
    lacks shows the stand-in, a truthy field shows its value. *)
Definition honoursFallbacks (table : list (string * list string * JsVal))
    (entry record : JsVal) : Prop :=
  Forall (fun '(field, path, standIn) =>
            forall v, getProp entry field = Some v ->
              (v = JUndefined -> readPath record path = Some standIn) /\
              (truthy v = true -> readPath record path = Some v))
         table.

(** The three per-source status fields of a company record. *)
Definition statusFields : list string :=
  ["edgar_status"; "linkedin_status"; "companyresearch_status"]%string.

(** A row shows its profile block. *)
Definition rowExpanded (row : CompanyRow) : bool :=
  bool_decide (is_Some (row_profile row)).

(** The scenario payloads. *)
Definition acmeResponse : JsVal :=
  obj [("companies",
        JArr [obj [("name", JStr (lit "Acme Corp"));
                   ("ticker", JStr (lit "ACM"))]])].

Definition pointOneReport : jsstring :=
  bullet ++ lit " Point one" ++ [10] ++ lit "Second paragraph".

(** Two submits with the Enter key, the second while the first is still
    in flight. *)
Definition twoRapidSubmits : list Event :=
  [ChangeCompanyQuery (lit "Alpha"); KeyDownCompany (lit "Enter");
   ChangeCompanyQuery (lit "Beta"); KeyDownCompany (lit "Enter")].

(** The [i]-th request in flight settles with the echo server's answer. *)
Definition settleEcho {rt : JsRuntime} (i : nat) (w : World) : World :=
  match inflight w !! i with
  | Some (_, rq) => step w (Settle i (echoServer rq))
  | None => w
  end.

(** The names of the company results on screen. *)
Definition resultNames (w : World) : list (option JsVal) :=
  map (fun r => getProp r "name") (companyResults (ui w)).

(** A search that finds two companies, the second row expanded, then a
    search that finds one. *)
Definition twoCompanies : JsVal :=
  obj [("companies", JArr [obj [("name", JStr (lit "Alpha"))];
                           obj [("name", JStr (lit "Beta"))]])].
Definition oneCompany : JsVal :=
  obj [("companies", JArr [obj [("name", JStr (lit "Gamma"))]])].
Definition shrinkingSearch : list Event :=
  [ChangeCompanyQuery (lit "a"); ClickSearchCompanies;
   Settle 0 (Resolved true twoCompanies); ClickCompanyRow 1;
   ChangeCompanyQuery (lit "g"); ClickSearchCompanies;
   Settle 0 (Resolved true oneCompany)].

(** Two individuals that differ in [estimated_net_worth] only. *)
Definition janeRich : JsVal :=
  obj [("name", JStr (lit "Jane Doe"));
       ("estimated_net_worth", JStr (lit "$5M"))].
Definition janePlain : JsVal :=
  obj [("name", JStr (lit "Jane Doe"))].

(** A company whose [edgar_data] carries no [financial_statements]. *)
Definition bareEdgarCompany : JsVal :=
  obj [("name", JStr (lit "Acme Corp")); ("edgar_data", obj [])].

(** A company with one filing figure and a status that is a mere notice. *)
Definition filedStatements : JsVal := obj [("revenue", JStr (lit "$1B"))].
Definition filedEdgar : JsVal := obj [("financial_statements", filedStatements)].
Definition filedCompany : JsVal :=
  obj [("name", JStr (lit "Acme Corp"));
       ("edgar_status", JStr (lit "Using cached filing"));
       ("edgar_data", filedEdgar)].

(** The records of the scenario entries. *)
Definition bareEdgarRecord : JsVal := default JNull (companyRecord bareEdgarCompany).
Definition filedRecord : JsVal := default JNull (companyRecord filedCompany).

(** The two requests of [twoRapidSubmits] and what the echo server
    answers to each. *)
Definition alphaRequest : Request :=
  mkRequest searchUrl (obj [("query", JStr (lit "Alpha"));
                            ("search_type", JStr (lit "company"))]).
Definition betaRequest : Request :=
  mkRequest searchUrl (obj [("query", JStr (lit "Beta"));
                            ("search_type", JStr (lit "company"))]).
Definition alphaData : JsVal :=
  obj [("companies", JArr [obj [("name", JStr (lit "Alpha"))]])].
Definition betaData : JsVal :=
  obj [("companies", JArr [obj [("name", JStr (lit "Beta"))]])].
Definition alphaRecords : list JsVal :=
  default [] (mapM companyRecord [obj [("name", JStr (lit "Alpha"))]]).

(** The targets of the four tab buttons. *)
Definition tabTargets : list jsstring :=
  [lit "income"; lit "balance"; lit "cashflow"; lit "equity"].

(** The expansion index names no row, or a row of the result list. *)
Definition expansionIndexValid (st : State) : Prop :=
  match expandedCompanyIndex st with
  | None => True
  | Some k => (k < length (companyResults st))%nat
  end.

(** The worlds the component can be in. *)
Inductive reachable {rt : JsRuntime} : World -> Prop :=
  | reachable_initial : reachable initialWorld
  | reachable_step w e : reachable w -> reachable (step w e).

Definition isCompanyRecord (r : JsVal) : Prop :=
  exists entry, companyRecord entry = Some r.
Definition isPersonRecord (r : JsVal) : Prop :=
  exists entry, personRecord entry = Some r.

(** Every result on screen, and the company handed to the statements
    modal, was built by a transformer. *)
Definition holdsRecords (st : State) : Prop :=
  Forall isCompanyRecord (companyResults st)
  /\ Forall isPersonRecord (personResults st)
  /\ (selectedCompany st = JNull
      \/ isCompanyRecord (selectedCompany st)
      \/ isPersonRecord (selectedCompany st)).

(** Discharges one line of a fallback table for a record whose fields
    are written out. *)
Ltac fallback_line :=
  let v := fresh "v" in
  let Hv := fresh "Hv" in
  let Ht := fresh "Ht" in
  intros v Hv; injection Hv as <-; split;
  [ intros Ht; try rewrite Ht; reflexivity
  | intros Ht;
    first [ discriminate Ht
          | unfold readPath; cbn; unfold or_else; rewrite Ht; reflexivity ] ].

(** Splits on the property reads of a component function, in source
    order, until its result is plain. *)
Ltac read_props :=
  repeat match goal with
         | |- context [getProp ?v ?k ≫= _] =>
             destruct (getProp v k); simpl; [|try discriminate]
         end.
(* ===================================================================== *)
(** ** More vocabulary: lanes, requests in flight, keywords *)
(* ===================================================================== *)

(** The cells of each lane, and the cells of rows and the statements
    modal. *)
Definition companyLane (st : State) : jsstring * list JsVal * bool * JsVal :=
  (companyQuery st, companyResults st, companyLoading st, companyError st).
Definition personLane (st : State) : jsstring * list JsVal * bool * JsVal :=
  (personQuery st, personResults st, personLoading st, personError st).
Definition reportLane (st : State) : JsVal * bool * JsVal * bool :=
  (reportData st, reportLoading st, reportError st, showReport st).
Definition rowCells (st : State) : JsVal * bool * option nat :=
  (selectedCompany st, showFinancialStatements st, expandedCompanyIndex st).

Definition isReportK (k : Continuation) : bool :=
  match k with ReportK => true | _ => false end.
Definition isCompanySearchK (k : Continuation) : bool :=
  match k with CompanySearchK => true | _ => false end.
Definition isPersonSearchK (k : Continuation) : bool :=
  match k with PersonSearchK => true | _ => false end.

(** How many requests in flight are awaited by a handler of one kind. *)
Definition awaiting (kind : Continuation -> bool) (w : World) : nat :=
  length (filter (fun p => kind (fst p) = true) (inflight w)).

(** A lane that shows its loading state awaits a response. *)
Definition loadingAwaits (w : World) : Prop :=
  (companyLoading (ui w) = true -> (0 < awaiting isCompanySearchK w)%nat)
  /\ (personLoading (ui w) = true -> (0 < awaiting isPersonSearchK w)%nat).

(** The keywords of [renderStatusMessage]. *)
Definition statusKeywords : list jsstring :=
  [lit "error"; lit "failed"; lit "not found"; lit "forbidden"].

(** [p] occurs in [s]. *)
Definition occursIn (p s : jsstring) : Prop :=
  exists before after, s = before ++ p ++ after.

(** A value on which a string method is called only when it is truthy
    answers with no throw: a falsy one is never asked, a string has the
    method. *)
Definition falsyOrString (status : JsVal) : bool :=
  negb (truthy status) || match status with JStr _ => true | _ => false end.

Definition isArray (v : JsVal) : bool :=
  match v with JArr _ => true | _ => false end.


(** The field [k] of a value, [undefined] where it has none. *)
Definition fieldOf (v : JsVal) (k : string) : JsVal :=
  default JUndefined (getProp v k).

(** The records the handler can build from a settled search, if any: the
    response is ok and the transformer does not throw. *)
Definition builtCompanies {rt : JsRuntime} (r : FetchResult) : option (list JsVal) :=
  match r with
  | Resolved true data => transformCompanies data
  | _ => None
  end.
Definition builtIndividuals {rt : JsRuntime} (r : FetchResult) : option (list JsVal) :=
  match r with
  | Resolved true data => transformIndividuals data
  | _ => None
  end.

(** The message a lane shows for a settled search it built no records
    from. *)
Definition failureMessage (fallback : string) (r : FetchResult) : JsVal :=
  match r with
  | Resolved false data =>
      match getProp data "error" with
      | Some e => or_else e (JStr (lit fallback))
      | None => connectFailure
      end
  | _ => connectFailure
  end.



(* ===================================================================== *)
(** ** App: the dashboard shell *)
(* ===================================================================== *)

Module App.

(** The [useState] cells of [App]. *)
Record State := mkState {
  selected : jsstring;
  summary : JsVal;
  loading : bool;
  error : JsVal
}.

Definition initialState : State := mkState (lit "Dashboard") JNull true JNull.

Definition setSelected (x : jsstring) (st : State) : State :=
  mkState x (summary st) (loading st) (error st).
Definition setSummary (x : JsVal) (st : State) : State :=
  mkState (selected st) x (loading st) (error st).
Definition setLoading (x : bool) (st : State) : State :=
  mkState (selected st) (summary st) x (error st).
Definition setError (x : JsVal) (st : State) : State :=
  mkState (selected st) (summary st) (loading st) x.

(** [menuItems]: key and label of each drawer entry. *)
Definition menuItems : list (jsstring * jsstring) :=
  [(lit "Dashboard", lit "Dashboard");
   (lit "Analytics", lit "Analytics");
   (lit "Reports", lit "Reports")].

(** How the promise chain of the mount effect ends: [fetch] or
    [res.json()] rejects with an error whose [message] is given; the
    response is not ok; or the body parses. *)
Inductive SummaryOutcome :=
  | Failed (message : JsVal)
  | NotOk
  | Parsed (data : JsVal).

(** The [.then] and [.catch] callbacks of the effect. *)
Definition settleSummary (o : SummaryOutcome) (st : State) : State :=
  match o with
  | Parsed data => setLoading false (setSummary data st)
  | NotOk =>
      setLoading false (setError (JStr (lit "Network response was not ok")) st)
  | Failed message => setLoading false (setError message st)
  end.

(** What the summary card and the activity table each show. *)
Inductive Panel :=
  | Spinner
  | ErrorText (message : JsVal)
  | Metrics (active_users opportunities compliance_alerts : JsVal)
  | Blank.

(** [loading ? spinner : error ? text : summary ? figures : null]. *)
Definition panel (st : State) : Panel :=
  if loading st then Spinner
  else if truthy (error st) then ErrorText (error st)
  else if truthy (summary st) then
    Metrics (default JUndefined (getProp (summary st) "active_users"))
            (default JUndefined (getProp (summary st) "opportunities"))
            (default JUndefined (getProp (summary st) "compliance_alerts"))
  else Blank.

Record MenuEntry := mkMenuEntry {
  entry_key : jsstring;
  entry_label : jsstring;
  entry_selected : bool
}.

Record View := mkView {
  menu : list MenuEntry;
  summaryCard : Panel;
  activityTable : Panel
}.

Definition render (st : State) : View :=
  mkView
    (map (fun item => mkMenuEntry (fst item) (snd item)
                        (bool_decide (selected st = fst item)))
         menuItems)
    (panel st) (panel st).

(** The component and whether its one summary request is still pending. *)
Record World := mkWorld {
  app : State;
  pending : bool
}.

Definition initialWorld : World := mkWorld initialState true.

Inductive Event :=
  | ClickMenu (index : nat)
  | SummarySettles (o : SummaryOutcome).

(** A click on the drawer entry at [index], or the end of the request
    (once: the effect runs on mount only). *)
Definition step (w : World) (e : Event) : World :=
  match e with
  | ClickMenu index =>
      match menu (render (app w)) !! index with
      | Some entry => mkWorld (setSelected (entry_key entry) (app w)) (pending w)
      | None => w
      end
  | SummarySettles o =>
      if pending w then mkWorld (settleSummary o (app w)) false else w
  end.

Definition run (w : World) (es : list Event) : World := foldl step w es.

End App.

(** The worlds the dashboard shell can be in. *)
Inductive appReachable : App.World -> Prop :=
  | appReachable_initial : appReachable App.initialWorld
  | appReachable_step w e : appReachable w -> appReachable (App.step w e).

(** What the end of the summary request puts on screen. *)
Definition summaryPanel (o : App.SummaryOutcome) : App.Panel :=
  match o with
  | App.Parsed data =>
      if truthy data then
        App.Metrics (default JUndefined (getProp data "active_users"))
                    (default JUndefined (getProp data "opportunities"))
                    (default JUndefined (getProp data "compliance_alerts"))
      else App.Blank
  | App.NotOk => App.ErrorText (JStr (lit "Network response was not ok"))
  | App.Failed message =>
      if truthy message then App.ErrorText message else App.Blank
  end.

(** The shell has seen the summary request end with [o]. *)
Definition settledWith (o : App.SummaryOutcome) (w : App.World) : Prop :=
  App.pending w = false
  /\ App.summaryCard (App.render (App.app w)) = summaryPanel o
  /\ App.activityTable (App.render (App.app w)) = summaryPanel o.

(** The fields of a company entry the transformer reads. *)
Definition companyReadFields : list string :=
  ["name"; "linkedin_url"; "industry"; "estimated_revenue"; "employee_count";
   "recent_news"; "data_sources"; "edgar_data"; "edgar_status";
   "linkedin_status"; "companyresearch_status"; "ceo"; "ticker"]%string.

(** More scenarios: a person search, a report requested from the first
    card, the report shown and closed. *)
Definition janeResponse : JsVal := obj [("individuals", JArr [janeRich])].
Definition reportOk : JsVal :=
  obj [("llm_response", JStr pointOneReport);
       ("report_generated", JStr (lit "2024-01-01T00:00:00Z"));
       ("data_sources", JArr [JStr (lit "SEC")])].
Definition personSearched : list Event :=
  [ChangePersonQuery (lit "Jane"); ClickSearchPeople;
   Settle 0 (Resolved true janeResponse)].
Definition reportRequested : list Event :=
  personSearched ++ [ClickGenerateReport 0].
Definition reportClosed : list Event :=
  reportRequested ++ [Settle 0 (Resolved true reportOk); ClickCloseReport].

(** A company entry that lists its CEO among the executives only, and one
    whose filing status is a number. *)
Definition ceoAmongExecutives : JsVal :=
  obj [("name", JStr (lit "Acme Corp"));
       ("executives",
        JArr [obj [("name", JStr (lit "Ann Lee")); ("title", JStr (lit "CEO"))]])].
Definition numericStatusCompany : JsVal :=
  obj [("name", JStr (lit "Acme Corp")); ("edgar_status", JNum 404)].
Definition numericStatusRecord : JsVal :=
  default JNull (companyRecord numericStatusCompany).
Definition janeRecord : JsVal := default JNull (personRecord janeRich).

(** A response with a null among its companies, and one with a null
    among its individuals. *)
Definition nullEntryCompanies : JsVal :=
  obj [("companies", JArr [obj [("name", JStr (lit "Acme Corp"))]; JNull])].
Definition nullEntryIndividuals : JsVal :=
  obj [("individuals", JArr [obj [("name", JStr (lit "Jane Doe"))]; JNull])].

(** A company entry whose name is an object, and its record. *)
Definition objectNameCompany : JsVal :=
  obj [("name", obj [("legal", JStr (lit "Acme Corp"))])].
Definition objectNameRecord : JsVal :=
  default JNull (companyRecord objectNameCompany).

(** A report whose one source is an object with a [toString] field. *)
Definition reportWithOddSource : JsVal :=
  obj [("llm_response", JStr pointOneReport);
       ("report_generated", JStr (lit "2024-01-01T00:00:00Z"));
       ("data_sources", JArr [obj [("toString", JNum 1)]])].



(* ===================================================================== *)
(** ** String built-ins: basic facts *)
(* ===================================================================== *)

Lemma trimStart_head c s t : trimStart s = c :: t -> isWhiteSpace c = false.
Proof.
  induction s as [|a s IH]; simpl; [discriminate|].
  destruct (isWhiteSpace a) eqn:Ha; [exact IH|].
  intros [= <- _]. exact Ha.
Qed.

Lemma trimStart_nil_iff s : trimStart s = [] <-> blank s = true.
Proof.
  unfold blank. induction s as [|a s IH]; simpl; [tauto|].
  destruct (isWhiteSpace a); simpl; [exact IH|].
  split; discriminate.
Qed.

Lemma blank_rev s : blank (rev s) = blank s.
Proof.
  unfold blank. apply eq_true_iff_eq.
  rewrite !forallb_forall. split; intros Hs x Hx; apply Hs.
  - by rewrite <- in_rev.
  - by rewrite <- in_rev in Hx.
Qed.

(** [trim] empties exactly the strings made of white space. *)
Lemma trim_nil_iff s : trim s = [] <-> blank s = true.
Proof.
  unfold trim, trimEnd. split.
  - intros Hs. apply (f_equal (@rev N)) in Hs. rewrite rev_involutive in Hs.
    simpl in Hs. apply trimStart_nil_iff in Hs. rewrite blank_rev in Hs.
    destruct (trimStart s) as [|c t] eqn:Hts; [by apply trimStart_nil_iff|].
    apply trimStart_head in Hts. simpl in Hs. unfold blank in Hs. simpl in Hs.
    rewrite Hts in Hs. discriminate.
  - intros Hs. apply trimStart_nil_iff in Hs. by rewrite Hs.
Qed.

Lemma truthy_trim s : truthy (JStr (trim s)) = negb (blank s).
Proof.
  destruct (blank s) eqn:Hb.
  - apply trim_nil_iff in Hb. by rewrite Hb.
  - destruct (trim s) eqn:Ht; [|done].
    apply trim_nil_iff in Ht. congruence.
Qed.

Lemma split_lines_nonempty s : split_lines s <> [].
Proof.
  destruct s as [|c s]; simpl; [done|].
  destruct (c =? 10); [done|]. by destruct (split_lines s).
Qed.

(** [split_lines] cuts at the line feeds and nowhere else: joining the
    segments with line feeds gives the text back, and no segment holds
    a line feed. *)
Lemma join_split_lines s : join_lines (split_lines s) = s.
Proof.
  induction s as [|c s IH]; [done|]. simpl.
  pose proof (split_lines_nonempty s) as Hne.
  destruct (c =? 10) eqn:Hc.
  - apply N.eqb_eq in Hc. subst c.
    destruct (split_lines s) as [|seg segs] eqn:Hs; [done|].
    simpl. simpl in IH. by rewrite IH.
  - destruct (split_lines s) as [|seg segs]; [done|].
    simpl in *. destruct segs; simpl in *; by rewrite IH.
Qed.

Lemma split_lines_no_feed s : Forall (fun seg => 10 ∉ seg) (split_lines s).
Proof.
  induction s as [|c s IH]; simpl.
  - repeat constructor. by intros ?%elem_of_nil.
  - destruct (c =? 10) eqn:Hc.
    + constructor; [by intros ?%elem_of_nil | exact IH].
    + destruct (split_lines s) as [|seg segs].
      * repeat constructor. intros Hin%list_elem_of_singleton.
        subst c. discriminate.
      * inversion_clear IH as [|? ? Hseg Hsegs]. constructor; [|done].
        intros [Heq|?]%elem_of_cons; [subst c; discriminate|done].
Qed.

(* ===================================================================== *)
(** ** Rendering with indices *)
(* ===================================================================== *)

Section Rendering.
Context {rt : JsRuntime}.

Lemma mapWithIndex_lookup {A} (f : JsVal -> nat -> option A) results index xs :
  mapWithIndex f results index = Some xs ->
  length xs = length results /\
  forall n x, xs !! n = Some x ->
    exists result, results !! n = Some result /\ f result (index + n)%nat = Some x.
Proof.
  revert index xs. induction results as [|r results IH]; intros index xs; simpl.
  - intros [= <-]. split; [done|]. intros n x Hx. by rewrite lookup_nil in Hx.
  - destruct (f r index) as [y|] eqn:Hy; simpl; [|discriminate].
    destruct (mapWithIndex f results (S index)) as [ys|] eqn:Hys; simpl; [|discriminate].
    intros [= <-]. destruct (IH _ _ Hys) as [Hlen Hnth]. split; [simpl; lia|].
    intros [|n] x Hx; simpl in Hx.
    + injection Hx as <-. exists r. split; [done|]. by rewrite Nat.add_0_r.
    + destruct (Hnth _ _ Hx) as (result & Hr & Hf). exists result. split; [done|].
      by replace (index + S n)%nat with (S index + n)%nat by lia.
Qed.

Lemma filterCompanyTitle_length results rows :
  filterCompanyTitle results = Some rows -> (length rows <= length results)%nat.
Proof.
  revert rows. induction results as [|r results IH]; intros rows; simpl.
  - by intros [= <-].
  - destruct (getProp r "title") as [t|]; simpl; [|discriminate].
    destruct (filterCompanyTitle results) as [kept|]; simpl; [|discriminate].
    specialize (IH _ eq_refl).
    intros [= <-]. destruct (strictEqStr t (lit "Company")); simpl; lia.
Qed.

Lemma companyRow_shape expanded result index row :
  companyRow expanded result index = Some row ->
  row_key row = index /\
  rowExpanded row = bool_decide (expanded = Some index) /\
  exists errs, hasErrors result = Some errs /\
    row_error_indicator row = truthy errs /\
    row_className row
      = lit "company-row"
        ++ (if bool_decide (expanded = Some index) then lit " expanded" else [])
        ++ (if truthy errs then lit " has-errors" else []).
Proof.
  unfold companyRow. intros Hrow.
  destruct (hasErrors result) as [errs|]; simpl in Hrow; [|discriminate].
  destruct (getProp result "name") as [name|]; simpl in Hrow; [|discriminate].
  destruct (getProp result "ticker") as [ticker|]; simpl in Hrow; [|discriminate].
  destruct (getCEOName result) as [ceo|]; simpl in Hrow; [|discriminate].
  unfold rowExpanded.
  destruct (bool_decide (expanded = Some index)); simpl in Hrow.
  - destruct (companyProfile result) as [profile|]; simpl in Hrow; [|discriminate].
    injection Hrow as <-. simpl. split; [done|]. split; [done|by exists errs].
  - injection Hrow as <-. simpl. split; [done|]. split; [done|by exists errs].
Qed.

(** Rows rendered from position [index] on: the expanded ones are the
    row at the expansion index, when it falls among them. *)
Lemma expanded_rows_count expanded results index rows :
  mapWithIndex (companyRow expanded) results index = Some rows ->
  length (filter (fun row => rowExpanded row = true) rows)
  = match expanded with
    | Some k => if bool_decide (index <= k < index + length results)%nat
                then 1%nat else 0%nat
    | None => 0%nat
    end.
Proof.
  revert index rows. induction results as [|r results IH]; intros index rows; simpl.
  - intros [= <-]. destruct expanded as [k|]; [|done].
    rewrite bool_decide_eq_false_2; [done|lia].
  - destruct (companyRow expanded r index) as [row|] eqn:Hrow; simpl; [|discriminate].
    destruct (mapWithIndex _ results (S index)) as [rest|] eqn:Hrest; simpl; [|discriminate].
    intros [= <-]. apply companyRow_shape in Hrow as (_ & Hexp & _).
    specialize (IH _ _ Hrest).
    destruct expanded as [k|].
    + destruct (decide (k = index)) as [->|Hk].
      * rewrite bool_decide_eq_true_2 in Hexp by done.
        rewrite filter_cons_True by done. simpl. rewrite IH.
        rewrite bool_decide_eq_false_2 by lia.
        rewrite bool_decide_eq_true_2 by lia. done.
      * rewrite bool_decide_eq_false_2 in Hexp by congruence.
        rewrite filter_cons_False by congruence. rewrite IH.
        apply (f_equal (fun b : bool => if b then 1%nat else 0%nat)).
        apply bool_decide_ext. lia.
    + rewrite bool_decide_eq_false_2 in Hexp by done.
      rewrite filter_cons_False by congruence. done.
Qed.

(** The rows [renderCompanyRows] returns: no more than there are results,
    keyed by position, expanded exactly at the expansion index. *)
Lemma renderCompanyRows_rows st rows :
  renderCompanyRows st = Some rows ->
  (length rows <= length (companyResults st))%nat /\
  (forall n row, rows !! n = Some row ->
     row_key row = n /\
     rowExpanded row = bool_decide (expandedCompanyIndex st = Some n)) /\
  length (filter (fun row => rowExpanded row = true) rows)
  = match expandedCompanyIndex st with
    | Some k => if bool_decide (k < length rows)%nat then 1%nat else 0%nat
    | None => 0%nat
    end.
Proof.
  unfold renderCompanyRows. intros Hrows.
  destruct (filterCompanyTitle (companyResults st)) as [kept|] eqn:Hkept;
    simpl in Hrows; [|discriminate].
  pose proof (filterCompanyTitle_length _ _ Hkept) as Hle.
  destruct (mapWithIndex_lookup _ _ _ _ Hrows) as [Hlen Hnth].
  split; [lia|]. split.
  - intros n row Hn. destruct (Hnth _ _ Hn) as (result & _ & Hrow).
    apply companyRow_shape in Hrow as (Hkey & Hexp & _). done.
  - rewrite (expanded_rows_count _ _ _ _ Hrows).
    destruct (expandedCompanyIndex st) as [k|]; [|done].
    rewrite Hlen. apply (f_equal (fun b : bool => if b then 1%nat else 0%nat)).
    apply bool_decide_ext. lia.
Qed.

End Rendering.

(* ===================================================================== *)
(** ** The search lanes *)
(* ===================================================================== *)

Section Lanes.
Context {rt : JsRuntime}.

Lemma handleCompanySearch_blank st :
  blank (companyQuery st) = true ->
  handleCompanySearch st
  = (setCompanyError (JStr (lit "Please enter a company name")) st, []).
Proof. intros Hb. unfold handleCompanySearch. by rewrite truthy_trim, Hb. Qed.

Lemma handleCompanySearch_query st :
  blank (companyQuery st) = false ->
  handleCompanySearch st
  = (setCompanyError (JStr []) (setCompanyLoading true st),
     [mkRequest searchUrl
        (obj [("query", JStr (companyQuery st));
              ("search_type", JStr (lit "company"))])]).
Proof. intros Hb. unfold handleCompanySearch. by rewrite truthy_trim, Hb. Qed.

Lemma handlePersonSearch_blank st :
  blank (personQuery st) = true ->
  handlePersonSearch st
  = (setPersonError (JStr (lit "Please enter a person name")) st, []).
Proof. intros Hb. unfold handlePersonSearch. by rewrite truthy_trim, Hb. Qed.

Lemma handlePersonSearch_query st :
  blank (personQuery st) = false ->
  handlePersonSearch st
  = (setPersonError (JStr []) (setPersonLoading true st),
     [mkRequest searchUrl
        (obj [("query", JStr (personQuery st));
              ("search_type", JStr (lit "person"))])]).
Proof. intros Hb. unfold handlePersonSearch. by rewrite truthy_trim, Hb. Qed.

(** C6. A submit whose query is empty or all white space issues no request
    and sets the lane's validation error in the same synchronous run of
    the handler; a submit with any other query issues exactly one request,
    carrying the query as typed.  This holds for the handler of either
    lane and for a submit through the Enter key, which adds nothing, or
    exactly that request, to the requests in flight. *)
Theorem blank_query_issues_no_request (w : World) :
  let st := ui w in
  let companyRequest :=
    mkRequest searchUrl (obj [("query", JStr (companyQuery st));
                              ("search_type", JStr (lit "company"))]) in
  let personRequest :=
    mkRequest searchUrl (obj [("query", JStr (personQuery st));
                              ("search_type", JStr (lit "person"))]) in
  (if blank (companyQuery st)
   then snd (handleCompanySearch st) = []
        /\ companyError (fst (handleCompanySearch st))
           = JStr (lit "Please enter a company name")
        /\ inflight (step w (KeyDownCompany (lit "Enter"))) = inflight w
   else snd (handleCompanySearch st) = [companyRequest]
        /\ inflight (step w (KeyDownCompany (lit "Enter")))
           = inflight w ++ [(CompanySearchK, companyRequest)])
  /\
  (if blank (personQuery st)
   then snd (handlePersonSearch st) = []
        /\ personError (fst (handlePersonSearch st))
           = JStr (lit "Please enter a person name")
        /\ inflight (step w (KeyDownPerson (lit "Enter"))) = inflight w
   else snd (handlePersonSearch st) = [personRequest]
        /\ inflight (step w (KeyDownPerson (lit "Enter")))
           = inflight w ++ [(PersonSearchK, personRequest)]).
Proof.
  intros st companyRequest personRequest. subst st. split.
  - destruct (blank (companyQuery (ui w))) eqn:Hb.
    + unfold step, handleKeyDown, issue. simpl.
      rewrite (handleCompanySearch_blank _ Hb). simpl.
      destruct (ui w); simpl. by rewrite app_nil_r.
    + unfold step, handleKeyDown, issue. simpl.
      by rewrite (handleCompanySearch_query _ Hb).
  - destruct (blank (personQuery (ui w))) eqn:Hb.
    + unfold step, handleKeyDown, issue. simpl.
      rewrite (handlePersonSearch_blank _ Hb). simpl.
      destruct (ui w); simpl. by rewrite app_nil_r.
    + unfold step, handleKeyDown, issue. simpl.
      by rewrite (handlePersonSearch_query _ Hb).
Qed.

End Lanes.

(* ===================================================================== *)
(** ** Expansion of company rows *)
(* ===================================================================== *)

Section Expansion.
Context {rt : JsRuntime}.

Lemma expandedCompanyIndex_set x st :
  expandedCompanyIndex (setExpandedCompanyIndex x st) = x.
Proof. by destruct st. Qed.

Lemma expandedCompanyIndex_toggle index st :
  expandedCompanyIndex (toggleCompanyRow index st)
  = if bool_decide (expandedCompanyIndex st = Some index) then None else Some index.
Proof. unfold toggleCompanyRow. by rewrite expandedCompanyIndex_set. Qed.

(** C9. The toggle keeps at most one company row expanded: a click on the
    expanded row leaves no row expanded, expanding a row and clicking it
    again returns to no row expanded, and a click on row [a] followed by a
    click on a different row [b] leaves the index at [b]; in every state
    the rendered rows count at most one expanded row, and a row is
    expanded exactly when its position is the expansion index. *)
Theorem expansion_toggle_single_row (st : State) (a b : nat) :
  a <> b ->
  (expandedCompanyIndex st = Some a ->
   expandedCompanyIndex (toggleCompanyRow a st) = None)
  /\ (expandedCompanyIndex st = None ->
      expandedCompanyIndex (toggleCompanyRow a st) = Some a
      /\ expandedCompanyIndex (toggleCompanyRow a (toggleCompanyRow a st)) = None)
  /\ expandedCompanyIndex (toggleCompanyRow b (toggleCompanyRow a st)) = Some b
  /\ (forall rows, renderCompanyRows (toggleCompanyRow b (toggleCompanyRow a st)) = Some rows ->
        forall n row, rows !! n = Some row -> (rowExpanded row = true <-> n = b))
  /\ (forall rows, renderCompanyRows st = Some rows ->
        (length (filter (fun row => rowExpanded row = true) rows) <= 1)%nat).
Proof.
  intros Hab. rewrite !expandedCompanyIndex_toggle.
  split; [|split; [|split; [|split]]].
  - intros ->. by rewrite bool_decide_eq_true_2.
  - intros ->. rewrite bool_decide_eq_false_2 by done.
    by rewrite bool_decide_eq_true_2.
  - destruct (bool_decide (expandedCompanyIndex st = Some a));
      by rewrite bool_decide_eq_false_2 by congruence.
  - intros rows Hrows n row Hn.
    destruct (renderCompanyRows_rows _ _ Hrows) as (_ & Hnth & _).
    destruct (Hnth _ _ Hn) as [_ ->].
    rewrite !expandedCompanyIndex_toggle.
    assert ((if bool_decide
                  ((if bool_decide (expandedCompanyIndex st = Some a)
                    then None else Some a) = Some b)
             then None else Some b) = Some b) as ->.
    { destruct (bool_decide (expandedCompanyIndex st = Some a));
        by rewrite bool_decide_eq_false_2 by congruence. }
    rewrite bool_decide_eq_true. split; [by intros [= ->]|by intros ->].
  - intros rows Hrows.
    destruct (renderCompanyRows_rows _ _ Hrows) as (_ & _ & ->).
    destruct (expandedCompanyIndex st); [|lia]. case_bool_decide; lia.
Qed.

End Expansion.

(* ===================================================================== *)
(** ** Responses and the state they leave *)
(* ===================================================================== *)

Section Responses.
Context {rt : JsRuntime}.

Lemma companyResults_resume_ok data recs st :
  transformCompanies data = Some recs ->
  companyResults (handleCompanySearch_resume (Resolved true data) st) = recs.
Proof.
  intros Hrecs. unfold handleCompanySearch_resume. rewrite Hrecs.
  by destruct st.
Qed.

Lemma expandedCompanyIndex_resume r st :
  expandedCompanyIndex (handleCompanySearch_resume r st)
  = expandedCompanyIndex st.
Proof.
  unfold handleCompanySearch_resume.
  destruct r as [|[] data]; [by destruct st| |].
  - destruct (transformCompanies data); by destruct st.
  - destruct (getProp data "error"); by destruct st.
Qed.

Lemma expandedCompanyIndex_submit st :
  expandedCompanyIndex (fst (handleCompanySearch st)) = expandedCompanyIndex st.
Proof.
  unfold handleCompanySearch.
  destruct (negb (truthy (JStr (trim (companyQuery st))))); by destruct st.
Qed.

Lemma companyResults_resume_throw data st :
  transformCompanies data = None ->
  companyResults (handleCompanySearch_resume (Resolved true data) st)
  = companyResults st
  /\ companyError (handleCompanySearch_resume (Resolved true data) st)
     = connectFailure.
Proof.
  intros Hnone. unfold handleCompanySearch_resume. rewrite Hnone.
  by destruct st.
Qed.

(** C1, as the code has it.  The handler keeps no sequence number and
    discards nothing: when two company searches are in flight and the
    response to the later one settles first, the response to the earlier
    one, settling last, decides what is shown.  If its records can be
    built they replace the result list; if building them throws, the
    list stays as the later request left it and the connection-failure
    message is set. *)
Theorem last_arriving_response_wins (w : World) (i j : nat)
    (earlier later : Request) (d_earlier d_later : JsVal) :
  (i < j)%nat ->
  inflight w !! i = Some (CompanySearchK, earlier) ->
  inflight w !! j = Some (CompanySearchK, later) ->
  (forall recs,
     transformCompanies d_earlier = Some recs ->
     companyResults
       (ui (run w [Settle j (Resolved true d_later);
                   Settle i (Resolved true d_earlier)]))
     = recs)
  /\ (transformCompanies d_earlier = None ->
      companyResults
        (ui (run w [Settle j (Resolved true d_later);
                    Settle i (Resolved true d_earlier)]))
      = companyResults (ui (run w [Settle j (Resolved true d_later)]))
      /\ companyError
           (ui (run w [Settle j (Resolved true d_later);
                       Settle i (Resolved true d_earlier)]))
         = connectFailure).
Proof.
  intros Hij Hi Hj. unfold run. simpl. rewrite Hj. simpl.
  rewrite list_lookup_delete_lt by done. rewrite Hi. simpl. split.
  - intros recs Hrecs. by apply companyResults_resume_ok.
  - intros Hnone. by apply companyResults_resume_throw.
Qed.

(** C2, as the code has it.  A company search never writes the expansion
    index: neither the submit nor the response that replaces the result
    list changes it, so it can point past the end of the new list.  The
    renderer never looks a row up by that index; it compares the index
    with the position of each row it renders, so only a row that exists
    is shown expanded, and an index past the end expands none. *)
Theorem expansion_index_outlives_results (st : State) (r : FetchResult)
    (rows : list CompanyRow) :
  let st' := handleCompanySearch_resume r st in
  renderCompanyRows st' = Some rows ->
  expandedCompanyIndex (fst (handleCompanySearch st)) = expandedCompanyIndex st
  /\ expandedCompanyIndex st' = expandedCompanyIndex st
  /\ (forall n row, rows !! n = Some row ->
        (n < length (companyResults st'))%nat
        /\ (rowExpanded row = true <-> expandedCompanyIndex st = Some n))
  /\ (forall k, expandedCompanyIndex st = Some k ->
        (length (companyResults st') <= k)%nat ->
        Forall (fun row => rowExpanded row = false) rows).
Proof.
  intros st' Hrows.
  pose proof (expandedCompanyIndex_resume r st) as Hkeep. fold st' in Hkeep.
  destruct (renderCompanyRows_rows _ _ Hrows) as (Hlen & Hnth & _).
  split; [apply expandedCompanyIndex_submit|]. split; [done|]. split.
  - intros n row Hn. split.
    + apply lookup_lt_Some in Hn. lia.
    + destruct (Hnth _ _ Hn) as [_ ->]. rewrite Hkeep.
      by rewrite bool_decide_eq_true.
  - intros k Hk Hpast. apply Forall_forall. intros row Hrow.
    apply list_elem_of_lookup in Hrow as [n Hn].
    destruct (Hnth _ _ Hn) as [_ ->]. rewrite Hkeep, Hk.
    apply bool_decide_eq_false. intros [= ->].
    apply lookup_lt_Some in Hn. lia.
Qed.

End Responses.

(* ===================================================================== *)
(** ** The result transformers *)
(* ===================================================================== *)

Lemma companyRecord_total entry :
  nullish entry = false ->
  exists record, companyRecord entry = Some record
    /\ honoursFallbacks companyFallbacks entry record.
Proof.
  intros Hentry.
  destruct entry as [| |b|n|s|l|o]; try discriminate;
    (eexists; split; [reflexivity|]);
    unfold honoursFallbacks, companyFallbacks;
    repeat (constructor; [fallback_line|]); constructor.
Qed.

Lemma personRecord_total entry :
  nullish entry = false ->
  exists record, personRecord entry = Some record
    /\ honoursFallbacks personFallbacks entry record.
Proof.
  intros Hentry.
  destruct entry as [| |b|n|s|l|o]; try discriminate;
    (eexists; split; [reflexivity|]);
    unfold honoursFallbacks, personFallbacks;
    repeat (constructor; [fallback_line|]); constructor.
Qed.

(** Building a record throws on a [null] or [undefined] entry, and on
    no other. *)
Lemma companyRecord_throws_iff entry :
  companyRecord entry = None <-> nullish entry = true.
Proof. by destruct entry. Qed.

Lemma personRecord_throws_iff entry :
  personRecord entry = None <-> nullish entry = true.
Proof. by destruct entry. Qed.

Section Transformers.
Context {rt : JsRuntime}.

Lemma forEachEntries_array l : forEachEntries (JArr l) = Some l.
Proof. unfold forEachEntries. simpl. by destruct l. Qed.

Lemma mapM_records (f : JsVal -> option JsVal) (P : JsVal -> JsVal -> Prop) entries :
  (forall e, nullish e = false -> exists r, f e = Some r /\ P e r) ->
  Forall (fun e => nullish e = false) entries ->
  exists recs, mapM f entries = Some recs /\ Forall2 P entries recs.
Proof.
  intros Hf. induction 1 as [|e entries He _ (recs & Hrecs & HP)].
  - exists []. split; [done|constructor].
  - destruct (Hf _ He) as (r & Hr & HPr). exists (r :: recs).
    split; [|by constructor]. simpl. by rewrite Hr, Hrecs.
Qed.

(** C5, as the code has it.  The transformers are total and
    length-preserving on arrays that hold no null: for every [companies]
    or [individuals] array, the empty one included, whose entries are
    values other than [null] and [undefined], with any of their fields
    missing, building the records throws nothing and yields as many
    records as there are entries; in each record every optional field the
    entry lacks holds its fallback, and every field with a truthy value
    holds that value.  The handler then stores exactly these records.  (A
    null entry makes the transformer throw, see
    [companyRecord_throws_iff].) *)
Theorem transformer_total_length_preserving
    (d : gmap string JsVal) (entries : list JsVal) (st : State) :
  Forall (fun e => nullish e = false) entries ->
  (d !! "companies"%string = Some (JArr entries) ->
   exists recs, transformCompanies (JObj d) = Some recs
     /\ length recs = length entries
     /\ Forall2 (honoursFallbacks companyFallbacks) entries recs
     /\ companyResults (handleCompanySearch_resume (Resolved true (JObj d)) st)
        = recs)
  /\
  (d !! "individuals"%string = Some (JArr entries) ->
   exists recs, transformIndividuals (JObj d) = Some recs
     /\ length recs = length entries
     /\ Forall2 (honoursFallbacks personFallbacks) entries recs
     /\ personResults (handlePersonSearch_resume (Resolved true (JObj d)) st)
        = recs).
Proof.
  intros Hentries. split; intros Hd.
  - destruct (mapM_records companyRecord (honoursFallbacks companyFallbacks)
                entries companyRecord_total Hentries) as (recs & Hrecs & Hfall).
    assert (transformCompanies (JObj d) = Some recs) as Htr.
    { unfold transformCompanies. simpl. rewrite Hd. simpl.
      by rewrite forEachEntries_array. }
    exists recs. split; [done|]. split; [symmetry; by eapply Forall2_length|].
    split; [done|]. unfold handleCompanySearch_resume. rewrite Htr. by destruct st.
  - destruct (mapM_records personRecord (honoursFallbacks personFallbacks)
                entries personRecord_total Hentries) as (recs & Hrecs & Hfall).
    assert (transformIndividuals (JObj d) = Some recs) as Htr.
    { unfold transformIndividuals. simpl. rewrite Hd. simpl.
      by rewrite forEachEntries_array. }
    exists recs. split; [done|]. split; [symmetry; by eapply Forall2_length|].
    split; [done|]. unfold handlePersonSearch_resume. rewrite Htr. by destruct st.
Qed.

(** C3, as the code has it.  For the response
    [{companies:[{name:"Acme Corp", ticker:"ACM"}]}] to a search for
    "Acme" the handler stores exactly one record; its name is
    "Acme Corp", its title "Company", its financial-opportunity list has
    three entries, and its [ceo_name] field is [null].  "Unknown" is what
    [getCEOName] shows for that record in the company row. *)
Theorem acme_display_record :
  exists record opportunities,
    transformCompanies acmeResponse = Some [record]
    /\ companyResults
         (ui (run initialWorld
                [ChangeCompanyQuery (lit "Acme"); ClickSearchCompanies;
                 Settle 0 (Resolved true acmeResponse)]))
       = [record]
    /\ getProp record "name" = Some (JStr (lit "Acme Corp"))
    /\ getProp record "title" = Some (JStr (lit "Company"))
    /\ getProp record "financial_opportunities" = Some (JArr opportunities)
    /\ length opportunities = 3%nat
    /\ getProp record "ticker" = Some (JStr (lit "ACM"))
    /\ getProp record "ceo_name" = Some JNull
    /\ getCEOName record = Some (JStr (lit "Unknown")).
Proof.
  eexists _, _. split; [reflexivity|]. repeat split; reflexivity.
Qed.

Lemma personRecord_depends_on (o o' : gmap string JsVal) :
  Forall (fun k => o !! k = o' !! k)
    ["name"; "title"; "company"; "estimated_net_worth"; "linkedin_url";
     "data_sources"]%string ->
  personRecord (JObj o) = personRecord (JObj o').
Proof.
  rewrite !Forall_cons. intros (H1 & H2 & H3 & H4 & H5 & H6 & _).
  unfold personRecord. simpl. by rewrite H1, H2, H3, H4, H5, H6.
Qed.
End Transformers.

Section Records.
Context {rt : JsRuntime}.

(** C4, as the code has it.  The person transformer ignores the entry's
    [linkedin_note]: the record is the same whatever the note is, it has no
    [linkedin_note] field, and the person card built from it shows no note.
    It does not ignore [estimated_net_worth]: the record carries the
    entry's value, or "Confidential" when that is missing or falsy, and
    the card shows it. *)
Theorem person_record_ignores_linkedin_note
    (o : gmap string JsVal) (note : JsVal) (loading : bool) (index : nat) :
  personRecord (JObj (<["linkedin_note"%string := note]> o))
  = personRecord (JObj o)
  /\ exists record card,
       personRecord (JObj o) = Some record
       /\ getProp record "linkedin_note" = Some JUndefined
       /\ getProp record "estimated_net_worth"
          = Some (or_else (default JUndefined (o !! "estimated_net_worth"%string))
                          (JStr (lit "Confidential")))
       /\ personCard loading record index = Some card
       /\ card_linkedin_note card = None
       /\ card_net_worth card
          = or_else (default JUndefined (o !! "estimated_net_worth"%string))
                    (JStr (lit "Confidential")).
Proof.
  split.
  - apply personRecord_depends_on.
    repeat (constructor; [by rewrite lookup_insert_ne|]). constructor.
  - eexists _, _. split; [reflexivity|]. split; [reflexivity|].
    split; [reflexivity|]. split; [reflexivity|]. split; reflexivity.
Qed.

Lemma truthy_or_else a b : truthy (or_else a b) = truthy a || truthy b.
Proof. unfold or_else. by destruct (truthy a) eqn:Ha; rewrite ?Ha. Qed.

Lemma truthy_not_nullish v : truthy v = true -> nullish v = false.
Proof. by destruct v. Qed.

(** A field filled by [x || null] is null exactly when [x] is falsy. *)
Lemma or_null_nullish x : nullish (or_else x JNull) = negb (truthy x).
Proof.
  unfold or_else. destruct (truthy x) eqn:Hx; [|done].
  by apply truthy_not_nullish.
Qed.

Lemma companyRecord_statuses entry record :
  companyRecord entry = Some record ->
  exists x1 x2 x3,
    getProp record "edgar_status" = Some (or_else x1 JNull)
    /\ getProp record "linkedin_status" = Some (or_else x2 JNull)
    /\ getProp record "companyresearch_status" = Some (or_else x3 JNull).
Proof.
  destruct entry; try discriminate; intros [= <-]; eexists _, _, _;
    (split; [reflexivity|split; reflexivity]).
Qed.

Lemma getCEOName_record entry record :
  companyRecord entry = Some record ->
  exists ceo, getCEOName record = Some ceo.
Proof.
  intros Hrecord.
  assert (exists m x, record = JObj m
            /\ m !! "ceo_name"%string = Some (or_else x JNull)
            /\ m !! "executives"%string = None) as (m & x & -> & Hceo & Hex).
  { destruct entry; try discriminate; injection Hrecord as <-;
      eexists _, _; (split; [reflexivity|split; reflexivity]). }
  unfold getCEOName. cbn [getProp]. rewrite Hceo, Hex. cbn.
  destruct (truthy (or_else x JNull)); by eexists.
Qed.

Lemma hasErrors_record entry record :
  companyRecord entry = Some record ->
  exists errs name ticker,
    hasErrors record = Some errs
    /\ getProp record "name" = Some name
    /\ getProp record "ticker" = Some ticker.
Proof.
  intros Hrecord.
  destruct entry; try discriminate; injection Hrecord as <-;
    eexists _, _, _; (split; [reflexivity|split; reflexivity]).
Qed.

(** A collapsed row of a company record always renders. *)
Lemma companyRow_collapsed_total entry record expanded index :
  companyRecord entry = Some record ->
  expanded <> Some index ->
  exists row, companyRow expanded record index = Some row.
Proof.
  intros Hrecord Hne. unfold companyRow.
  rewrite bool_decide_eq_false_2 by done.
  destruct (hasErrors_record _ _ Hrecord) as (errs & name & ticker & -> & -> & ->).
  destruct (getCEOName_record _ _ Hrecord) as (ceo & ->).
  by eexists.
Qed.

Lemma className_has_errors (e h : bool) :
  includes (lit "company-row" ++ (if e then lit " expanded" else [])
              ++ (if h then lit " has-errors" else []))
           (lit " has-errors") = h.
Proof. by destruct e, h; vm_compute. Qed.

(** C10. For a company record, the row's error indicator and its
    [has-errors] class are shown exactly when one of [edgar_status],
    [linkedin_status], [companyresearch_status] is present and not null.
    The keyword test plays no part: a status that it classifies as a mere
    warning raises the indicator all the same. *)
Theorem error_indicator_iff_status_present
    (entry record : JsVal) (expanded : option nat) (index : nat)
    (row : CompanyRow) :
  companyRecord entry = Some record ->
  companyRow expanded record index = Some row ->
  (row_error_indicator row = true <->
   exists field v, field ∈ statusFields
     /\ getProp record field = Some v /\ nullish v = false)
  /\ includes (row_className row) (lit " has-errors") = row_error_indicator row
  /\ (forall field s, field ∈ statusFields ->
        getProp record field = Some (JStr s) ->
        isErrorStatus (toLowerCase s) = false ->
        row_error_indicator row = true).
Proof.
  intros Hrecord Hrow.
  destruct (companyRecord_statuses _ _ Hrecord) as (x1 & x2 & x3 & H1 & H2 & H3).
  apply companyRow_shape in Hrow as (_ & _ & errs & Herrs & Hind & Hclass).
  unfold hasErrors in Herrs. rewrite H1, H2, H3 in Herrs. simpl in Herrs.
  injection Herrs as <-. rewrite !truthy_or_else in Hind. simpl in Hind.
  rewrite !orb_false_r in Hind.
  assert (row_error_indicator row = true <->
          exists field v, field ∈ statusFields
            /\ getProp record field = Some v /\ nullish v = false) as Hiff.
  { rewrite Hind. split.
    - intros Hi.
      destruct (truthy x1) eqn:T1; [|destruct (truthy x2) eqn:T2];
        [exists "edgar_status"%string, (or_else x1 JNull)
        |exists "linkedin_status"%string, (or_else x2 JNull)
        |exists "companyresearch_status"%string, (or_else x3 JNull)];
        (split; [unfold statusFields; set_solver|split; [done|]]);
        rewrite or_null_nullish; [by rewrite T1|by rewrite T2|].
      simpl in Hi. by rewrite Hi.
    - intros (field & v & Hfield & Hv & Hnn). unfold statusFields in Hfield.
      apply elem_of_cons in Hfield as [->|Hfield];
        [|apply elem_of_cons in Hfield as [->|Hfield];
          [|apply list_elem_of_singleton in Hfield as ->]].
      + rewrite H1 in Hv. injection Hv as <-. rewrite or_null_nullish in Hnn.
        apply negb_false_iff in Hnn. by rewrite Hnn.
      + rewrite H2 in Hv. injection Hv as <-. rewrite or_null_nullish in Hnn.
        apply negb_false_iff in Hnn. rewrite Hnn. by rewrite orb_true_r.
      + rewrite H3 in Hv. injection Hv as <-. rewrite or_null_nullish in Hnn.
        apply negb_false_iff in Hnn. rewrite Hnn. by rewrite !orb_true_r. }
  split; [exact Hiff|]. split.
  - rewrite Hclass, className_has_errors, Hind, !truthy_or_else. simpl.
    by rewrite !orb_false_r.
  - intros field s Hfield Hs _. apply Hiff. by exists field, (JStr s).
Qed.

End Records.

(* ===================================================================== *)
(** ** The report text *)
(* ===================================================================== *)

Lemma reportLine_cases paragraph index :
  reportLine paragraph index
  = if blank paragraph then None
    else Some (if startsWith paragraph bullet
               then BulletPoint index paragraph
               else Paragraph index paragraph).
Proof.
  unfold reportLine. destruct (blank paragraph) eqn:Hb.
  - apply trim_nil_iff in Hb. by rewrite bool_decide_eq_true_2.
  - rewrite bool_decide_eq_false_2.
    + by destruct (startsWith paragraph bullet).
    + intros Ht%trim_nil_iff. congruence.
Qed.

(** The displayed blocks are the non-blank lines, in their order, each
    classified by its first code unit. *)
Lemma displayed_report_lines (key : nat -> nat) lines :
  map (fun b => (isBulletPoint b, blockText b))
      (displayed (imap (fun i p => reportLine p (key i)) lines))
  = map (fun l => (startsWith l bullet, l))
        (filter (fun l => blank l = false) lines).
Proof.
  revert key. induction lines as [|l lines IH]; intros key; [done|].
  rewrite imap_cons. unfold displayed in *. simpl.
  rewrite reportLine_cases. specialize (IH (key ∘ S)).
  destruct (blank l) eqn:Hb; simpl.
  - rewrite filter_cons_False by congruence. exact IH.
  - rewrite filter_cons_True by done. simpl. f_equal; [|exact IH].
    by destruct (startsWith l bullet).
Qed.

(** The key of a displayed block is the position of its line. *)
Lemma displayed_report_keys lines b :
  b ∈ displayed (imap (fun i p => reportLine p i) lines) ->
  lines !! blockKey b = Some (blockText b).
Proof.
  unfold displayed. intros (ob & Hob & Hid)%list_elem_of_omap.
  simpl in Hid. subst ob.
  apply list_elem_of_lookup in Hob as [i Hi].
  rewrite list_lookup_imap in Hi.
  destruct (lines !! i) as [p|] eqn:Hp; simpl in Hi; [|discriminate].
  injection Hi as Hi. rewrite reportLine_cases in Hi.
  destruct (blank p); [discriminate|].
  destruct (startsWith p bullet); injection Hi as <-; exact Hp.
Qed.

(** C8, as the code has it.  A non-empty response text is split at its
    line feeds; the blank lines are dropped, every other line is shown, in
    the order of the text and keyed by its line number, as a list item
    when it begins with the bullet marker and as a paragraph otherwise.
    "• Point one\nSecond paragraph" gives the bullet item "• Point one"
    followed by the paragraph "Second paragraph". *)
Theorem report_text_lines_rendered (s : jsstring) :
  s <> [] ->
  exists children,
    responseText (JStr s) = Some (LlmMessage children)
    /\ map (fun b => (isBulletPoint b, blockText b)) (displayed children)
       = map (fun l => (startsWith l bullet, l))
             (filter (fun l => blank l = false) (split_lines s))
    /\ (forall b, b ∈ displayed children ->
          split_lines s !! blockKey b = Some (blockText b))
    /\ responseText (JStr pointOneReport)
       = Some (LlmMessage
                 [Some (BulletPoint 0 (bullet ++ lit " Point one"));
                  Some (Paragraph 1 (lit "Second paragraph"))]).
Proof.
  intros Hs. eexists. split.
  - unfold responseText. destruct s; [done|]. reflexivity.
  - split; [apply (displayed_report_lines id)|].
    split; [apply displayed_report_keys|]. by vm_compute.
Qed.

Lemma report_text_lines_rendered_witness :
  pointOneReport <> []
  /\ exists children,
       responseText (JStr pointOneReport) = Some (LlmMessage children)
       /\ map (fun b => (isBulletPoint b, blockText b)) (displayed children)
          = [(true, bullet ++ lit " Point one");
             (false, lit "Second paragraph")].
Proof.
  assert (pointOneReport <> []) as Hne by discriminate.
  split; [exact Hne|].
  destruct (report_text_lines_rendered pointOneReport Hne)
    as (children & Hchildren & Hblocks & _).
  exists children. split; [exact Hchildren|]. rewrite Hblocks. by vm_compute.
Defined.

(** The claim of C8 fails for the empty text: splitting it and dropping
    the blank line leaves nothing to show, yet the renderer shows the
    placeholder paragraph, and no message block at all. *)
Lemma empty_report_text_shows_placeholder :
  filter (fun l => blank l = false) (split_lines []) = []
  /\ responseText (JStr []) = Some (LoadingMessage (lit "Generating AI analysis..."))
  /\ ~ exists children, responseText (JStr []) = Some (LlmMessage children).
Proof.
  split; [reflexivity|]. split; [reflexivity|]. intros [children H]. discriminate H.
Qed.

(* ===================================================================== *)
(** ** The financial-statement modal *)
(* ===================================================================== *)

Lemma FinancialStatements_tabs company activeTab
    heading filing buttons content metrics :
  FinancialStatements company activeTab
    = Some (Statements heading filing buttons content metrics) ->
  buttons
    = [tabButton activeTab (lit "income") (lit "Income Statement");
       tabButton activeTab (lit "balance") (lit "Balance Sheet");
       tabButton activeTab (lit "cashflow") (lit "Cash Flow Statement");
       tabButton activeTab (lit "equity") (lit "Shareholders' Equity")]
  /\ exists income balance cashflow equity,
       content
       = [tabPanel activeTab (lit "income") (lit "Income Statement") income;
          tabPanel activeTab (lit "balance") (lit "Balance Sheet") balance;
          tabPanel activeTab (lit "cashflow") (lit "Cash Flow Statement") cashflow;
          tabPanel activeTab (lit "equity")
            (lit "Statement of Shareholders' Equity") equity].
Proof.
  unfold FinancialStatements.
  destruct (truthy company); simpl; [|discriminate].
  destruct (getProp company "edgar_data") as [edgar_data|]; simpl; [|discriminate].
  destruct (truthy edgar_data); simpl; [|discriminate].
  read_props. intros [= _ _ <- <- _]. split; [done|]. by eexists _, _, _, _.
Qed.

Lemma tabReachable_targets activeTab :
  tabReachable activeTab -> activeTab ∈ tabTargets.
Proof.
  induction 1 as [|company activeTab heading filing buttons content metrics b
                   _ _ Hview Hb].
  - unfold tabTargets, initialTab. apply elem_of_cons. by left.
  - apply FinancialStatements_tabs in Hview as [-> _].
    rewrite !elem_of_cons, elem_of_nil in Hb. unfold tabTargets.
    rewrite !elem_of_cons.
    destruct Hb as [->|[->|[->|[->|[]]]]]; simpl; auto 6.
Qed.

(** Which branch is rendered depends on the truthiness of [edgar_data]. *)
Lemma FinancialStatements_noData (o : gmap string JsVal) activeTab :
  (exists heading notice,
     FinancialStatements (JObj o) activeTab = Some (NoFinancialData heading notice))
  <-> truthy (default JUndefined (o !! "edgar_data"%string)) = false.
Proof.
  unfold FinancialStatements. simpl.
  destruct (truthy (default JUndefined (o !! "edgar_data"%string))) eqn:Hed; simpl.
  - split; [|discriminate]. intros (heading & notice & Hview). revert Hview.
    read_props; discriminate.
  - split; [done|]. intros _. by eexists _, _.
Qed.

(** With a [financial_statements] value to read from, the four tabs are
    rendered. *)
Lemma FinancialStatements_statements (o : gmap string JsVal) activeTab
    edgar_data statements :
  o !! "edgar_data"%string = Some edgar_data ->
  truthy edgar_data = true ->
  getProp edgar_data "financial_statements" = Some statements ->
  nullish statements = false ->
  exists heading filing buttons content metrics,
    FinancialStatements (JObj o) activeTab
      = Some (Statements heading filing buttons content metrics).
Proof.
  intros Ho Hed Hst Hnn. unfold FinancialStatements. simpl.
  rewrite Ho. simpl. rewrite Hed. simpl. rewrite Hst. simpl.
  destruct statements; try discriminate; simpl; by eexists _, _, _, _, _.
Qed.

Lemma record_edgar_data entry record :
  companyRecord entry = Some record \/ personRecord entry = Some record ->
  exists m, record = JObj m
    /\ (m !! "edgar_data"%string = None
        \/ exists x, m !! "edgar_data"%string = Some (or_else x JNull)).
Proof.
  intros [Hrecord|Hrecord]; destruct entry; try discriminate;
    injection Hrecord as <-; eexists; (split; [reflexivity|]);
    solve [by left | right; by eexists].
Qed.

(** C7, as the code has it.  For a record built by either transformer the
    modal shows its "no data" branch exactly when the record's
    [edgar_data] is absent or null.  Otherwise, when [edgar_data] carries
    a [financial_statements] value that is not null or undefined, it
    shows the four tab buttons income, balance, cashflow, equity, exactly
    one of them active and exactly one table, the income tab being the
    active one until a tab is clicked. *)
Theorem financial_presenter_branches
    (entry record : JsVal) (activeTab : jsstring) :
  companyRecord entry = Some record \/ personRecord entry = Some record ->
  tabReachable activeTab ->
  ((exists heading notice,
      FinancialStatements record activeTab = Some (NoFinancialData heading notice))
   <-> (getProp record "edgar_data" = Some JUndefined
        \/ getProp record "edgar_data" = Some JNull))
  /\
  (forall edgar_data statements,
     getProp record "edgar_data" = Some edgar_data ->
     truthy edgar_data = true ->
     getProp edgar_data "financial_statements" = Some statements ->
     nullish statements = false ->
     exists heading filing buttons content metrics,
       FinancialStatements record activeTab
         = Some (Statements heading filing buttons content metrics)
       /\ map tab_target buttons = tabTargets
       /\ length (filter (fun b => isActive b = true) buttons) = 1%nat
       /\ length (displayed content) = 1%nat
       /\ (activeTab = initialTab ->
           map isActive buttons = [true; false; false; false])).
Proof.
  intros Hrecord Htab.
  destruct (record_edgar_data _ _ Hrecord) as (m & -> & Hm). split.
  - rewrite FinancialStatements_noData. simpl.
    destruct Hm as [->|[x ->]]; simpl.
    + split; [by left|done].
    + unfold or_else. destruct (truthy x) eqn:Hx; simpl.
      * rewrite Hx. split; [done|]. intros [[= ->]|[= ->]]; discriminate.
      * split; [by right|done].
  - intros edgar_data statements Hed Htruthy Hst Hnn. simpl in Hed.
    assert (m !! "edgar_data"%string = Some edgar_data) as Hlookup.
    { destruct (m !! "edgar_data"%string); simpl in Hed; [congruence|].
      injection Hed as <-. discriminate. }
    destruct (FinancialStatements_statements m activeTab _ _ Hlookup Htruthy Hst Hnn)
      as (heading & filing & buttons & content & metrics & Hview).
    exists heading, filing, buttons, content, metrics. split; [done|].
    apply FinancialStatements_tabs in Hview
      as (-> & income & balance & cashflow & equity & ->).
    split; [done|].
    apply tabReachable_targets in Htab. unfold tabTargets in Htab.
    rewrite !elem_of_cons, elem_of_nil in Htab.
    destruct Htab as [->|[->|[->|[->|[]]]]];
      (split; [by vm_compute|split; [by vm_compute|]]);
      intros Hinit; by vm_compute in Hinit |- *.
Qed.

(* ===================================================================== *)
(** ** What the state holds *)
(* ===================================================================== *)

Section Reachable.
Context {rt : JsRuntime}.

Lemma transformCompanies_records data recs :
  transformCompanies data = Some recs -> Forall isCompanyRecord recs.
Proof.
  unfold transformCompanies. intros H.
  destruct (getProp data "companies") as [companies|]; simpl in H; [|discriminate].
  destruct (forEachEntries companies) as [entries|]; simpl in H; [|discriminate].
  apply mapM_Some_1 in H. induction H as [|e r ? ? Hr _ IH]; constructor; [|done].
  by exists e.
Qed.

Lemma transformIndividuals_records data recs :
  transformIndividuals data = Some recs -> Forall isPersonRecord recs.
Proof.
  unfold transformIndividuals. intros H.
  destruct (getProp data "individuals") as [individuals|]; simpl in H; [|discriminate].
  destruct (forEachEntries individuals) as [entries|]; simpl in H; [|discriminate].
  apply mapM_Some_1 in H. induction H as [|e r ? ? Hr _ IH]; constructor; [|done].
  by exists e.
Qed.

Lemma filterCompanyTitle_kept results kept :
  filterCompanyTitle results = Some kept -> forall r, r ∈ kept -> r ∈ results.
Proof.
  revert kept. induction results as [|x results IH]; intros kept; simpl.
  - by intros [= <-].
  - destruct (getProp x "title") as [t|]; simpl; [|discriminate].
    destruct (filterCompanyTitle results) as [rest|]; simpl; [|discriminate].
    specialize (IH _ eq_refl). intros [= <-] r Hr.
    destruct (strictEqStr t (lit "Company")).
    + apply elem_of_cons in Hr as [->|Hr]; [by left|right; by apply IH].
    + right. by apply IH.
Qed.

Lemma holdsRecords_handleCompanySearch st :
  holdsRecords st -> holdsRecords (fst (handleCompanySearch st)).
Proof.
  unfold handleCompanySearch.
  destruct (negb (truthy (JStr (trim (companyQuery st))))); by destruct st.
Qed.

Lemma holdsRecords_handlePersonSearch st :
  holdsRecords st -> holdsRecords (fst (handlePersonSearch st)).
Proof.
  unfold handlePersonSearch.
  destruct (negb (truthy (JStr (trim (personQuery st))))); by destruct st.
Qed.

Lemma holdsRecords_handleKeyDown key searchType st :
  holdsRecords st -> holdsRecords (fst (handleKeyDown key searchType st)).
Proof.
  unfold handleKeyDown. intros Hst.
  destruct (bool_decide (key = lit "Enter")); [|done].
  destruct (bool_decide (searchType = lit "company"));
    [by apply holdsRecords_handleCompanySearch
    |by apply holdsRecords_handlePersonSearch].
Qed.

Lemma holdsRecords_resume k r st :
  holdsRecords st -> holdsRecords (resume k r st).
Proof.
  intros (Hc & Hp & Hs). destruct k; simpl.
  - unfold handleCompanySearch_resume. destruct r as [|[] data].
    + by destruct st.
    + destruct (transformCompanies data) as [recs|] eqn:Hrecs; [|by destruct st].
      apply transformCompanies_records in Hrecs. by destruct st.
    + destruct (getProp data "error"); by destruct st.
  - unfold handlePersonSearch_resume. destruct r as [|[] data].
    + by destruct st.
    + destruct (transformIndividuals data) as [recs|] eqn:Hrecs; [|by destruct st].
      apply transformIndividuals_records in Hrecs. by destruct st.
    + destruct (getProp data "error"); by destruct st.
  - unfold generateReport_resume. destruct r as [|[] data].
    + by destruct st.
    + by destruct st.
    + destruct (getProp data "error"); by destruct st.
Qed.

Lemma holdsRecords_select result st :
  holdsRecords st ->
  isCompanyRecord result \/ isPersonRecord result ->
  holdsRecords (setShowFinancialStatements true (setSelectedCompany result st)).
Proof. intros (Hc & Hp & Hs) Hresult. destruct st. split; [done|]. split; [done|]. by right. Qed.

Lemma holdsRecords_step w e : holdsRecords (ui w) -> holdsRecords (ui (step w e)).
Proof.
  intros Hw. destruct e; simpl.
  - by destruct (ui w).
  - by destruct (ui w).
  - by apply holdsRecords_handleKeyDown.
  - by apply holdsRecords_handleKeyDown.
  - destruct (companyLoading (ui w)); [done|].
    by apply holdsRecords_handleCompanySearch.
  - destruct (personLoading (ui w)); [done|].
    by apply holdsRecords_handlePersonSearch.
  - destruct (visibleCompanyRows (ui w)); [|done].
    case_bool_decide; [|done]. simpl. unfold toggleCompanyRow. by destruct (ui w).
  - destruct (expandedProfileAt (ui w) index) as [[result profile]|] eqn:Hat; [|done].
    destruct (profile_financials_button profile); [|done]. simpl.
    apply holdsRecords_select; [done|]. left.
    unfold expandedProfileAt in Hat.
    destruct (filterCompanyTitle (companyResults (ui w))) as [kept|] eqn:Hkept;
      simpl in Hat; [|discriminate].
    destruct (kept !! index) as [r|] eqn:Hr; simpl in Hat; [|discriminate].
    assert (r = result) as ->.
    { destruct (visibleCompanyRows (ui w)) as [rows|]; simpl in Hat; [|discriminate].
      destruct (rows !! index) as [row|]; simpl in Hat; [|discriminate].
      destruct (row_profile row); simpl in Hat; [|discriminate]. congruence. }
    destruct Hw as (Hc & _ & _). rewrite Forall_forall in Hc. apply Hc.
    eapply filterCompanyTitle_kept; [done|]. by eapply list_elem_of_lookup_2.
  - destruct (personCardAt (ui w) index) as [[result card]|] eqn:Hat; [|done].
    destruct (card_financials_button card); [|done]. simpl.
    apply holdsRecords_select; [done|]. right.
    unfold personCardAt in Hat.
    destruct (personResults (ui w) !! index) as [r|] eqn:Hr; simpl in Hat; [|discriminate].
    assert (r = result) as ->.
    { destruct (renderIndividualResults (ui w)) as [cards|]; simpl in Hat; [|discriminate].
      destruct (cards !! index); simpl in Hat; [|discriminate]. congruence. }
    destruct Hw as (_ & Hp & _). rewrite Forall_forall in Hp. apply Hp.
    by eapply list_elem_of_lookup_2.
  - destruct (truthy (selectedCompany (ui w)) && showFinancialStatements (ui w)); [|done].
    simpl. destruct Hw as (Hc & Hp & _). destruct (ui w). split; [done|]. split; [done|]. by left.
  - destruct (personCardAt (ui w) index) as [[result card]|]; [|done].
    destruct (card_report_disabled card); [done|]. simpl. by destruct (ui w).
  - destruct (if showReport (ui w) then renderReport (ui w) else Some None) as [[modal|]|];
      [|done|done].
    simpl. unfold closeReport. by destruct (ui w).
  - destruct (inflight w !! i) as [[k rq]|]; [|done]. simpl.
    by apply holdsRecords_resume.
Qed.

(** In every world the component reaches, the company results are records
    of the company transformer, the person results are records of the
    person transformer, and the company shown in the statements modal is
    one of them. *)
Lemma reachable_holds_records w : reachable w -> holdsRecords (ui w).
Proof.
  induction 1 as [|w e _ IH].
  - split; [constructor|]. split; [constructor|]. by left.
  - by apply holdsRecords_step.
Qed.

End Reachable.

(* ===================================================================== *)
(** ** The scenarios, run *)
(* ===================================================================== *)

Lemma expansion_toggle_single_row_witness :
  (0 <> 1)%nat
  /\ expandedCompanyIndex initialState = None
  /\ expandedCompanyIndex (toggleCompanyRow 0 initialState) = Some 0%nat
  /\ expandedCompanyIndex
       (toggleCompanyRow 0 (toggleCompanyRow 0 initialState)) = None
  /\ expandedCompanyIndex
       (toggleCompanyRow 1 (toggleCompanyRow 0 initialState)) = Some 1%nat.
Proof.
  assert (0 <> 1)%nat as Hne by discriminate.
  destruct (expansion_toggle_single_row (rt := asciiRuntime) initialState 0 1 Hne)
    as (_ & Hcollapse & Hmove & _).
  destruct (Hcollapse eq_refl) as [Hexpand Hback].
  split; [exact Hne|]. split; [reflexivity|]. split; [exact Hexpand|].
  split; [exact Hback|exact Hmove].
Defined.

(** The claim of C1 fails on two rapid submits.  "Alpha" is submitted,
    then "Beta" while "Alpha" is in flight; the answer to "Beta" arrives
    first and is shown; the answer to "Alpha" arrives last and replaces
    it.  The screen ends on the results of the earlier request. *)
Lemma stale_response_overwrites_newer :
  let w := run (rt := asciiRuntime) initialWorld twoRapidSubmits in
  inflight w = [(CompanySearchK, alphaRequest); (CompanySearchK, betaRequest)]
  /\ resultNames (settleEcho (rt := asciiRuntime) 1 w) = [Some (JStr (lit "Beta"))]
  /\ resultNames (settleEcho (rt := asciiRuntime) 0 (settleEcho (rt := asciiRuntime) 1 w))
     = [Some (JStr (lit "Alpha"))]
  /\ resultNames (settleEcho (rt := asciiRuntime) 0 (settleEcho (rt := asciiRuntime) 1 w))
     <> [Some (JStr (lit "Beta"))].
Proof.
  split; [by vm_compute|]. split; [by vm_compute|]. split; [by vm_compute|].
  by vm_compute.
Qed.

Lemma last_arriving_response_wins_witness :
  (0 < 1)%nat
  /\ transformCompanies (rt := asciiRuntime) alphaData = Some alphaRecords
  /\ companyResults
       (ui (run (rt := asciiRuntime)
              (run (rt := asciiRuntime) initialWorld twoRapidSubmits)
              [Settle 1 (Resolved true betaData);
               Settle 0 (Resolved true alphaData)]))
     = alphaRecords.
Proof.
  assert (transformCompanies (rt := asciiRuntime) alphaData = Some alphaRecords)
    as Hrecs by (by vm_compute).
  split; [lia|]. split; [exact Hrecs|].
  destruct (last_arriving_response_wins (rt := asciiRuntime)
              (run (rt := asciiRuntime) initialWorld twoRapidSubmits) 0 1
              alphaRequest betaRequest alphaData betaData
              ltac:(lia) ltac:(by vm_compute) ltac:(by vm_compute))
    as [Hbuilt _].
  exact (Hbuilt alphaRecords Hrecs).
Defined.

(** The claim of C2 fails when a search returns fewer companies than the
    expanded position: with two results and the second row expanded, a
    search that finds one company leaves the index at 1, past the end of
    the one-element list. *)
Lemma stale_expansion_index_past_results :
  let before := run (rt := asciiRuntime) initialWorld (take 6 shrinkingSearch) in
  let after := run (rt := asciiRuntime) initialWorld shrinkingSearch in
  expansionIndexValid (ui before)
  /\ length (companyResults (ui before)) = 2%nat
  /\ length (companyResults (ui after)) = 1%nat
  /\ expandedCompanyIndex (ui after) = Some 1%nat
  /\ ~ expansionIndexValid (ui after).
Proof.
  split; [vm_compute; lia|]. split; [by vm_compute|]. split; [by vm_compute|].
  split; [by vm_compute|]. vm_compute. lia.
Qed.

Lemma expansion_index_outlives_results_witness :
  let st := ui (run (rt := asciiRuntime) initialWorld (take 6 shrinkingSearch)) in
  let st' := handleCompanySearch_resume (rt := asciiRuntime)
               (Resolved true oneCompany) st in
  exists rows,
    renderCompanyRows (rt := asciiRuntime) st' = Some rows
    /\ expandedCompanyIndex st' = Some 1%nat
    /\ Forall (fun row => rowExpanded row = false) rows.
Proof.
  intros st st'. eexists. split; [by vm_compute|].
  destruct (expansion_index_outlives_results (rt := asciiRuntime) st
              (Resolved true oneCompany) _ ltac:(by vm_compute))
    as (_ & Hkeep & _ & Hnone).
  split; [fold st' in Hkeep; rewrite Hkeep; by vm_compute|].
  apply (Hnone 1%nat); [by vm_compute|vm_compute; lia].
Defined.

(** The claim of C3 fails on the [ceo_name] field: the record built for
    Acme Corp holds [null] there, not "Unknown". *)
Lemma acme_ceo_name_field_is_null :
  (recs ← transformCompanies (rt := asciiRuntime) acmeResponse;
   record ← head recs; getProp record "ceo_name") = Some JNull
  /\ (recs ← transformCompanies (rt := asciiRuntime) acmeResponse;
      record ← head recs; getProp record "ceo_name")
     <> Some (JStr (lit "Unknown")).
Proof. split; by vm_compute. Qed.

(** The claim of C4 fails on [estimated_net_worth]: two individuals that
    differ in that field only get different records. *)
Lemma person_net_worth_not_ignored :
  janeRich = obj [("name", JStr (lit "Jane Doe"));
                  ("estimated_net_worth", JStr (lit "$5M"))]
  /\ janePlain = obj [("name", JStr (lit "Jane Doe"))]
  /\ (r ← personRecord janeRich; getProp r "estimated_net_worth")
     = Some (JStr (lit "$5M"))
  /\ (r ← personRecord janePlain; getProp r "estimated_net_worth")
     = Some (JStr (lit "Confidential"))
  /\ personRecord janeRich <> personRecord janePlain.
Proof.
  split; [done|]. split; [done|]. split; [by vm_compute|]. split; [by vm_compute|].
  intros Heq.
  assert ((r ← personRecord janeRich; getProp r "estimated_net_worth")
          = (r ← personRecord janePlain; getProp r "estimated_net_worth")) as H
    by (by rewrite Heq).
  by vm_compute in H.
Qed.

Lemma transformer_total_length_preserving_witness :
  Forall (fun e => nullish e = false)
    [obj [("name", JStr (lit "Acme Corp")); ("ticker", JStr (lit "ACM"))]]
  /\ exists recs,
       transformCompanies (rt := asciiRuntime) acmeResponse = Some recs
       /\ length recs = 1%nat.
Proof.
  assert (Forall (fun e => nullish e = false)
            [obj [("name", JStr (lit "Acme Corp")); ("ticker", JStr (lit "ACM"))]])
    as Hentries by (repeat constructor).
  split; [exact Hentries|].
  destruct (transformer_total_length_preserving (rt := asciiRuntime)
              (list_to_map
                 [("companies"%string,
                   JArr [obj [("name", JStr (lit "Acme Corp"));
                              ("ticker", JStr (lit "ACM"))]])])
              _ initialState Hentries) as [Hcompanies _].
  destruct (Hcompanies ltac:(by vm_compute)) as (recs & Hrecs & Hlen & _).
  exists recs. split; [exact Hrecs|exact Hlen].
Defined.

(** The claim of C5 fails for an array that holds a null: reading the
    first field of the null entry throws, no record list is built, and
    the handler keeps the results it had and reports a connection
    failure.  So it is in both lanes. *)
Lemma null_entry_makes_transformer_throw :
  transformCompanies (rt := asciiRuntime) nullEntryCompanies = None
  /\ companyResults
       (handleCompanySearch_resume (rt := asciiRuntime)
          (Resolved true nullEntryCompanies)
          (setCompanyResults [filedRecord] initialState))
     = [filedRecord]
  /\ companyError
       (handleCompanySearch_resume (rt := asciiRuntime)
          (Resolved true nullEntryCompanies)
          (setCompanyResults [filedRecord] initialState))
     = connectFailure
  /\ transformIndividuals (rt := asciiRuntime) nullEntryIndividuals = None
  /\ personError
       (handlePersonSearch_resume (rt := asciiRuntime)
          (Resolved true nullEntryIndividuals) initialState)
     = connectFailure.
Proof. repeat (split; [by vm_compute|]). by vm_compute. Qed.

(** The claim of C7 fails for a record whose [edgar_data] is present and
    not null but carries no [financial_statements]: neither the "no data"
    branch nor the tabs are rendered, the component throws. *)
Lemma financial_statements_missing_throws :
  companyRecord bareEdgarCompany = Some bareEdgarRecord
  /\ getProp bareEdgarRecord "edgar_data" = Some (obj [])
  /\ FinancialStatements bareEdgarRecord initialTab = None.
Proof. split; [by vm_compute|]. split; by vm_compute. Qed.

Lemma financial_presenter_branches_witness :
  (companyRecord filedCompany = Some filedRecord
   \/ personRecord filedCompany = Some filedRecord)
  /\ tabReachable initialTab
  /\ exists heading filing buttons content metrics,
       FinancialStatements filedRecord initialTab
         = Some (Statements heading filing buttons content metrics)
       /\ map isActive buttons = [true; false; false; false].
Proof.
  assert (companyRecord filedCompany = Some filedRecord
          \/ personRecord filedCompany = Some filedRecord) as Hrecord
    by (left; by vm_compute).
  split; [exact Hrecord|]. split; [exact tab_initial|].
  destruct (financial_presenter_branches filedCompany filedRecord initialTab
              Hrecord tab_initial) as [_ Hstatements].
  destruct (Hstatements filedEdgar filedStatements
              ltac:(by vm_compute) ltac:(by vm_compute)
              ltac:(by vm_compute) ltac:(by vm_compute))
    as (heading & filing & buttons & content & metrics & Hview & _ & _ & _ & Hinit).
  exists heading, filing, buttons, content, metrics.
  split; [exact Hview|exact (Hinit eq_refl)].
Defined.

Lemma error_indicator_iff_status_present_witness :
  companyRecord filedCompany = Some filedRecord
  /\ isErrorStatus (toLowerCase (JsRuntime := asciiRuntime)
                      (lit "Using cached filing")) = false
  /\ exists row,
       companyRow (rt := asciiRuntime) None filedRecord 0 = Some row
       /\ row_error_indicator row = true.
Proof.
  split; [by vm_compute|]. split; [by vm_compute|].
  eexists. split; [by vm_compute|].
  destruct (error_indicator_iff_status_present (rt := asciiRuntime)
              filedCompany filedRecord None 0 _
              ltac:(by vm_compute) ltac:(by vm_compute)) as (_ & _ & Hwarning).
  apply (Hwarning "edgar_status"%string (lit "Using cached filing"));
    [apply elem_of_cons; by left | by vm_compute | by vm_compute].
Defined.

(* ===================================================================== *)
(** ** Responses, failures and the other lanes *)
(* ===================================================================== *)

Lemma truthy_connectFailure : truthy connectFailure = true.
Proof. by vm_compute. Qed.

Lemma truthy_or_literal e (s : string) :
  lit s <> [] -> truthy (or_else e (JStr (lit s))) = true.
Proof.
  intros Hs. unfold or_else. destruct (truthy e) eqn:He; [done|].
  simpl. by destruct (lit s).
Qed.

Section Outcomes.
Context {rt : JsRuntime}.

Lemma truthy_failureMessage (fallback : string) r :
  lit fallback <> [] -> truthy (failureMessage fallback r) = true.
Proof.
  intros Hs. unfold failureMessage.
  destruct r as [|[] data]; try apply truthy_connectFailure.
  destruct (getProp data "error"); [|apply truthy_connectFailure].
  by apply truthy_or_literal.
Qed.

(** X1. Every settled search leaves its lane not loading.  When the
    response is ok and its records can be built, the result list becomes
    exactly those records and the error cell stays as it was.  In every
    other case (a rejected fetch, a response that is not ok, a throw
    while building the records) the result list stays as it was and the
    error cell gets a truthy message: the server's [error] when the
    response is not ok and carries a truthy one, the lane's fallback text
    when it carries none, the connection-failure text otherwise. *)
Theorem settled_search_replaces_or_reports (r : FetchResult) (st : State) :
  (companyLoading (handleCompanySearch_resume r st) = false
   /\ (forall recs,
         builtCompanies r = Some recs ->
         companyResults (handleCompanySearch_resume r st) = recs
         /\ companyError (handleCompanySearch_resume r st) = companyError st)
   /\ (builtCompanies r = None ->
       companyResults (handleCompanySearch_resume r st) = companyResults st
       /\ companyError (handleCompanySearch_resume r st)
          = failureMessage "Company search failed" r
       /\ truthy (companyError (handleCompanySearch_resume r st)) = true))
  /\
  (personLoading (handlePersonSearch_resume r st) = false
   /\ (forall recs,
         builtIndividuals r = Some recs ->
         personResults (handlePersonSearch_resume r st) = recs
         /\ personError (handlePersonSearch_resume r st) = personError st)
   /\ (builtIndividuals r = None ->
       personResults (handlePersonSearch_resume r st) = personResults st
       /\ personError (handlePersonSearch_resume r st)
          = failureMessage "Person search failed" r
       /\ truthy (personError (handlePersonSearch_resume r st)) = true)).
Proof.
  split.
  - assert (companyLoading (handleCompanySearch_resume r st) = false) as Hload.
    { unfold handleCompanySearch_resume. destruct r as [|[] data];
        [by destruct st| |].
      - destruct (transformCompanies data); by destruct st.
      - destruct (getProp data "error"); by destruct st. }
    split; [exact Hload|]. split.
    + intros recs Hrecs. destruct r as [|[] data]; try discriminate.
      simpl in Hrecs. unfold handleCompanySearch_resume. rewrite Hrecs.
      by destruct st.
    + intros Hnone.
      assert (companyResults (handleCompanySearch_resume r st) = companyResults st
              /\ companyError (handleCompanySearch_resume r st)
                 = failureMessage "Company search failed" r) as [Hres Herr].
      { unfold handleCompanySearch_resume, failureMessage.
        destruct r as [|[] data]; [by destruct st| |].
        - simpl in Hnone. rewrite Hnone. by destruct st.
        - destruct (getProp data "error"); by destruct st. }
      split; [exact Hres|]. split; [exact Herr|].
      rewrite Herr. by apply truthy_failureMessage.
  - assert (personLoading (handlePersonSearch_resume r st) = false) as Hload.
    { unfold handlePersonSearch_resume. destruct r as [|[] data];
        [by destruct st| |].
      - destruct (transformIndividuals data); by destruct st.
      - destruct (getProp data "error"); by destruct st. }
    split; [exact Hload|]. split.
    + intros recs Hrecs. destruct r as [|[] data]; try discriminate.
      simpl in Hrecs. unfold handlePersonSearch_resume. rewrite Hrecs.
      by destruct st.
    + intros Hnone.
      assert (personResults (handlePersonSearch_resume r st) = personResults st
              /\ personError (handlePersonSearch_resume r st)
                 = failureMessage "Person search failed" r) as [Hres Herr].
      { unfold handlePersonSearch_resume, failureMessage.
        destruct r as [|[] data]; [by destruct st| |].
        - simpl in Hnone. rewrite Hnone. by destruct st.
        - destruct (getProp data "error"); by destruct st. }
      split; [exact Hres|]. split; [exact Herr|].
      rewrite Herr. by apply truthy_failureMessage.
Qed.

Lemma resume_frame k r st :
  rowCells (resume k r st) = rowCells st
  /\ match k with
     | CompanySearchK =>
         personLane (resume k r st) = personLane st
         /\ reportLane (resume k r st) = reportLane st
     | PersonSearchK =>
         companyLane (resume k r st) = companyLane st
         /\ reportLane (resume k r st) = reportLane st
     | ReportK =>
         companyLane (resume k r st) = companyLane st
         /\ personLane (resume k r st) = personLane st
     end.
Proof.
  destruct k; simpl.
  - unfold handleCompanySearch_resume. destruct r as [|[] data].
    + by destruct st.
    + destruct (transformCompanies data); by destruct st.
    + destruct (getProp data "error"); by destruct st.
  - unfold handlePersonSearch_resume. destruct r as [|[] data].
    + by destruct st.
    + destruct (transformIndividuals data); by destruct st.
    + destruct (getProp data "error"); by destruct st.
  - unfold generateReport_resume. destruct r as [|[] data].
    + by destruct st.
    + by destruct st.
    + destruct (getProp data "error"); by destruct st.
Qed.

Lemma submit_frame st :
  (let s := fst (handleCompanySearch st) in
   personLane s = personLane st /\ reportLane s = reportLane st
   /\ rowCells s = rowCells st
   /\ companyQuery s = companyQuery st /\ companyResults s = companyResults st)
  /\ (let s := fst (handlePersonSearch st) in
      companyLane s = companyLane st /\ reportLane s = reportLane st
      /\ rowCells s = rowCells st
      /\ personQuery s = personQuery st /\ personResults s = personResults st).
Proof.
  unfold handleCompanySearch, handlePersonSearch. split.
  - destruct (negb (truthy (JStr (trim (companyQuery st))))); by destruct st.
  - destruct (negb (truthy (JStr (trim (personQuery st))))); by destruct st.
Qed.

(** X2. The three lanes do not interfere.  A submit changes only its own
    lane's loading and error cells: the results of an earlier search stay
    on screen while the next one loads.  A settled request changes only
    the cells of its own lane.  No search or report handler touches the
    expansion index or the statements modal. *)
Theorem lanes_do_not_interfere
    (k : Continuation) (r : FetchResult) (personName companyName : JsVal)
    (st : State) :
  (rowCells (resume k r st) = rowCells st
   /\ match k with
      | CompanySearchK =>
          personLane (resume k r st) = personLane st
          /\ reportLane (resume k r st) = reportLane st
      | PersonSearchK =>
          companyLane (resume k r st) = companyLane st
          /\ reportLane (resume k r st) = reportLane st
      | ReportK =>
          companyLane (resume k r st) = companyLane st
          /\ personLane (resume k r st) = personLane st
      end)
  /\ (let s := fst (handleCompanySearch st) in
      personLane s = personLane st /\ reportLane s = reportLane st
      /\ rowCells s = rowCells st
      /\ companyQuery s = companyQuery st /\ companyResults s = companyResults st)
  /\ (let s := fst (handlePersonSearch st) in
      companyLane s = companyLane st /\ reportLane s = reportLane st
      /\ rowCells s = rowCells st
      /\ personQuery s = personQuery st /\ personResults s = personResults st)
  /\ (let s := fst (generateReport personName companyName st) in
      companyLane s = companyLane st /\ personLane s = personLane st
      /\ rowCells s = rowCells st
      /\ reportData s = reportData st /\ showReport s = showReport st).
Proof.
  split; [apply resume_frame|]. destruct (submit_frame st) as [Hc Hp].
  split; [exact Hc|]. split; [exact Hp|]. by destruct st.
Qed.

End Outcomes.

(* ===================================================================== *)
(** ** Requests in flight and the loading flags *)
(* ===================================================================== *)

Lemma filter_delete_length {A} (P : A -> bool) (l : list A) (i : nat) (x : A) :
  l !! i = Some x ->
  length (filter (fun y => P y = true) l)
  = (length (filter (fun y => P y = true) (delete i l))
     + (if P x then 1 else 0))%nat.
Proof.
  revert i. induction l as [|y l IH]; intros i Hi; [by rewrite lookup_nil in Hi|].
  destruct i as [|i]; simpl in Hi.
  - injection Hi as ->. simpl. destruct (P x) eqn:Hx.
    + rewrite filter_cons_True by done. simpl. lia.
    + rewrite filter_cons_False by congruence. lia.
  - simpl. specialize (IH _ Hi). destruct (P y) eqn:Hy.
    + rewrite !filter_cons_True by done. simpl. lia.
    + rewrite !filter_cons_False by congruence. lia.
Qed.

Section InFlight.
Context {rt : JsRuntime}.

Lemma awaiting_same kind st st' fl :
  awaiting kind (mkWorld st fl) = awaiting kind (mkWorld st' fl).
Proof. done. Qed.

(** What a handler does to the count of awaited requests. *)
Lemma awaiting_issue kind k w out :
  awaiting kind (issue k w out)
  = (awaiting kind w + (if kind k then length (snd out) else 0))%nat.
Proof.
  unfold awaiting, issue. simpl. rewrite filter_app, length_app. f_equal.
  induction (snd out) as [|rq rqs IH]; simpl; [by destruct (kind k)|].
  destruct (kind k) eqn:Hk.
  - rewrite filter_cons_True by done. simpl. by rewrite IH.
  - rewrite filter_cons_False by (simpl; congruence). exact IH.
Qed.

Lemma handleKeyDown_requests key searchType st :
  (length (snd (handleKeyDown key searchType st)) <= 1)%nat.
Proof.
  unfold handleKeyDown, handleCompanySearch, handlePersonSearch.
  repeat case_bool_decide; simpl; try lia;
    match goal with |- context [negb ?b] => destruct b end; simpl; lia.
Qed.

Lemma personCard_shape loading result index card :
  personCard loading result index = Some card ->
  card_key card = index /\ card_report_disabled card = loading.
Proof. unfold personCard. intros H. by simplify_option_eq. Qed.

(** A person card is disabled exactly while a report loads. *)
Lemma personCardAt_disabled st index result card :
  personCardAt st index = Some (result, card) ->
  card_report_disabled card = reportLoading st.
Proof.
  unfold personCardAt. intros Hat.
  destruct (personResults st !! index); simpl in Hat; [|discriminate].
  destruct (renderIndividualResults st) as [cards|] eqn:Hcards;
    simpl in Hat; [|discriminate].
  destruct (cards !! index) as [c|] eqn:Hc; simpl in Hat; [|discriminate].
  injection Hat as _ ->.
  unfold renderIndividualResults in Hcards.
  destruct (mapWithIndex_lookup _ _ _ _ Hcards) as [_ Hnth].
  destruct (Hnth _ _ Hc) as (res & _ & Hcard).
  by apply personCard_shape in Hcard as [_ ->].
Qed.

Lemma reportLoading_resume_report r st :
  reportLoading (generateReport_resume r st) = false.
Proof.
  unfold generateReport_resume.
  destruct r as [|[] data]; [by destruct st|by destruct st|].
  destruct (getProp data "error"); by destruct st.
Qed.

(** The report lane before and after one event. *)
Lemma report_flight_step w e :
  awaiting isReportK w = (if reportLoading (ui w) then 1 else 0)%nat ->
  awaiting isReportK (step w e)
  = (if reportLoading (ui (step w e)) then 1 else 0)%nat.
Proof.
  destruct w as [st fl]. intros Hw.
  destruct (submit_frame st) as [(_ & Hc & _) (_ & Hp & _)].
  injection Hc as _ Hc _ _. injection Hp as _ Hp _ _.
  destruct e; simpl in *.
  - by destruct st.
  - by destruct st.
  - rewrite awaiting_issue. simpl. rewrite Nat.add_0_r, Hw.
    unfold handleKeyDown. repeat case_bool_decide; simpl; by rewrite ?Hc, ?Hp.
  - rewrite awaiting_issue. simpl. rewrite Nat.add_0_r, Hw.
    unfold handleKeyDown. repeat case_bool_decide; simpl; by rewrite ?Hc, ?Hp.
  - destruct (companyLoading st); [done|].
    rewrite awaiting_issue. simpl. rewrite Nat.add_0_r, Hw. by rewrite ?Hc, ?Hp.
  - destruct (personLoading st); [done|].
    rewrite awaiting_issue. simpl. rewrite Nat.add_0_r, Hw. by rewrite ?Hc, ?Hp.
  - destruct (visibleCompanyRows st); [|done]. case_bool_decide; [|done].
    unfold toggleCompanyRow. by destruct st.
  - destruct (expandedProfileAt st index) as [[result profile]|]; [|done].
    destruct (profile_financials_button profile); [|done]. by destruct st.
  - destruct (personCardAt st index) as [[result card]|]; [|done].
    destruct (card_financials_button card); [|done]. by destruct st.
  - destruct (truthy (selectedCompany st) && showFinancialStatements st);
      [|done].
    by destruct st.
  - destruct (personCardAt st index) as [[result card]|] eqn:Hat; [|done].
    rewrite (personCardAt_disabled _ _ _ _ Hat).
    destruct (reportLoading st) eqn:Hload; [simpl; by rewrite Hload|].
    rewrite awaiting_issue. simpl. rewrite Hw. by destruct st.
  - destruct (if showReport st then renderReport st else Some None)
      as [[modal|]|]; [|done|done].
    unfold closeReport. by destruct st.
  - destruct (fl !! i) as [[k rq]|] eqn:Hi; [|done].
    unfold awaiting in *. simpl in *.
    rewrite (filter_delete_length (fun p => isReportK (fst p)) _ _ _ Hi) in Hw.
    simpl in Hw. destruct (resume_frame k r st) as [_ Hframe].
    destruct k; simpl in Hw.
    + destruct Hframe as [_ Hr]. injection Hr as _ Hr _ _.
      unfold resume in *. rewrite Hr. lia.
    + destruct Hframe as [_ Hr]. injection Hr as _ Hr _ _.
      unfold resume in *. rewrite Hr. lia.
    + simpl. rewrite reportLoading_resume_report.
      destruct (reportLoading st); lia.
Qed.

(** X3. A single report is in flight at a time: in every world the
    component reaches, one report request is awaited while
    [reportLoading] is set and none otherwise, because the only way to
    issue one is the card's button, disabled while a report loads. *)
Theorem one_report_in_flight (w : World) :
  reachable w ->
  awaiting isReportK w = (if reportLoading (ui w) then 1 else 0)%nat.
Proof.
  induction 1 as [|w e _ IH]; [done|]. by apply report_flight_step.
Qed.

End InFlight.

Section Loading.
Context {rt : JsRuntime}.

Lemma companyLoading_resume r st :
  companyLoading (handleCompanySearch_resume r st) = false.
Proof.
  unfold handleCompanySearch_resume. destruct r as [|[] data]; [by destruct st| |].
  - destruct (transformCompanies data); by destruct st.
  - destruct (getProp data "error"); by destruct st.
Qed.

Lemma personLoading_resume r st :
  personLoading (handlePersonSearch_resume r st) = false.
Proof.
  unfold handlePersonSearch_resume. destruct r as [|[] data]; [by destruct st| |].
  - destruct (transformIndividuals data); by destruct st.
  - destruct (getProp data "error"); by destruct st.
Qed.

Lemma handleCompanySearch_loading st :
  companyLoading (fst (handleCompanySearch st)) = true ->
  companyLoading st = true \/ length (snd (handleCompanySearch st)) = 1%nat.
Proof.
  unfold handleCompanySearch.
  destruct (negb (truthy (JStr (trim (companyQuery st))))); simpl.
  - left. by destruct st.
  - by right.
Qed.

Lemma handlePersonSearch_loading st :
  personLoading (fst (handlePersonSearch st)) = true ->
  personLoading st = true \/ length (snd (handlePersonSearch st)) = 1%nat.
Proof.
  unfold handlePersonSearch.
  destruct (negb (truthy (JStr (trim (personQuery st))))); simpl.
  - left. by destruct st.
  - by right.
Qed.

Lemma loadingAwaits_step w e : loadingAwaits w -> loadingAwaits (step w e).
Proof.
  destruct w as [st fl]. intros [Hc Hp]. unfold loadingAwaits in *.
  destruct (submit_frame st) as [(Fcp & _) (Fpc & _)].
  injection Fcp as _ _ Fcp _. injection Fpc as _ _ Fpc _.
  destruct e; simpl in *.
  - by destruct st.
  - by destruct st.
  - unfold handleKeyDown. case_bool_decide;
      [|rewrite !awaiting_issue; simpl; rewrite !Nat.add_0_r; by split].
    rewrite bool_decide_eq_true_2 by done.
    rewrite !awaiting_issue. simpl. rewrite Fcp. split; [|intros Hl; specialize (Hp Hl); lia].
    intros [Hl| ->]%handleCompanySearch_loading; [specialize (Hc Hl)|]; lia.
  - unfold handleKeyDown. case_bool_decide;
      [|rewrite !awaiting_issue; simpl; rewrite !Nat.add_0_r; by split].
    rewrite bool_decide_eq_false_2 by done.
    rewrite !awaiting_issue. simpl. rewrite Fpc. split; [intros Hl; specialize (Hc Hl); lia|].
    intros [Hl| ->]%handlePersonSearch_loading; [specialize (Hp Hl)|]; lia.
  - destruct (companyLoading st) eqn:Hload; [simpl; by rewrite Hload|].
    rewrite !awaiting_issue. simpl. rewrite Fcp. split; [|intros Hl; specialize (Hp Hl); lia].
    intros [Hl| ->]%handleCompanySearch_loading; [congruence|lia].
  - destruct (personLoading st) eqn:Hload; [simpl; by rewrite Hload|].
    rewrite !awaiting_issue. simpl. rewrite Fpc. split; [intros Hl; specialize (Hc Hl); lia|].
    intros [Hl| ->]%handlePersonSearch_loading; [congruence|lia].
  - destruct (visibleCompanyRows st); [|done]. case_bool_decide; [|done].
    unfold toggleCompanyRow. by destruct st.
  - destruct (expandedProfileAt st index) as [[result profile]|]; [|done].
    destruct (profile_financials_button profile); [|done]. by destruct st.
  - destruct (personCardAt st index) as [[result card]|]; [|done].
    destruct (card_financials_button card); [|done]. by destruct st.
  - destruct (truthy (selectedCompany st) && showFinancialStatements st);
      [|done].
    by destruct st.
  - destruct (personCardAt st index) as [[result card]|]; [|done].
    destruct (card_report_disabled card); [done|].
    rewrite !awaiting_issue. simpl. rewrite !Nat.add_0_r. by destruct st.
  - destruct (if showReport st then renderReport st else Some None)
      as [[modal|]|]; [|done|done].
    unfold closeReport. by destruct st.
  - destruct (fl !! i) as [[k rq]|] eqn:Hi; [|done].
    unfold awaiting in *. simpl in *.
    rewrite (filter_delete_length (fun p => isCompanySearchK (fst p)) _ _ _ Hi) in Hc.
    rewrite (filter_delete_length (fun p => isPersonSearchK (fst p)) _ _ _ Hi) in Hp.
    simpl in Hc, Hp. destruct (resume_frame k r st) as [_ Hframe].
    unfold resume in *. destruct k; simpl in Hc, Hp.
    + rewrite companyLoading_resume. destruct Hframe as [Hr _].
      injection Hr as _ _ Hr _. rewrite Hr. split; [done|].
      intros Hl. specialize (Hp Hl). lia.
    + rewrite personLoading_resume. destruct Hframe as [Hr _].
      injection Hr as _ _ Hr _. rewrite Hr. split; [|done].
      intros Hl. specialize (Hc Hl). lia.
    + destruct Hframe as [Hr1 Hr2]. injection Hr1 as _ _ Hr1 _.
      injection Hr2 as _ _ Hr2 _. rewrite Hr1, Hr2.
      split; intros Hl; [specialize (Hc Hl)|specialize (Hp Hl)]; lia.
Qed.

(** X4. A search lane that shows its loading state has a request in
    flight: in every world the component reaches, [companyLoading] set
    means a company search is awaited, and [personLoading] set means a
    person search is awaited.  A disabled search button is never stuck
    without a pending response. *)
Theorem loading_means_request_in_flight (w : World) :
  reachable w ->
  (companyLoading (ui w) = true -> (0 < awaiting isCompanySearchK w)%nat)
  /\ (personLoading (ui w) = true -> (0 < awaiting isPersonSearchK w)%nat).
Proof.
  induction 1 as [|w e _ IH]; [by split|]. by apply loadingAwaits_step.
Qed.

Lemma reachable_run w es : reachable w -> reachable (run w es).
Proof.
  revert w. induction es as [|e es IH]; intros w Hw; [done|].
  apply IH. by constructor.
Qed.

End Loading.

Section ReportModal.
Context {rt : JsRuntime}.

Lemma closedHoldsNothing_step w e :
  (showReport (ui w) = false -> reportData (ui w) = JNull) ->
  showReport (ui (step w e)) = false -> reportData (ui (step w e)) = JNull.
Proof.
  destruct w as [st fl]. intros Hw.
  destruct (submit_frame st) as [(_ & Hc & _) (_ & Hp & _)].
  injection Hc as Hc1 _ _ Hc2. injection Hp as Hp1 _ _ Hp2.
  destruct e; simpl in *.
  - by destruct st.
  - by destruct st.
  - unfold handleKeyDown. repeat case_bool_decide; simpl; by rewrite ?Hc1, ?Hc2.
  - unfold handleKeyDown. repeat case_bool_decide; simpl; by rewrite ?Hp1, ?Hp2.
  - destruct (companyLoading st); [done|]. simpl. by rewrite Hc1, Hc2.
  - destruct (personLoading st); [done|]. simpl. by rewrite Hp1, Hp2.
  - destruct (visibleCompanyRows st); [|done]. case_bool_decide; [|done].
    unfold toggleCompanyRow. by destruct st.
  - destruct (expandedProfileAt st index) as [[result profile]|]; [|done].
    destruct (profile_financials_button profile); [|done]. by destruct st.
  - destruct (personCardAt st index) as [[result card]|]; [|done].
    destruct (card_financials_button card); [|done]. by destruct st.
  - destruct (truthy (selectedCompany st) && showFinancialStatements st);
      [|done].
    by destruct st.
  - destruct (personCardAt st index) as [[result card]|]; [|done].
    destruct (card_report_disabled card); [done|]. by destruct st.
  - destruct (if showReport st then renderReport st else Some None)
      as [[modal|]|]; [|done|done].
    unfold closeReport. by destruct st.
  - destruct (fl !! i) as [[k rq]|] eqn:Hi; [|done]. simpl.
    destruct (resume_frame k r st) as [_ Hframe]. unfold resume in *.
    destruct k.
    + destruct Hframe as [_ Hr]. injection Hr as -> _ _ ->. exact Hw.
    + destruct Hframe as [_ Hr]. injection Hr as -> _ _ ->. exact Hw.
    + unfold generateReport_resume. destruct r as [|[] data].
      * by destruct st.
      * by destruct st.
      * destruct (getProp data "error"); by destruct st.
Qed.

(** X5. A closed report modal holds no report: in every world the
    component reaches, [reportData] is null whenever [showReport] is
    unset, and [renderReport] then has nothing to render. *)
Theorem closed_modal_holds_no_report (w : World) :
  reachable w ->
  showReport (ui w) = false ->
  reportData (ui w) = JNull /\ renderReport (ui w) = Some None.
Proof.
  intros Hw Hclosed.
  assert (reportData (ui w) = JNull) as Hnull.
  { revert Hclosed. induction Hw as [|w e _ IH]; [done|].
    by apply closedHoldsNothing_step. }
  split; [done|]. unfold renderReport. by rewrite Hnull.
Qed.

End ReportModal.

(* ===================================================================== *)
(** ** What React accepts *)
(* ===================================================================== *)

Lemma validChild_falsy v : truthy v = false -> validChild v = true.
Proof. by destruct v. Qed.

Lemma coercible_falsy v : truthy v = false -> coercible v = true.
Proof. by destruct v. Qed.

(** A fallback that is a string or [null] is always accepted: [x || s]
    is accepted exactly when [x] is. *)
Lemma validChild_or_str x s : validChild (or_else x (JStr s)) = validChild x.
Proof.
  unfold or_else. destruct (truthy x) eqn:Hx; [done|].
  by rewrite (validChild_falsy x).
Qed.

Lemma validChild_or_null x : validChild (or_else x JNull) = validChild x.
Proof.
  unfold or_else. destruct (truthy x) eqn:Hx; [done|].
  by rewrite (validChild_falsy x).
Qed.

Lemma coercible_or_str x s : coercible (or_else x (JStr s)) = coercible x.
Proof.
  unfold or_else. destruct (truthy x) eqn:Hx; [done|].
  by rewrite (coercible_falsy x).
Qed.

Lemma childIfAny_whenTruthy x : childIfAny (whenTruthy x x) = validChild x.
Proof.
  unfold whenTruthy. destruct (truthy x) eqn:Hx; [done|].
  simpl. by rewrite (validChild_falsy x).
Qed.

Section Mounting.
Context {rt : JsRuntime}.

(** A company record, field by field. *)
Lemma companyRecord_lookups entry record :
  companyRecord entry = Some record ->
  exists m,
    record = JObj m
    /\ m !! "name"%string = Some (fieldOf entry "name")
    /\ m !! "title"%string = Some (JStr (lit "Company"))
    /\ m !! "company"%string = Some (fieldOf entry "name")
    /\ m !! "estimated_net_worth"%string
       = Some (JStr (lit "Company Data Available"))
    /\ m !! "linkedin_url"%string
       = Some (or_else (fieldOf entry "linkedin_url") (JStr (lit "#")))
    /\ m !! "company_info"%string
       = Some (obj [("industry",
                     or_else (fieldOf entry "industry") (JStr (lit "Unknown")));
                    ("revenue",
                     or_else (fieldOf entry "estimated_revenue")
                             (JStr (lit "Unknown")));
                    ("employees",
                     or_else (fieldOf entry "employee_count")
                             (JStr (lit "Unknown")))])
    /\ m !! "ceo_name"%string = Some (or_else (fieldOf entry "ceo") JNull)
    /\ m !! "ticker"%string = Some (or_else (fieldOf entry "ticker") JNull)
    /\ m !! "executives"%string = None.
Proof.
  intros Hrecord.
  destruct entry; try discriminate; injection Hrecord as <-.
  all: eexists; (split; [reflexivity|]); repeat (split; [reflexivity|]).
  all: reflexivity.
Qed.

Lemma getCEOName_shown entry record :
  companyRecord entry = Some record ->
  getCEOName record
  = Some (or_else (or_else (fieldOf entry "ceo") JNull) (JStr (lit "Unknown"))).
Proof.
  intros Hrecord.
  destruct (companyRecord_lookups _ _ Hrecord)
    as (m & -> & _ & _ & _ & _ & _ & _ & Hceo & _ & Hex).
  unfold getCEOName. cbn [getProp]. rewrite Hceo, Hex. cbn.
  set (c := or_else (fieldOf entry "ceo") JNull).
  unfold or_else. by destruct (truthy c).
Qed.

Lemma companyInfoBlock_literal m industry revenue employees :
  m !! "company_info"%string
  = Some (obj [("industry", industry); ("revenue", revenue);
               ("employees", employees)]) ->
  companyInfoBlock (JObj m) = Some (Some (industry, revenue, employees)).
Proof. intros Hm. unfold companyInfoBlock. cbn [getProp]. by rewrite Hm. Qed.

(** What React is handed for the row of a company record: the values of
    six fields of the entry in child position, and its [linkedin_url] as
    an attribute when the row is expanded. *)
Lemma companyRow_mounts entry record expanded index row :
  companyRecord entry = Some record ->
  companyRow expanded record index = Some row ->
  rowMounts row
  = if bool_decide (expanded = Some index)
    then validChild (fieldOf entry "name")
         && validChild (fieldOf entry "ticker")
         && validChild (fieldOf entry "ceo")
         && validChild (fieldOf entry "industry")
         && validChild (fieldOf entry "estimated_revenue")
         && validChild (fieldOf entry "employee_count")
         && validAttribute (fieldOf entry "linkedin_url")
    else validChild (fieldOf record "name")
         && validChild (fieldOf record "ticker")
         && validChild (fieldOf record "ceo_name").
Proof.
  intros Hrecord Hrow.
  pose proof (getCEOName_shown _ _ Hrecord) as Hceo.
  destruct (companyRecord_lookups _ _ Hrecord)
    as (m & -> & Hname & Htitle & Hcompany & Hworth & Hurl & Hinfo & Hc & Ht & _).
  unfold companyRow in Hrow. rewrite Hceo in Hrow.
  unfold hasErrors in Hrow. cbn [getProp mbind option_bind] in Hrow.
  rewrite Hname, Ht in Hrow. cbn [default mbind option_bind] in Hrow.
  destruct (bool_decide (expanded = Some index)) eqn:Hexp.
  - unfold companyProfile in Hrow.
    cbn [getProp mbind option_bind fmap option_fmap option_map] in Hrow.
    rewrite Hname, Ht, Htitle, Hcompany, Hworth, Hurl in Hrow.
    cbn [default mbind option_bind] in Hrow.
    rewrite (companyInfoBlock_literal _ _ _ _ Hinfo) in Hrow.
    unfold showsFinancialsButton in Hrow.
    cbn [getProp mbind option_bind] in Hrow.
    rewrite Hcompany in Hrow. cbn [default mbind option_bind] in Hrow.
    destruct (renderStatusMessage _ (lit "SEC EDGAR")) as [m1|];
      [|discriminate]. cbn [mbind option_bind] in Hrow.
    destruct (renderStatusMessage _ (lit "LinkedIn")) as [m2|];
      [|discriminate]. cbn [mbind option_bind] in Hrow.
    destruct (renderStatusMessage _ (lit "Company Research")) as [m3|];
      [|discriminate].
    cbn [mbind option_bind fmap option_fmap option_map] in Hrow.
    injection Hrow as <-.
    unfold rowMounts, profileMounts, infoMounts, validAttribute.
    cbn [row_name row_ticker row_ceo row_profile from_option
         profile_name profile_ticker profile_title profile_company
         profile_net_worth profile_linkedin_href profile_company_info forallb].
    rewrite !childIfAny_whenTruthy, !validChild_or_str, !validChild_or_null,
      coercible_or_str.
    change (validChild (JStr ?s)) with true.
    destruct (validChild (fieldOf entry "name")),
      (validChild (fieldOf entry "ticker")),
      (validChild (fieldOf entry "ceo")),
      (validChild (fieldOf entry "industry")),
      (validChild (fieldOf entry "estimated_revenue")),
      (validChild (fieldOf entry "employee_count")),
      (coercible (fieldOf entry "linkedin_url")); reflexivity.
  - cbn [mbind option_bind] in Hrow. injection Hrow as <-.
    assert (fieldOf (JObj m) "name" = fieldOf entry "name") as ->
      by (unfold fieldOf at 1; cbn [getProp]; by rewrite Hname).
    assert (fieldOf (JObj m) "ticker" = or_else (fieldOf entry "ticker") JNull)
      as -> by (unfold fieldOf at 1; cbn [getProp]; by rewrite Ht).
    assert (fieldOf (JObj m) "ceo_name" = or_else (fieldOf entry "ceo") JNull)
      as -> by (unfold fieldOf at 1; cbn [getProp]; by rewrite Hc).
    unfold rowMounts.
    cbn [row_name row_ticker row_ceo row_profile from_option].
    rewrite !childIfAny_whenTruthy, !validChild_or_str, !validChild_or_null.
    by rewrite andb_true_r.
Qed.

(** A person record, field by field. *)
Lemma personRecord_lookups entry record :
  personRecord entry = Some record ->
  exists m,
    record = JObj m
    /\ m !! "name"%string = Some (fieldOf entry "name")
    /\ m !! "title"%string
       = Some (or_else (fieldOf entry "title") (JStr (lit "Business Executive")))
    /\ m !! "company"%string
       = Some (or_else (fieldOf entry "company") (JStr (lit "Various")))
    /\ m !! "estimated_net_worth"%string
       = Some (or_else (fieldOf entry "estimated_net_worth")
                       (JStr (lit "Confidential")))
    /\ m !! "linkedin_url"%string
       = Some (or_else (fieldOf entry "linkedin_url") (JStr (lit "#")))
    /\ m !! "linkedin_note"%string = None
    /\ m !! "company_info"%string
       = Some (obj [("industry", JStr (lit "Technology"));
                    ("revenue", JStr (lit "Confidential"));
                    ("employees", JStr (lit "N/A"))])
    /\ m !! "financial_opportunities"%string
       = Some (strs ["Personal Wealth Management"; "Tax Planning";
                     "Investment Advisory"])
    /\ m !! "conversation_starters"%string
       = Some (strs ["Recent business developments";
                     "Industry leadership insights";
                     "Strategic planning opportunities"])
    /\ m !! "planning_needs"%string
       = Some (strs ["Estate Planning"; "Retirement Planning";
                     "Risk Management"])
    /\ m !! "recent_news"%string = Some (JArr []).
Proof.
  intros Hrecord.
  destruct entry; try discriminate; injection Hrecord as <-.
  all: eexists; (split; [reflexivity|]); repeat (split; [reflexivity|]).
  all: reflexivity.
Qed.

(** What React is handed for the card of a person record: four fields of
    the record in child position and its [linkedin_url] as an attribute.
    Everything else on the card is a literal of the source. *)
Lemma personCard_mounts entry record loading index card :
  personRecord entry = Some record ->
  personCard loading record index = Some card ->
  cardMounts card
  = validChild (fieldOf record "name")
    && validChild (fieldOf record "title")
    && validChild (fieldOf record "company")
    && validChild (fieldOf record "estimated_net_worth")
    && validAttribute (fieldOf record "linkedin_url").
Proof.
  intros Hrecord Hcard.
  destruct (personRecord_lookups _ _ Hrecord)
    as (m & -> & Hname & Htitle & Hcompany & Hworth & Hurl & Hnote & Hinfo
        & Hopp & Hstart & Hneeds & Hnews).
  unfold personCard in Hcard.
  rewrite (companyInfoBlock_literal _ _ _ _ Hinfo) in Hcard.
  unfold showsFinancialsButton in Hcard.
  cbn [getProp mbind option_bind] in Hcard.
  rewrite Hname, Htitle, Hcompany, Hworth, Hurl, Hnote, Hopp, Hstart, Hneeds,
    Hnews in Hcard.
  cbn [default mbind option_bind] in Hcard.
  unfold strs, arrayOf, forEachEntries in Hcard.
  cbn [truthy mapM mbind option_bind mret option_ret length Z.of_nat Z.ltb
       Z.compare fmap option_fmap option_map] in Hcard.
  injection Hcard as <-.
  unfold fieldOf. cbn [getProp default].
  rewrite Hname, Htitle, Hcompany, Hworth, Hurl. cbn [default].
  unfold cardMounts, infoMounts, validAttribute.
  cbn [card_name card_title card_company card_net_worth card_linkedin_href
       card_linkedin_note card_company_info card_opportunities card_starters
       card_needs card_news whenTruthy truthy childIfAny from_option
       forallb map].
  change (validChild (JStr ?s)) with true. cbn [andb].
  by rewrite !andb_true_r.
Qed.

End Mounting.

(* ===================================================================== *)
(** ** Rows and cards of transformer records *)
(* ===================================================================== *)

Section RowsAndCards.
Context {rt : JsRuntime}.

Lemma companyRecord_ceo entry record ceo :
  companyRecord entry = Some record ->
  getProp entry "ceo" = Some ceo ->
  exists m, record = JObj m
    /\ m !! "ceo_name"%string = Some (or_else ceo JNull)
    /\ m !! "executives"%string = None.
Proof.
  intros Hrecord Hceo.
  destruct entry; try discriminate; injection Hrecord as <-;
    injection Hceo as <-; eexists;
    (split; [reflexivity|split; reflexivity]).
Qed.

(** X6. The CEO shown for a company record is the entry's [ceo] when it is
    truthy and "Unknown" otherwise.  The record carries no [executives]
    field, so the search through the executives never runs for a search
    result, whatever executives the entry lists. *)
Theorem ceo_shown_is_entry_ceo_or_unknown (entry record ceo : JsVal) :
  companyRecord entry = Some record ->
  getProp entry "ceo" = Some ceo ->
  getCEOName record = Some (or_else ceo (JStr (lit "Unknown")))
  /\ getProp record "executives" = Some JUndefined.
Proof.
  intros Hrecord Hceo.
  destruct (companyRecord_ceo _ _ _ Hrecord Hceo) as (m & -> & Hname & Hex).
  split; [|simpl; by rewrite Hex].
  unfold getCEOName. cbn [getProp]. rewrite Hname, Hex. cbn.
  unfold or_else. destruct (truthy ceo) eqn:Ht; simpl; by rewrite ?Ht.
Qed.

Lemma filterCompanyTitle_records results :
  Forall isCompanyRecord results -> filterCompanyTitle results = Some results.
Proof.
  induction 1 as [|r results [entry Hr] _ IH]; [done|]. simpl.
  assert (getProp r "title" = Some (JStr (lit "Company"))) as ->.
  { destruct entry; try discriminate; by injection Hr as <-. }
  simpl. rewrite IH. simpl. done.
Qed.

Lemma companyRow_name expanded result index row :
  companyRow expanded result index = Some row ->
  getProp result "name" = Some (row_name row)
  /\ getCEOName result = Some (row_ceo row).
Proof. unfold companyRow. intros H. by simplify_option_eq. Qed.

Lemma mapWithIndex_total {A} (f : JsVal -> nat -> option A) results index :
  (forall n result, results !! n = Some result ->
     is_Some (f result (index + n)%nat)) ->
  is_Some (mapWithIndex f results index).
Proof.
  revert index. induction results as [|r results IH]; intros index Hf; [by eexists|].
  simpl. destruct (Hf 0%nat r eq_refl) as [x Hx].
  rewrite Nat.add_0_r in Hx. rewrite Hx. simpl.
  destruct (IH (S index)) as [xs Hxs].
  - intros n result Hn. specialize (Hf (S n) result Hn).
    by replace (S index + n)%nat with (index + S n)%nat by lia.
  - rewrite Hxs. by eexists.
Qed.

(** X7. Every company result gets its row, in order: in every world the
    component reaches, the title filter drops nothing, the list of rows
    is as long as the result list, and the row at each position shows the
    name of the result at that position.  With no row expanded the
    component builds the list without a throw, and React accepts the row
    at a position exactly when the [name], [ticker] and [ceo_name] of the
    result at that position hold no plain object, alone or inside an
    array: such a value in child position fails the render. *)
Theorem every_company_result_has_its_row (w : World) :
  reachable w ->
  (forall rows, renderCompanyRows (ui w) = Some rows ->
     length rows = length (companyResults (ui w))
     /\ forall n row, rows !! n = Some row ->
          exists result, companyResults (ui w) !! n = Some result
            /\ getProp result "name" = Some (row_name row))
  /\ (expandedCompanyIndex (ui w) = None ->
      exists rows,
        renderCompanyRows (ui w) = Some rows
        /\ forall n row result,
             rows !! n = Some row ->
             companyResults (ui w) !! n = Some result ->
             rowMounts row
             = validChild (fieldOf result "name")
               && validChild (fieldOf result "ticker")
               && validChild (fieldOf result "ceo_name")).
Proof.
  intros Hw. apply reachable_holds_records in Hw as (Hrecords & _ & _).
  pose proof (filterCompanyTitle_records _ Hrecords) as Hfilter.
  unfold renderCompanyRows. rewrite Hfilter. simpl. split.
  - intros rows Hrows.
    destruct (mapWithIndex_lookup _ _ _ _ Hrows) as [Hlen Hnth].
    split; [done|]. intros n row Hn.
    destruct (Hnth _ _ Hn) as (result & Hresult & Hrow).
    exists result. split; [done|]. by apply companyRow_name in Hrow as [-> _].
  - intros Hnone. rewrite Hnone.
    rewrite Forall_forall in Hrecords.
    destruct (mapWithIndex_total (companyRow None) (companyResults (ui w)) 0)
      as [rows Hrows].
    { intros n result Hn. simpl.
      destruct (Hrecords result) as [entry Hentry];
        [by eapply list_elem_of_lookup_2|].
      by eapply companyRow_collapsed_total. }
    exists rows. split; [done|]. intros n row result Hn Hresult.
    destruct (mapWithIndex_lookup _ _ _ _ Hrows) as [_ Hnth].
    destruct (Hnth _ _ Hn) as (result' & Hresult' & Hrow).
    rewrite Hresult in Hresult'. injection Hresult' as <-.
    destruct (Hrecords result) as [entry Hentry];
      [by eapply list_elem_of_lookup_2|].
    by rewrite (companyRow_mounts _ _ _ _ _ Hentry Hrow).
Qed.

Lemma renderStatusMessage_throws status type :
  renderStatusMessage status type = None <-> falsyOrString status = false.
Proof.
  unfold renderStatusMessage, falsyOrString.
  destruct (truthy status) eqn:Ht; simpl; [|done].
  by destruct status.
Qed.

Lemma companyInfoBlock_object m : is_Some (companyInfoBlock (JObj m)).
Proof.
  unfold companyInfoBlock. simpl.
  destruct (truthy (default JUndefined (m !! "company_info"%string))) eqn:Ht;
    [|by eexists].
  destruct (default JUndefined (m !! "company_info"%string));
    try discriminate; by eexists.
Qed.

Lemma companyProfile_throws m :
  companyProfile (JObj m) = None
  <-> exists field, field ∈ statusFields
        /\ falsyOrString (default JUndefined (m !! field)) = false.
Proof.
  unfold companyProfile. cbn [getProp mbind option_bind].
  destruct (companyInfoBlock_object m) as [info Hinfo]. rewrite Hinfo.
  unfold showsFinancialsButton. cbn [getProp mbind option_bind].
  pose proof (renderStatusMessage_throws
                (default JUndefined (m !! "edgar_status"%string)) (lit "SEC EDGAR")) as H1.
  pose proof (renderStatusMessage_throws
                (default JUndefined (m !! "linkedin_status"%string)) (lit "LinkedIn")) as H2.
  pose proof (renderStatusMessage_throws
                (default JUndefined (m !! "companyresearch_status"%string))
                (lit "Company Research")) as H3.
  unfold statusFields. split.
  - intros Hnone.
    destruct (renderStatusMessage
                (default JUndefined (m !! "edgar_status"%string)) _) as [m1|];
      [|exists "edgar_status"%string; split; [rewrite !elem_of_cons; auto|by apply H1]].
    destruct (renderStatusMessage
                (default JUndefined (m !! "linkedin_status"%string)) _) as [m2|];
      [|exists "linkedin_status"%string;
        split; [rewrite !elem_of_cons; auto|by apply H2]].
    destruct (renderStatusMessage
                (default JUndefined (m !! "companyresearch_status"%string)) _) as [m3|];
      [discriminate|].
    exists "companyresearch_status"%string.
    split; [rewrite !elem_of_cons; auto|by apply H3].
  - intros (field & Hfield & Hbad).
    rewrite !elem_of_cons, elem_of_nil in Hfield.
    destruct Hfield as [->|[->|[->|[]]]].
    + apply H1 in Hbad. by rewrite Hbad.
    + apply H2 in Hbad. rewrite Hbad.
      by destruct (renderStatusMessage _ (lit "SEC EDGAR")).
    + apply H3 in Hbad. rewrite Hbad.
      destruct (renderStatusMessage _ (lit "SEC EDGAR")); [|done].
      by destruct (renderStatusMessage _ (lit "LinkedIn")).
Qed.

(** X8. The expanded row of a company record fails to render in three
    ways, and in no other.  The component itself throws exactly when one
    of the three status fields holds a truthy value that is not a string
    (a number, [true], an array or an object): [toLowerCase] is called on
    it.  When it does not throw, React accepts the row exactly when the
    entry's [name], [ticker], [ceo], [industry], [estimated_revenue] and
    [employee_count] hold no plain object, alone or inside an array, and
    its [linkedin_url] can be converted to a string for the [href]. *)
Theorem expanded_row_throws_on_non_string_status
    (entry record : JsVal) (index : nat) :
  companyRecord entry = Some record ->
  (companyRow (Some index) record index = None
   <-> exists field v, field ∈ statusFields
         /\ getProp record field = Some v /\ falsyOrString v = false)
  /\ (forall row,
        companyRow (Some index) record index = Some row ->
        rowMounts row
        = validChild (fieldOf entry "name")
          && validChild (fieldOf entry "ticker")
          && validChild (fieldOf entry "ceo")
          && validChild (fieldOf entry "industry")
          && validChild (fieldOf entry "estimated_revenue")
          && validChild (fieldOf entry "employee_count")
          && validAttribute (fieldOf entry "linkedin_url")).
Proof.
  intros Hrecord. split.
  - destruct (hasErrors_record _ _ Hrecord) as (errs & name & ticker & He & Hn & Ht).
    destruct (getCEOName_record _ _ Hrecord) as (ceo & Hceo).
    assert (exists m, record = JObj m) as [m ->]
      by (destruct entry; try discriminate; injection Hrecord as <-; by eexists).
    unfold companyRow. rewrite bool_decide_eq_true_2 by done.
    rewrite He, Hn, Ht, Hceo. cbn [mbind option_bind].
    pose proof (companyProfile_throws m) as Hprofile.
    split.
    + intros Hnone.
      destruct (companyProfile (JObj m)) as [profile|] eqn:Hp; [discriminate|].
      destruct (proj1 Hprofile eq_refl) as (field & Hfield & Hbad).
      exists field, (default JUndefined (m !! field)). by split.
    + intros (field & v & Hfield & Hv & Hbad). simpl in Hv. injection Hv as <-.
      rewrite (proj2 Hprofile); [done|]. by exists field.
  - intros row Hrow.
    rewrite (companyRow_mounts _ _ _ _ _ Hrecord Hrow).
    by rewrite bool_decide_eq_true_2.
Qed.

End RowsAndCards.

Section PersonCards.
Context {rt : JsRuntime}.

Lemma personCard_record entry record loading index :
  personRecord entry = Some record ->
  exists card,
    personCard loading record index = Some card
    /\ length (card_opportunities card) = 3%nat
    /\ length (card_starters card) = 3%nat
    /\ length (card_needs card) = 3%nat
    /\ card_news card = []
    /\ card_linkedin_note card = None
    /\ card_report_disabled card = loading.
Proof.
  intros Hrecord.
  destruct entry; try discriminate; injection Hrecord as <-;
    eexists; (split; [reflexivity|]);
    cbn [card_opportunities card_starters card_needs card_news
         card_linkedin_note card_report_disabled];
    repeat (split; [reflexivity|]); reflexivity.
Qed.

Lemma personCard_button loading result index card :
  personCard loading result index = Some card ->
  showsFinancialsButton result = Some (card_financials_button card).
Proof. unfold personCard. intros H. by simplify_option_eq. Qed.

Lemma showsFinancialsButton_person entry record company :
  personRecord entry = Some record ->
  getProp entry "company" = Some company ->
  showsFinancialsButton record
  = Some (truthy company && negb (strictEqStr company (lit "Various"))).
Proof.
  intros Hrecord Hcompany.
  assert (exists m, record = JObj m
            /\ m !! "company"%string
               = Some (or_else company (JStr (lit "Various")))) as (m & -> & Hm).
  { destruct entry; try discriminate; injection Hrecord as <-;
      injection Hcompany as <-; eexists; (split; reflexivity). }
  unfold showsFinancialsButton. cbn [getProp]. rewrite Hm. cbn.
  unfold or_else. destruct (truthy company) eqn:Ht; [by rewrite Ht|done].
Qed.

(** X9. In every world the component reaches, building the person cards
    throws nothing: there is one card per person result, each with three
    opportunities, three conversation starters and three planning needs,
    no news block and no LinkedIn note, and with its report button
    disabled exactly while a report is loading.  React accepts the card
    at a position exactly when the [name], [title], [company] and
    [estimated_net_worth] of the result at that position hold no plain
    object, alone or inside an array, and its [linkedin_url] can be
    converted to a string for the [href]. *)
Theorem person_cards_always_render (w : World) :
  reachable w ->
  exists cards,
    renderIndividualResults (ui w) = Some cards
    /\ length cards = length (personResults (ui w))
    /\ Forall (fun card =>
                 length (card_opportunities card) = 3%nat
                 /\ length (card_starters card) = 3%nat
                 /\ length (card_needs card) = 3%nat
                 /\ card_news card = []
                 /\ card_linkedin_note card = None
                 /\ card_report_disabled card = reportLoading (ui w))
              cards
    /\ forall n card result,
         cards !! n = Some card ->
         personResults (ui w) !! n = Some result ->
         cardMounts card
         = validChild (fieldOf result "name")
           && validChild (fieldOf result "title")
           && validChild (fieldOf result "company")
           && validChild (fieldOf result "estimated_net_worth")
           && validAttribute (fieldOf result "linkedin_url").
Proof.
  intros Hw. apply reachable_holds_records in Hw as (_ & Hrecords & _).
  rewrite Forall_forall in Hrecords.
  assert (forall n result, personResults (ui w) !! n = Some result ->
            forall index, exists card,
              personCard (reportLoading (ui w)) result index = Some card
              /\ length (card_opportunities card) = 3%nat
              /\ length (card_starters card) = 3%nat
              /\ length (card_needs card) = 3%nat
              /\ card_news card = []
              /\ card_linkedin_note card = None
              /\ card_report_disabled card = reportLoading (ui w)) as Hcard.
  { intros n result Hn index.
    destruct (Hrecords result) as [entry Hentry];
      [by eapply list_elem_of_lookup_2|].
    by apply (personCard_record entry). }
  unfold renderIndividualResults.
  destruct (mapWithIndex_total (personCard (reportLoading (ui w)))
              (personResults (ui w)) 0) as [cards Hcards].
  { intros n result Hn. destruct (Hcard n result Hn (0 + n)%nat) as (card & -> & _).
    by eexists. }
  exists cards. split; [done|].
  destruct (mapWithIndex_lookup _ _ _ _ Hcards) as [Hlen Hnth].
  split; [done|]. split.
  - apply Forall_forall. intros card Hin.
    apply list_elem_of_lookup in Hin as [n Hn].
    destruct (Hnth _ _ Hn) as (result & Hresult & Hrender).
    destruct (Hcard n result Hresult (0 + n)%nat) as (card' & Hrender' & Hprops).
    rewrite Hrender in Hrender'. by injection Hrender' as <-.
  - intros n card result Hn Hresult.
    destruct (Hnth _ _ Hn) as (result' & Hresult' & Hrender).
    rewrite Hresult in Hresult'. injection Hresult' as <-.
    destruct (Hrecords result) as [entry Hentry];
      [by eapply list_elem_of_lookup_2|].
    exact (personCard_mounts _ _ _ _ _ Hentry Hrender).
Qed.

Lemma personRecord_name entry record name :
  personRecord entry = Some record ->
  getProp entry "name" = Some name ->
  exists m, record = JObj m
    /\ m !! "name"%string = Some name
    /\ m !! "edgar_data"%string = None.
Proof.
  intros Hrecord Hname.
  destruct entry; try discriminate; injection Hrecord as <-;
    injection Hname as <-; eexists; (split; [reflexivity|split; reflexivity]).
Qed.

(** X10. The statements button of a person card is shown exactly when
    the entry names a company other than "Various", and it can only lead
    to the "no data" view: a person record carries no [edgar_data], so
    the modal shows the notice under the person's name ("Company" when
    the name is missing), whatever tab is set. *)
Theorem person_statements_are_always_no_data
    (entry record name company : JsVal) (loading : bool) (index : nat)
    (activeTab : jsstring) :
  personRecord entry = Some record ->
  getProp entry "name" = Some name ->
  getProp entry "company" = Some company ->
  (exists card,
     personCard loading record index = Some card
     /\ card_financials_button card
        = truthy company && negb (strictEqStr company (lit "Various")))
  /\ exists notice,
       FinancialStatements record activeTab
       = Some (NoFinancialData (or_else name (JStr (lit "Company"))) notice).
Proof.
  intros Hrecord Hname Hcompany. split.
  - destruct (personCard_record _ _ loading index Hrecord) as (card & H & _).
    exists card. split; [done|].
    apply personCard_button in H.
    rewrite (showsFinancialsButton_person _ _ _ Hrecord Hcompany) in H.
    by injection H.
  - destruct (personRecord_name _ _ _ Hrecord Hname) as (m & -> & Hn & Hed).
    unfold FinancialStatements. cbn [truthy negb getProp mbind option_bind].
    rewrite Hed, Hn. cbn. by eexists.
Qed.

End PersonCards.

(* ===================================================================== *)
(** ** The statement tables *)
(* ===================================================================== *)


(** The view does not depend on the tab beyond its buttons and panels. *)
Lemma FinancialStatements_retab company activeTab otherTab
    heading filing buttons content metrics :
  FinancialStatements company activeTab
    = Some (Statements heading filing buttons content metrics) ->
  exists buttons' content',
    FinancialStatements company otherTab
    = Some (Statements heading filing buttons' content' metrics).
Proof.
  unfold FinancialStatements.
  destruct (truthy company); simpl; [|discriminate].
  destruct (getProp company "edgar_data") as [edgar_data|]; simpl; [|discriminate].
  destruct (truthy edgar_data); simpl; [|discriminate].
  read_props. intros [= <- <- _ _ <-]. by eexists _, _.
Qed.




(** X12. A click on a tab button shows that tab and nothing else moves:
    the view rendered with the button's target has the same heading,
    filing date and metrics, exactly the clicked button active, and one
    table on screen. *)
Theorem clicked_tab_becomes_the_active_one
    (company : JsVal) (activeTab : jsstring)
    (heading filing : JsVal) (buttons : list TabButton)
    (content : list (option Table)) (metrics : list (jsstring * JsVal))
    (b : TabButton) :
  FinancialStatements company activeTab
    = Some (Statements heading filing buttons content metrics) ->
  b ∈ buttons ->
  exists buttons' content',
    FinancialStatements company (tab_target b)
    = Some (Statements heading filing buttons' content' metrics)
    /\ map tab_target buttons' = map tab_target buttons
    /\ map tab_label buttons' = map tab_label buttons
    /\ (forall b', b' ∈ buttons' ->
          (isActive b' = true <-> tab_target b' = tab_target b))
    /\ length (displayed content') = 1%nat.
Proof.
  intros Hview Hb.
  destruct (FinancialStatements_retab _ _ (tab_target b) _ _ _ _ _ Hview)
    as (buttons' & content' & Hview').
  exists buttons', content'. split; [done|].
  apply FinancialStatements_tabs in Hview as (-> & _).
  apply FinancialStatements_tabs in Hview'
    as (-> & income & balance & cashflow & equity & ->).
  rewrite !elem_of_cons, elem_of_nil in Hb.
  destruct Hb as [->|[->|[->|[->|[]]]]]; cbn [tab_target tabButton];
    (split; [done|]); (split; [done|]); (split; [|by vm_compute]);
    intros b' Hb'; rewrite !elem_of_cons, elem_of_nil in Hb';
    destruct Hb' as [->|[->|[->|[->|[]]]]]; by vm_compute.
Qed.

(* ===================================================================== *)
(** ** Status banners and the report modal *)
(* ===================================================================== *)

Lemma startsWith_prefix s p :
  startsWith s p = true <-> exists rest, s = p ++ rest.
Proof.
  revert s. induction p as [|a p IH]; intros s.
  - destruct s; simpl; (split; [by eexists|done]).
  - destruct s as [|b s]; simpl.
    + split; [done|]. by intros [rest Hrest].
    + rewrite andb_true_iff, N.eqb_eq, IH. split.
      * intros [-> [rest ->]]. by exists rest.
      * intros [rest [= -> ->]]. split; [done|]. by exists rest.
Qed.

(** [includes] finds exactly the occurrences. *)
Lemma includes_occursIn s p : includes s p = true <-> occursIn p s.
Proof.
  unfold occursIn. induction s as [|c s IH]; cbn [includes].
  - rewrite orb_false_r, startsWith_prefix. split.
    + intros [rest Hrest]. by exists [], rest.
    + intros (before & after & H). symmetry in H.
      apply app_eq_nil in H as [-> H]. by exists after.
  - rewrite orb_true_iff, startsWith_prefix, IH. split.
    + intros [[rest ->]|(before & after & ->)].
      * by exists [], rest.
      * by exists (c :: before), after.
    + intros ([|d before] & after & H).
      * left. by exists after.
      * injection H as -> ->. right. by exists before, after.
Qed.

Lemma isErrorStatus_keyword low :
  isErrorStatus low = true
  <-> exists keyword, keyword ∈ statusKeywords /\ occursIn keyword low.
Proof.
  unfold isErrorStatus, statusKeywords.
  rewrite !orb_true_iff, !includes_occursIn. split.
  - intros [[[H|H]|H]|H]; eexists; (split; [|exact H]);
      rewrite !elem_of_cons; auto.
  - intros (keyword & Hk & H). rewrite !elem_of_cons, elem_of_nil in Hk.
    destruct Hk as [->|[->|[->|[->|[]]]]]; auto.
Qed.

Section Banners.
Context {rt : JsRuntime}.

(** X13. A status that is a non-empty string always gets a banner, with
    the status text as it came and the source's label; the banner has the
    error style exactly when the lower-cased status contains one of
    "error", "failed", "not found", "forbidden" somewhere, and the
    warning style otherwise.  A falsy status gets no banner. *)
Theorem status_banner_style (s type : jsstring) (falsy : JsVal) :
  s <> [] ->
  truthy falsy = false ->
  renderStatusMessage falsy type = Some None
  /\ exists banner,
       renderStatusMessage (JStr s) type = Some (Some banner)
       /\ sm_status banner = s
       /\ sm_type banner = type
       /\ (sm_className banner = lit "status-message error"
           <-> exists keyword, keyword ∈ statusKeywords
                 /\ occursIn keyword (toLowerCase s))
       /\ (sm_className banner = lit "status-message warning"
           <-> ~ exists keyword, keyword ∈ statusKeywords
                   /\ occursIn keyword (toLowerCase s)).
Proof.
  intros Hs Hfalsy. split.
  - unfold renderStatusMessage. by rewrite Hfalsy.
  - unfold renderStatusMessage. destruct s as [|c s]; [done|]. simpl.
    eexists. split; [reflexivity|]. split; [done|]. split; [done|].
    rewrite <- isErrorStatus_keyword. simpl.
    destruct (isErrorStatus (toLowerCase (c :: s))); by split.
Qed.

End Banners.

(** X14. With a report object in the state, the modal fails to render
    exactly when [llm_response] is a truthy value that is not a string
    (it has no [split]), [report_generated] cannot be converted to a
    primitive ([new Date] throws), [data_sources] is not an array (it has
    no [join]), or one of its items cannot be converted to a string
    ([join] throws).  Otherwise it renders, with the response text or,
    for a falsy [llm_response], the placeholder.  Every child of the
    modal is then a string. *)
Theorem report_modal_throws_iff (st : State) (m : gmap string JsVal) :
  reportData st = JObj m ->
  (renderReport st = None
   <-> falsyOrString (default JUndefined (m !! "llm_response"%string)) = false
       \/ coercible (default JUndefined (m !! "report_generated"%string)) = false
       \/ isArray (default JUndefined (m !! "data_sources"%string)) = false
       \/ coercible (default JUndefined (m !! "data_sources"%string)) = false)
  /\ (truthy (default JUndefined (m !! "llm_response"%string)) = false ->
      renderReport st <> None ->
      exists generated sources,
        renderReport st
        = Some (Some (mkReportModal
                        (LoadingMessage (lit "Generating AI analysis..."))
                        generated sources))).
Proof.
  intros Hdata. unfold renderReport. rewrite Hdata.
  cbn [truthy negb getProp mbind option_bind].
  unfold responseText, falsyOrString, newDate, join.
  set (llm := default JUndefined (m !! "llm_response"%string)).
  set (rg := default JUndefined (m !! "report_generated"%string)).
  set (ds := default JUndefined (m !! "data_sources"%string)).
  split.
  - destruct (truthy llm) eqn:Ht; simpl.
    + destruct llm; simpl; try (split; [by left|done]); try discriminate.
      destruct (coercible rg) eqn:Hrg; simpl; [|split; [by (right; left)|done]].
      destruct ds as [| | | | |l|o]; simpl;
        try (split; [by (right; right; left)|done]).
      destruct (forallb coercible l) eqn:Hl; simpl.
      * split; [done|]. intros [H|[H|[H|H]]]; discriminate.
      * split; [by (right; right; right)|done].
    + destruct (coercible rg) eqn:Hrg; simpl; [|split; [by (right; left)|done]].
      destruct ds as [| | | | |l|o]; simpl;
        try (split; [by (right; right; left)|done]).
      destruct (forallb coercible l) eqn:Hl; simpl.
      * split; [done|]. intros [H|[H|[H|H]]]; discriminate.
      * split; [by (right; right; right)|done].
  - intros ->. cbn [mbind option_bind].
    destruct (coercible rg); simpl; [|done].
    destruct ds as [| | | | |l|o]; simpl; try done.
    destruct (forallb coercible l); simpl; [|done]. intros _. by eexists _, _.
Qed.

(* ===================================================================== *)
(** ** The dashboard shell *)
(* ===================================================================== *)

Lemma app_selected_is_a_key w :
  appReachable w -> App.selected (App.app w) ∈ map fst App.menuItems.
Proof.
  induction 1 as [|w e _ IH].
  - simpl. rewrite !elem_of_cons. auto.
  - destruct e as [index|o]; unfold App.step.
    + destruct (App.menu (App.render (App.app w)) !! index) as [entry|] eqn:Hentry;
        [|exact IH].
      apply list_elem_of_lookup_2 in Hentry. simpl in Hentry.
      rewrite !elem_of_cons, elem_of_nil in Hentry. simpl. rewrite !elem_of_cons.
      destruct Hentry as [->|[->|[->|[]]]]; simpl; auto.
    + destruct (App.pending w); [|exact IH]. by destruct o.
Qed.

(** X15. Exactly one drawer entry is highlighted in every state the shell
    reaches, the three entries keep their order, and a click on an entry
    highlights that entry and no other. *)
Theorem one_menu_entry_selected (w : App.World) (index : nat) :
  appReachable w ->
  (index < 3)%nat ->
  length (filter (fun entry => App.entry_selected entry = true)
            (App.menu (App.render (App.app w)))) = 1%nat
  /\ map App.entry_key (App.menu (App.render (App.app w)))
     = map fst App.menuItems
  /\ forall n entry,
       App.menu (App.render (App.app (App.step w (App.ClickMenu index)))) !! n
       = Some entry ->
       (App.entry_selected entry = true <-> n = index).
Proof.
  intros Hw Hindex. pose proof (app_selected_is_a_key _ Hw) as Hkey.
  simpl in Hkey. rewrite !elem_of_cons, elem_of_nil in Hkey.
  split; [|split; [done|]].
  - simpl. destruct Hkey as [->|[->|[->|[]]]]; by vm_compute.
  - intros n entry.
    destruct index as [|[|[|index]]]; [| | |lia]; simpl;
      destruct n as [|[|[|n]]]; simpl; try done;
      intros [= <-]; by vm_compute.
Qed.

Lemma app_panel_settle o st :
  App.loading st = true -> App.summary st = JNull -> App.error st = JNull ->
  App.panel (App.settleSummary o st) = summaryPanel o.
Proof.
  intros Hl Hs He. destruct st as [sel sum load err]. simpl in *. subst.
  by destruct o as [message| |data].
Qed.

(** The shell before the request ends, and after. *)
Lemma app_pending_or_settled w :
  appReachable w ->
  (App.pending w = true /\ App.loading (App.app w) = true
   /\ App.summary (App.app w) = JNull /\ App.error (App.app w) = JNull)
  \/ (exists o, settledWith o w).
Proof.
  induction 1 as [|w e _ IH]; [by left|].
  destruct e as [index|o]; unfold App.step.
  - destruct (App.menu (App.render (App.app w)) !! index) as [entry|];
      [|exact IH].
    destruct IH as [(Hp & Hl & Hs & He)|[o Ho]]; [by left|].
    right. exists o. destruct Ho as (Hp & Hc & Ht). by split.
  - destruct IH as [(Hp & Hl & Hs & He)|[o' Ho]].
    + rewrite Hp. right. exists o. unfold settledWith. simpl.
      by rewrite app_panel_settle.
    + destruct Ho as (Hp & Hc & Ht). rewrite Hp. right. by exists o'.
Qed.

(** X16. The summary request decides the screen for good: until it ends
    both the summary card and the activity table show the spinner; from
    then on, whatever is clicked, both show the same thing, the three
    figures of a truthy body, the message of the failure ("Network
    response was not ok" for a response that is not ok), or nothing at
    all when the body or the message is falsy; the spinner never comes
    back. *)
Theorem summary_settles_once
    (w : App.World) (o : App.SummaryOutcome) (clicks : list nat) :
  appReachable w ->
  App.pending w = true ->
  App.summaryCard (App.render (App.app w)) = App.Spinner
  /\ App.activityTable (App.render (App.app w)) = App.Spinner
  /\ settledWith o
       (App.run w (App.SummarySettles o :: map App.ClickMenu clicks))
  /\ summaryPanel o <> App.Spinner.
Proof.
  intros Hw Hp.
  destruct (app_pending_or_settled _ Hw) as [(_ & Hl & Hs & He)|[o' (Hp' & _)]];
    [|congruence].
  split; [by simpl; unfold App.panel; rewrite Hl|].
  split; [by simpl; unfold App.panel; rewrite Hl|].
  split.
  - unfold App.run. simpl. rewrite Hp.
    assert (settledWith o {| App.app := App.settleSummary o (App.app w);
                             App.pending := false |}) as Hsettled.
    { unfold settledWith. simpl. by rewrite app_panel_settle. }
    revert Hsettled.
    generalize ({| App.app := App.settleSummary o (App.app w);
                   App.pending := false |}).
    intros w0 Hw0. revert w0 Hw0.
    induction clicks as [|index clicks IH]; intros w0 Hw0; [exact Hw0|].
    cbn [map foldl]. apply IH. unfold App.step.
    destruct (App.menu (App.render (App.app w0)) !! index) as [entry|];
      [|exact Hw0].
    destruct Hw0 as (Hp0 & Hc0 & Ht0). by split.
  - destruct o as [message| |data]; simpl; try done.
    + by destruct (truthy message).
    + by destruct (truthy data).
Qed.

(* ===================================================================== *)
(** ** More on the transformers and the submit paths *)
(* ===================================================================== *)

Section MoreSearch.
Context {rt : JsRuntime}.

(** X17. What is on screen was built by the transformers: in every world
    the component reaches, each company result is a record of the company
    transformer and each person result a record of the person
    transformer.  The company handed to the statements modal is null or a
    record one of the two transformers built; it need not be among the
    results still listed, since a search replaces the lists and leaves
    the selection alone. *)
Theorem results_on_screen_are_records (w : World) :
  reachable w ->
  Forall isCompanyRecord (companyResults (ui w))
  /\ Forall isPersonRecord (personResults (ui w))
  /\ (selectedCompany (ui w) = JNull
      \/ isCompanyRecord (selectedCompany (ui w))
      \/ isPersonRecord (selectedCompany (ui w)))
  /\ (forall i r,
        selectedCompany (ui (step w (Settle i r))) = selectedCompany (ui w)).
Proof.
  intros Hw.
  assert (holdsRecords (ui w)) as Hrecords.
  { induction Hw as [|w e _ IH].
    - split; [constructor|]. split; [constructor|]. by left.
    - by apply holdsRecords_step. }
  destruct Hrecords as (Hc & Hp & Hs). repeat (split; [done|]).
  intros i r. simpl. destruct (inflight w !! i) as [[k rq]|]; [|done].
  simpl. by destruct (resume_frame k r (ui w)) as [[= -> _ _] _].
Qed.

(** X18. The company transformer reads thirteen fields of an entry and
    nothing else: setting any other field, [executives] among them,
    leaves the record as it was. *)
Theorem company_record_ignores_other_fields
    (o : gmap string JsVal) (k : string) (v : JsVal) :
  k ∉ companyReadFields ->
  companyRecord (JObj (<[k := v]> o)) = companyRecord (JObj o).
Proof.
  unfold companyReadFields. rewrite !not_elem_of_cons.
  intros (H1 & H2 & H3 & H4 & H5 & H6 & H7 & H8 & H9 & H10 & H11 & H12 & H13 & _).
  unfold companyRecord. cbn [getProp mbind option_bind].
  by rewrite !lookup_insert_ne by done.
Qed.

(** X19. The search button is disabled while its lane loads, the query
    field is not: with a company search loading, a click on the button
    changes nothing, and the Enter key in the field issues one more
    request for the query as it then stands. *)
Theorem enter_submits_while_button_is_disabled (w : World) :
  companyLoading (ui w) = true ->
  blank (companyQuery (ui w)) = false ->
  step w ClickSearchCompanies = w
  /\ inflight (step w (KeyDownCompany (lit "Enter")))
     = inflight w
       ++ [(CompanySearchK,
            mkRequest searchUrl
              (obj [("query", JStr (companyQuery (ui w)));
                    ("search_type", JStr (lit "company"))]))].
Proof.
  intros Hload Hquery. split.
  - simpl. by rewrite Hload.
  - unfold step, handleKeyDown, issue. simpl.
    by rewrite (handleCompanySearch_query _ Hquery).
Qed.

(** X20. An ok response with nothing to show empties the list: when the
    body's [companies] is missing, null, otherwise falsy or an empty
    array, the company results become the empty list and no error is
    raised.  A null body is reported as a connection failure and keeps
    the results. *)
Theorem missing_companies_empty_the_results
    (data companies : JsVal) (st : State) :
  getProp data "companies" = Some companies ->
  truthy companies = false \/ companies = JArr [] ->
  companyResults (handleCompanySearch_resume (Resolved true data) st) = []
  /\ companyError (handleCompanySearch_resume (Resolved true data) st)
     = companyError st
  /\ companyResults (handleCompanySearch_resume (Resolved true JNull) st)
     = companyResults st
  /\ companyError (handleCompanySearch_resume (Resolved true JNull) st)
     = connectFailure.
Proof.
  intros Hdata Hempty.
  assert (transformCompanies data = Some []) as Htr.
  { unfold transformCompanies. rewrite Hdata. simpl. unfold forEachEntries.
    destruct Hempty as [->| ->]; done. }
  unfold handleCompanySearch_resume. rewrite Htr. simpl. by destruct st.
Qed.

End MoreSearch.

(* ===================================================================== *)
(** ** More scenarios, run *)
(* ===================================================================== *)

Lemma one_report_in_flight_witness :
  reachable (rt := asciiRuntime)
    (run (rt := asciiRuntime) initialWorld reportRequested)
  /\ reportLoading (ui (run (rt := asciiRuntime) initialWorld reportRequested)) = true
  /\ awaiting isReportK (run (rt := asciiRuntime) initialWorld reportRequested)
     = 1%nat.
Proof.
  assert (reachable (rt := asciiRuntime)
            (run (rt := asciiRuntime) initialWorld reportRequested)) as Hw
    by (apply reachable_run; constructor).
  split; [exact Hw|]. split; [by vm_compute|].
  rewrite (one_report_in_flight (rt := asciiRuntime) _ Hw). by vm_compute.
Defined.

Lemma loading_means_request_in_flight_witness :
  reachable (rt := asciiRuntime)
    (run (rt := asciiRuntime) initialWorld twoRapidSubmits)
  /\ companyLoading (ui (run (rt := asciiRuntime) initialWorld twoRapidSubmits))
     = true
  /\ (0 < awaiting isCompanySearchK
            (run (rt := asciiRuntime) initialWorld twoRapidSubmits))%nat.
Proof.
  assert (reachable (rt := asciiRuntime)
            (run (rt := asciiRuntime) initialWorld twoRapidSubmits)) as Hw
    by (apply reachable_run; constructor).
  assert (companyLoading
            (ui (run (rt := asciiRuntime) initialWorld twoRapidSubmits)) = true)
    as Hload by (by vm_compute).
  split; [exact Hw|]. split; [exact Hload|].
  destruct (loading_means_request_in_flight (rt := asciiRuntime) _ Hw) as [Hc _].
  exact (Hc Hload).
Defined.

Lemma closed_modal_holds_no_report_witness :
  reachable (rt := asciiRuntime)
    (run (rt := asciiRuntime) initialWorld reportClosed)
  /\ showReport (ui (run (rt := asciiRuntime) initialWorld reportClosed)) = false
  /\ reportData (ui (run (rt := asciiRuntime) initialWorld reportClosed)) = JNull.
Proof.
  assert (reachable (rt := asciiRuntime)
            (run (rt := asciiRuntime) initialWorld reportClosed)) as Hw
    by (apply reachable_run; constructor).
  assert (showReport (ui (run (rt := asciiRuntime) initialWorld reportClosed))
          = false) as Hclosed by (by vm_compute).
  split; [exact Hw|]. split; [exact Hclosed|].
  exact (proj1 (closed_modal_holds_no_report (rt := asciiRuntime) _ Hw Hclosed)).
Defined.

Lemma ceo_shown_is_entry_ceo_or_unknown_witness :
  getProp ceoAmongExecutives "ceo" = Some JUndefined
  /\ getCEOName (rt := asciiRuntime) ceoAmongExecutives
     = Some (JStr (lit "Ann Lee"))
  /\ exists record,
       companyRecord ceoAmongExecutives = Some record
       /\ getCEOName (rt := asciiRuntime) record = Some (JStr (lit "Unknown")).
Proof.
  split; [by vm_compute|]. split; [by vm_compute|].
  eexists. split; [by vm_compute|].
  exact (proj1 (ceo_shown_is_entry_ceo_or_unknown (rt := asciiRuntime)
                  ceoAmongExecutives _ JUndefined
                  ltac:(by vm_compute) ltac:(by vm_compute))).
Defined.

Lemma every_company_result_has_its_row_witness :
  reachable (rt := asciiRuntime)
    (run (rt := asciiRuntime) initialWorld (take 3 shrinkingSearch))
  /\ expandedCompanyIndex
       (ui (run (rt := asciiRuntime) initialWorld (take 3 shrinkingSearch)))
     = None
  /\ exists row rest,
       renderCompanyRows (rt := asciiRuntime)
         (ui (run (rt := asciiRuntime) initialWorld (take 3 shrinkingSearch)))
       = Some (row :: rest)
       /\ length rest = 1%nat
       /\ rowMounts row = true.
Proof.
  assert (reachable (rt := asciiRuntime)
            (run (rt := asciiRuntime) initialWorld (take 3 shrinkingSearch)))
    as Hw by (apply reachable_run; constructor).
  assert (expandedCompanyIndex
            (ui (run (rt := asciiRuntime) initialWorld (take 3 shrinkingSearch)))
          = None) as Hnone by (by vm_compute).
  split; [exact Hw|]. split; [exact Hnone|].
  destruct (every_company_result_has_its_row (rt := asciiRuntime) _ Hw)
    as [Hrows Hcollapsed].
  destruct (Hcollapsed Hnone) as (rows & Hrender & Hmounts).
  destruct (Hrows rows Hrender) as [Hlen _].
  assert (exists result rest,
            companyResults
              (ui (run (rt := asciiRuntime) initialWorld (take 3 shrinkingSearch)))
            = result :: rest
            /\ length rest = 1%nat
            /\ validChild (fieldOf result "name")
               && validChild (fieldOf result "ticker")
               && validChild (fieldOf result "ceo_name") = true)
    as (result & others & Hresults & Hothers & Hvalid)
    by (eexists _, _; split; [by vm_compute|split; by vm_compute]).
  rewrite Hresults in Hlen.
  destruct rows as [|row rest]; [discriminate|].
  exists row, rest. split; [exact Hrender|].
  split; [simpl in Hlen; lia|].
  rewrite (Hmounts 0%nat row result eq_refl); [exact Hvalid|].
  by rewrite Hresults.
Defined.

Lemma expanded_row_throws_on_non_string_status_witness :
  companyRecord numericStatusCompany = Some numericStatusRecord
  /\ getProp numericStatusRecord "edgar_status" = Some (JNum 404)
  /\ companyRow (rt := asciiRuntime) (Some 0%nat) numericStatusRecord 0 = None
  /\ is_Some (companyRow (rt := asciiRuntime) None numericStatusRecord 0)
  /\ companyRecord objectNameCompany = Some objectNameRecord
  /\ exists row,
       companyRow (rt := asciiRuntime) (Some 0%nat) objectNameRecord 0 = Some row
       /\ rowMounts row = false.
Proof.
  assert (companyRecord numericStatusCompany = Some numericStatusRecord)
    as Hrecord by (by vm_compute).
  assert (companyRecord objectNameCompany = Some objectNameRecord)
    as Hobject by (by vm_compute).
  split; [exact Hrecord|]. split; [by vm_compute|]. split; [|split; [|split]].
  - apply (proj1 (expanded_row_throws_on_non_string_status (rt := asciiRuntime)
                    numericStatusCompany numericStatusRecord 0 Hrecord)).
    exists "edgar_status"%string, (JNum 404).
    split; [unfold statusFields; rewrite !elem_of_cons; auto|].
    split; by vm_compute.
  - vm_compute. by eexists.
  - exact Hobject.
  - assert (exists row,
              companyRow (rt := asciiRuntime) (Some 0%nat) objectNameRecord 0
              = Some row) as [row Hrow] by (vm_compute; by eexists).
    exists row. split; [exact Hrow|].
    rewrite (proj2 (expanded_row_throws_on_non_string_status (rt := asciiRuntime)
                      objectNameCompany objectNameRecord 0 Hobject) row Hrow).
    by vm_compute.
Defined.

Lemma person_cards_always_render_witness :
  reachable (rt := asciiRuntime)
    (run (rt := asciiRuntime) initialWorld reportRequested)
  /\ exists card,
       renderIndividualResults (rt := asciiRuntime)
         (ui (run (rt := asciiRuntime) initialWorld reportRequested))
       = Some [card]
       /\ card_report_disabled card = true
       /\ cardMounts card = true.
Proof.
  assert (reachable (rt := asciiRuntime)
            (run (rt := asciiRuntime) initialWorld reportRequested)) as Hw
    by (apply reachable_run; constructor).
  split; [exact Hw|].
  destruct (person_cards_always_render (rt := asciiRuntime) _ Hw)
    as (cards & Hcards & Hlen & Hall & Hmounts).
  assert (exists result,
            personResults
              (ui (run (rt := asciiRuntime) initialWorld reportRequested))
            = [result]
            /\ validChild (fieldOf result "name")
               && validChild (fieldOf result "title")
               && validChild (fieldOf result "company")
               && validChild (fieldOf result "estimated_net_worth")
               && validAttribute (fieldOf result "linkedin_url") = true)
    as (result & Hresults & Hvalid)
    by (eexists; split; by vm_compute).
  rewrite Hresults in Hlen.
  destruct cards as [|card [|? ?]]; try discriminate.
  exists card. split; [exact Hcards|]. split.
  - apply Forall_cons in Hall as [(_ & _ & _ & _ & _ & ->) _]. by vm_compute.
  - rewrite (Hmounts 0%nat card result eq_refl); [exact Hvalid|].
    by rewrite Hresults.
Defined.

Lemma person_statements_are_always_no_data_witness :
  personRecord janeRich = Some janeRecord
  /\ exists notice,
       FinancialStatements janeRecord (lit "balance")
       = Some (NoFinancialData (JStr (lit "Jane Doe")) notice).
Proof.
  assert (personRecord janeRich = Some janeRecord) as Hrecord by (by vm_compute).
  split; [exact Hrecord|].
  destruct (person_statements_are_always_no_data (rt := asciiRuntime)
              janeRich janeRecord (JStr (lit "Jane Doe")) JUndefined
              false 0 (lit "balance")
              Hrecord ltac:(by vm_compute) ltac:(by vm_compute))
    as [_ [notice Hview]].
  by exists notice.
Defined.


Lemma clicked_tab_becomes_the_active_one_witness :
  exists buttons content,
    (exists heading filing metrics,
       FinancialStatements filedRecord (lit "balance")
       = Some (Statements heading filing buttons content metrics))
    /\ map isActive buttons = [false; true; false; false]
    /\ length (displayed content) = 1%nat.
Proof.
  assert (exists heading filing buttons content metrics,
            FinancialStatements filedRecord initialTab
            = Some (Statements heading filing buttons content metrics))
    as (heading & filing & buttons0 & content0 & metrics & Hview0)
    by (vm_compute; by eexists _, _, _, _, _).
  assert (tabButton initialTab (lit "balance") (lit "Balance Sheet") ∈ buttons0)
    as Hb.
  { pose proof Hview0 as Htabs.
    apply FinancialStatements_tabs in Htabs as [-> _].
    rewrite !elem_of_cons. auto. }
  destruct (clicked_tab_becomes_the_active_one filedRecord initialTab
              _ _ _ _ _ _ Hview0 Hb)
    as (buttons & content & Hview & _ & _ & _ & Hone).
  exists buttons, content. split; [by eexists _, _, _|].
  split; [|exact Hone].
  apply FinancialStatements_tabs in Hview as [-> _]. by vm_compute.
Defined.

Lemma status_banner_style_witness :
  lit "Filing not found" <> []
  /\ truthy JNull = false
  /\ exists banner,
       renderStatusMessage (rt := asciiRuntime)
         (JStr (lit "Filing not found")) (lit "SEC EDGAR") = Some (Some banner)
       /\ sm_className banner = lit "status-message error".
Proof.
  assert (lit "Filing not found" <> []) as Hs by (by vm_compute).
  split; [exact Hs|]. split; [reflexivity|].
  destruct (status_banner_style (rt := asciiRuntime)
              (lit "Filing not found") (lit "SEC EDGAR") JNull Hs eq_refl)
    as [_ (banner & Hbanner & _ & _ & Herror & _)].
  exists banner. split; [exact Hbanner|]. apply Herror.
  exists (lit "not found").
  split; [unfold statusKeywords; rewrite !elem_of_cons; auto|].
  exists (lit "filing "), []. by vm_compute.
Defined.

Lemma report_modal_throws_iff_witness :
  reportData (setReportData reportWithOddSource initialState)
  = reportWithOddSource
  /\ renderReport (setReportData reportWithOddSource initialState) = None
  /\ is_Some (renderReport (setReportData reportOk initialState)).
Proof.
  split; [reflexivity|]. split.
  - apply (proj1 (report_modal_throws_iff
                    (setReportData reportWithOddSource initialState)
                    (list_to_map
                       [("llm_response"%string, JStr pointOneReport);
                        ("report_generated"%string,
                         JStr (lit "2024-01-01T00:00:00Z"));
                        ("data_sources"%string,
                         JArr [obj [("toString", JNum 1)]])])
                    eq_refl)).
    right. right. right. by vm_compute.
  - vm_compute. by eexists.
Defined.

Lemma one_menu_entry_selected_witness :
  appReachable (App.run App.initialWorld [App.ClickMenu 2])
  /\ (1 < 3)%nat
  /\ map App.entry_selected
       (App.menu (App.render (App.app
          (App.step (App.run App.initialWorld [App.ClickMenu 2])
                    (App.ClickMenu 1)))))
     = [false; true; false].
Proof.
  assert (appReachable (App.run App.initialWorld [App.ClickMenu 2])) as Hw
    by (repeat constructor).
  split; [exact Hw|]. split; [lia|].
  destruct (one_menu_entry_selected _ 1 Hw ltac:(lia)) as (_ & _ & _).
  by vm_compute.
Defined.

Lemma summary_settles_once_witness :
  appReachable App.initialWorld
  /\ App.pending App.initialWorld = true
  /\ App.summaryCard
       (App.render (App.app
          (App.run App.initialWorld
             [App.SummarySettles App.NotOk; App.ClickMenu 1])))
     = App.ErrorText (JStr (lit "Network response was not ok")).
Proof.
  split; [constructor|]. split; [reflexivity|].
  destruct (summary_settles_once App.initialWorld App.NotOk [1%nat]
              appReachable_initial eq_refl) as (_ & _ & (_ & Hcard & _) & _).
  exact Hcard.
Defined.

Lemma results_on_screen_are_records_witness :
  reachable (rt := asciiRuntime)
    (run (rt := asciiRuntime) initialWorld shrinkingSearch)
  /\ Forall isCompanyRecord
       (companyResults
          (ui (run (rt := asciiRuntime) initialWorld shrinkingSearch))).
Proof.
  assert (reachable (rt := asciiRuntime)
            (run (rt := asciiRuntime) initialWorld shrinkingSearch)) as Hw
    by (apply reachable_run; constructor).
  split; [exact Hw|].
  exact (proj1 (results_on_screen_are_records (rt := asciiRuntime) _ Hw)).
Defined.

Lemma company_record_ignores_other_fields_witness :
  ("executives"%string ∉ companyReadFields)
  /\ companyRecord ceoAmongExecutives
     = companyRecord (obj [("name", JStr (lit "Acme Corp"))]).
Proof.
  assert ("executives"%string ∉ companyReadFields) as Hk
    by (unfold companyReadFields; rewrite !not_elem_of_cons;
        repeat (split; [discriminate|]); apply not_elem_of_nil).
  split; [exact Hk|].
  exact (company_record_ignores_other_fields
           (list_to_map [("name"%string, JStr (lit "Acme Corp"))])
           "executives"
           (JArr [obj [("name", JStr (lit "Ann Lee")); ("title", JStr (lit "CEO"))]])
           Hk).
Defined.

Lemma enter_submits_while_button_is_disabled_witness :
  let w := run (rt := asciiRuntime) initialWorld (take 3 twoRapidSubmits) in
  companyLoading (ui w) = true
  /\ blank (companyQuery (ui w)) = false
  /\ step (rt := asciiRuntime) w ClickSearchCompanies = w
  /\ length (inflight (step (rt := asciiRuntime) w (KeyDownCompany (lit "Enter"))))
     = 2%nat.
Proof.
  intros w.
  assert (companyLoading (ui w) = true) as Hload by (by vm_compute).
  assert (blank (companyQuery (ui w)) = false) as Hquery by (by vm_compute).
  destruct (enter_submits_while_button_is_disabled (rt := asciiRuntime) w
              Hload Hquery) as [Hclick Henter].
  split; [exact Hload|]. split; [exact Hquery|]. split; [exact Hclick|].
  rewrite Henter. by vm_compute.
Defined.

Lemma missing_companies_empty_the_results_witness :
  getProp (obj [("individuals", JArr [])]) "companies" = Some JUndefined
  /\ companyResults
       (handleCompanySearch_resume (rt := asciiRuntime)
          (Resolved true (obj [("individuals", JArr [])]))
          (setCompanyResults [filedRecord] initialState))
     = [].
Proof.
  split; [by vm_compute|].
  exact (proj1 (missing_companies_empty_the_results (rt := asciiRuntime)
                  (obj [("individuals", JArr [])]) JUndefined
                  (setCompanyResults [filedRecord] initialState)
                  ltac:(by vm_compute) (or_introl eq_refl))).
Defined.

Lemma settled_search_replaces_or_reports_witness :
  builtCompanies (rt := asciiRuntime) (Resolved true nullEntryCompanies) = None
  /\ builtCompanies (rt := asciiRuntime) (Resolved true alphaData)
     = Some alphaRecords
  /\ companyResults
       (handleCompanySearch_resume (rt := asciiRuntime)
          (Resolved true alphaData)
          (setCompanyResults [filedRecord] initialState))
     = alphaRecords
  /\ companyResults
       (handleCompanySearch_resume (rt := asciiRuntime)
          (Resolved true nullEntryCompanies)
          (setCompanyResults [filedRecord] initialState))
     = [filedRecord].
Proof.
  assert (builtCompanies (rt := asciiRuntime) (Resolved true nullEntryCompanies)
          = None) as Hnone by (by vm_compute).
  assert (builtCompanies (rt := asciiRuntime) (Resolved true alphaData)
          = Some alphaRecords) as Hsome by (by vm_compute).
  split; [exact Hnone|]. split; [exact Hsome|]. split.
  - destruct (settled_search_replaces_or_reports (rt := asciiRuntime)
                (Resolved true alphaData)
                (setCompanyResults [filedRecord] initialState))
      as [(_ & Hbuilt & _) _].
    exact (proj1 (Hbuilt alphaRecords Hsome)).
  - destruct (settled_search_replaces_or_reports (rt := asciiRuntime)
                (Resolved true nullEntryCompanies)
                (setCompanyResults [filedRecord] initialState))
      as [(_ & _ & Hkept) _].
    exact (proj1 (Hkept Hnone)).
Defined.
